(** * MCP Stripe monetization plugin: billing hooks, database manager and
      SQLite adapter, embedded shallowly and checked against the design
      document.

    Source files covered:
    - [src/core/plugin.ts]                      ([Module Plugin])
    - [src/api/stripe-endpoints.ts]             ([Module Endpoints])
    - [src/core/database/adapters/sqlite.ts]    ([Module Sqlite])
    - [src/core/database/manager.ts]            ([Module Manager])
    - [src/utils/helpers.ts] (createBasicSetup) ([Module Helpers])

    [Module Spec] holds the wording of the design document where it is
    compared with the code, [Module Scenario] and [Module Run] the helper
    behaviours, inputs and runs the statements are about.  The properties
    follow the definitions, a module per component.

    Conventions.  JavaScript numbers that the program stores in INTEGER
    columns or treats as amounts in minor currency units are integers
    ([Z]).  A [Date] is the instant it denotes, in milliseconds since the
    epoch.  An [async] function is the function from its inputs (and the
    store it works on) to its settled outcome: [Returned v] for a
    fulfilled promise, [Thrown e] for a rejected one.  What the runtime
    supplies ([Math.random()], [uuidv4()], [new Date()],
    [process.env]) is an argument of the function that reads it. *)

From Stdlib Require Import ZArith Ascii.
From stdpp Require Import gmap strings list fin_maps pretty.

#[local] Open Scope string_scope.
#[local] Open Scope Z_scope.

(* ===================================================================== *)
(** ** JavaScript values *)
(* ===================================================================== *)

Module Js.

#[local] Set Warnings "-register-all".

(** The dynamically typed values the program passes around ([any],
    [Record<string, any>], object literals).  Numbers are integers: NaN,
    infinities and fractions are outside the model. *)
Inductive value : Type :=
  | VUndef
  | VNull
  | VBool (b : bool)
  | VNum (n : Z)
  | VStr (s : string)
  | VDate (t : Z)
  | VArr (l : list value)
  | VObj (o : gmap string value).

#[local] Set Warnings "register-all".

(** [o.k] on an object: a missing property reads as [undefined]. *)
Definition get (k : string) (o : gmap string value) : value :=
  default VUndef (o !! k).

(** [v?.k], also [v.k] on a value known not to be null or undefined: none
    of the property names the program reads this way exists on a
    primitive, an array or a Date. *)
Definition opt_get (v : value) (k : string) : value :=
  match v with
  | VObj o => get k o
  | _ => VUndef
  end.

(** ToBoolean. *)
Definition truthy (v : value) : bool :=
  match v with
  | VUndef | VNull => false
  | VBool b => b
  | VNum n => negb (Z.eqb n 0)
  | VStr s => negb (String.eqb s "")
  | VDate _ | VArr _ | VObj _ => true
  end.

(** [a || b]. *)
Definition or_else (a b : value) : value := if truthy a then a else b.

(** [v === 'lit'] for a string literal. *)
Definition is_lit (v : value) (lit : string) : bool :=
  match v with
  | VStr s => String.eqb s lit
  | _ => false
  end.

(** [typeof v === 'number']. *)
Definition is_number (v : value) : bool :=
  match v with VNum _ => true | _ => false end.

(** [v instanceof Date]. *)
Definition is_date (v : value) : bool :=
  match v with VDate _ => true | _ => false end.

(** [['a', 'b', ...].includes(v)] for an array of string literals. *)
Definition includes (lits : list string) (v : value) : bool :=
  existsb (is_lit v) lits.

(** The own enumerable properties copied by [{...v}]: those of an object,
    the indexed elements of an array or string, nothing otherwise. *)
Definition spread (v : value) : gmap string value :=
  match v with
  | VObj o => o
  | VArr l => list_to_map (imap (λ i x, (pretty i, x)) l)
  | VStr s =>
      list_to_map
        (imap (λ i c, (pretty i, VStr (String c EmptyString)))
              (String.list_ascii_of_string s))
  | _ => ∅
  end.

(** An optional number as a value. *)
Definition of_num (o : option Z) : value :=
  match o with Some n => VNum n | None => VUndef end.

(** An optional string as a value. *)
Definition of_str (o : option string) : value :=
  match o with Some s => VStr s | None => VUndef end.

(** What a template literal prints for an optional number. *)
Definition show_num (o : option Z) : string :=
  match o with Some n => pretty n | None => "undefined" end.

End Js.

(* ===================================================================== *)
(** ** Errors and outcomes *)
(* ===================================================================== *)

(** The exceptions the modelled code throws, each with the arguments the
    throwing code passes to its constructor: a message, then the list of
    field errors ([ValidationError]), the operation and table
    ([DatabaseError]) or the customer id ([CustomerNotFoundError]). *)
Inductive error : Type :=
  | Error (message : string)
  | ValidationError (message : string) (fields : list (string * string))
  | DatabaseError (message operation : string) (table : option string)
  | CustomerNotFoundError (message customerId : string).

(** The settled state of a promise. *)
Inductive outcome (A : Type) : Type :=
  | Returned (a : A)
  | Thrown (e : error).
Arguments Returned {A} a.
Arguments Thrown {A} e.

Definition is_returned {A} (o : outcome A) : bool :=
  match o with Returned _ => true | Thrown _ => false end.

(** [error.message]. *)
Definition error_message (e : error) : string :=
  match e with
  | Error m | ValidationError m _ | DatabaseError m _ _
  | CustomerNotFoundError m _ => m
  end.

(* ===================================================================== *)
(** ** The plugin hooks (src/core/plugin.ts) *)
(* ===================================================================== *)

Module Plugin.
Import Js.

(** [ToolCallContext] and [ToolCallResult] of the proxy wrapper, as far as
    the hooks read and write them. *)
Record ToolCallContext : Type := {
  toolName : string;
  args : value;
  metadata : value;
}.

Record ToolCallResult : Type := {
  result : gmap string value;
}.

(** The plugin object: [this.config], [this.stripeEndpoints] (the
    configuration the endpoints were built from) and [this.initialized]. *)
Record StripeMonetizationPlugin : Type := {
  config : gmap string value;
  stripeEndpoints : gmap string value;
  initialized : bool;
}.

(** [constructor(config)]: the second assignment to [this.config] is the
    one that stays. *)
Definition constructor (cfg : gmap string value) : StripeMonetizationPlugin :=
  {| config := {[ "enabled" := VBool true;
                  "priority" := VNum 150;
                  "debug" := or_else (get "debug" cfg) (VBool false) ]};
     stripeEndpoints := cfg;
     initialized := false |}.

(** Return types of the private helpers. *)
Record AuthResult : Type := {
  authenticated : bool;
  userId : option string;
}.

Record RateLimitResult : Type := {
  exceeded : bool;
  retryAfter : option Z;
}.

Record BillingResult : Type := {
  canProceed : bool;
  amount : option Z;
  message : option string;
}.

(** Calls that leave the hook towards the usage store and the payment
    processor, in the order they are made. *)
Inductive call : Type :=
  | RecordUsage (usage : value)
  | ProcessPayment (payment : value).

(** *** Hook computations: exceptions and the log of outgoing calls *)

Definition M (A : Type) : Type := list call → outcome A * list call.

Definition ret {A} (a : A) : M A := λ log, (Returned a, log).

Definition throw {A} (e : error) : M A := λ log, (Thrown e, log).

Definition bind {A B} (m : M A) (k : A → M B) : M B :=
  λ log,
    match m log with
    | (Returned a, log') => k a log'
    | (Thrown e, log') => (Thrown e, log')
    end.

(** [try { m } catch (error) { h error }]. *)
Definition try_catch {A} (m : M A) (h : error → M A) : M A :=
  λ log,
    match m log with
    | (Returned a, log') => (Returned a, log')
    | (Thrown e, log') => h e log'
    end.

(** [await] of a helper that leaves no trace. *)
Definition await {A} (o : outcome A) : M A := λ log, (o, log).

(** [await] of an outgoing call: it is logged whether or not it throws. *)
Definition invoke (c : call) (o : outcome unit) : M unit :=
  λ log, (o, (log ++ [c])%list).

Notation "'let!' x ':=' m 'in' k" := (bind m (λ x, k))
  (at level 10, x name, m at level 100, k at level 200).

(** The private helper methods of the class.  The hooks are written
    against this interface; [Mock] below gives the implementations the
    source file contains.  Keeping the interface apart lets the hooks'
    control flow, catch blocks included, be stated for helpers that block
    or throw. *)
Class Backend : Type := {
  authenticateUser : ToolCallContext → outcome AuthResult;
  checkRateLimit : ToolCallContext → option string → outcome RateLimitResult;
  checkBilling :
    StripeMonetizationPlugin → ToolCallContext → option string →
    outcome BillingResult;
  recordUsage : value → outcome unit;
  processPayment : value → outcome unit;
}.

(** The error result the hook returns to stop a call:
    [{ result: { isError: true, content: [{ type: 'text', text }] } }]. *)
Definition errorResult (text : value) : ToolCallResult :=
  {| result :=
       {[ "isError" := VBool true;
          "content" := VArr [VObj {[ "type" := VStr "text"; "text" := text ]}] ]} |}.

(** [result.result._meta = m]. *)
Definition set_meta (res : ToolCallResult) (m : value) : ToolCallResult :=
  {| result := <["_meta" := m]> (result res) |}.

(** [context.metadata = m]. *)
Definition set_metadata (context : ToolCallContext) (m : value) : ToolCallContext :=
  {| toolName := toolName context; args := args context; metadata := m |}.

Section Hooks.
Context `{Backend}.

(** [beforeToolCall]: the value returned ([None] for [undefined], that
    is, proceed to the tool) and the context as the hook leaves it. *)
Definition beforeToolCall (this : StripeMonetizationPlugin)
    (context : ToolCallContext) : M (option ToolCallResult * ToolCallContext) :=
  if negb (initialized this) then
    throw (Error "Stripe Monetization Plugin not initialized")
  else
    try_catch
      (let! authResult := await (authenticateUser context) in
       if negb (authenticated authResult) then
         ret (Some (errorResult
                (VStr "Authentication required. Please provide valid credentials.")),
              context)
       else
       let! rateLimitResult := await (checkRateLimit context (userId authResult)) in
       if exceeded rateLimitResult then
         ret (Some (errorResult
                (VStr ("Rate limit exceeded. Try again in "
                       +:+ show_num (retryAfter rateLimitResult)
                       +:+ " seconds."))),
              context)
       else
       let! billingResult := await (checkBilling this context (userId authResult)) in
       if negb (canProceed billingResult) then
         ret (Some (errorResult
                (or_else (of_str (message billingResult))
                         (VStr "Payment required to use this tool."))),
              context)
       else
         ret (None,
              set_metadata context
                (VObj (<["billing" :=
                           VObj {[ "userId" := of_str (userId authResult);
                                   "amount" := of_num (amount billingResult);
                                   "currency" := VStr "usd";
                                   "billingModel" := get "billingModel" (config this) ]}]>
                         (spread (metadata context))))))
      (λ _,
         if is_lit (get "environment" (config this)) "development" then
           ret (None, context)
         else
           ret (Some (errorResult
                  (VStr "Billing system temporarily unavailable. Please try again later.")),
                context)).

(** The object handed to [recordUsage]. *)
Definition usageOf (billingData : value) (context : ToolCallContext)
    (now : Z) (res : ToolCallResult) : value :=
  VObj {[ "userId" := opt_get billingData "userId";
          "toolName" := VStr (toolName context);
          "amount" := opt_get billingData "amount";
          "timestamp" := VDate now;
          "success" := VBool (negb (truthy (get "isError" (result res)))) ]}.

(** The object handed to [processPayment]. *)
Definition paymentOf (billingData : value) (context : ToolCallContext) : value :=
  VObj {[ "userId" := opt_get billingData "userId";
          "amount" := opt_get billingData "amount";
          "toolName" := VStr (toolName context);
          "billingModel" := opt_get billingData "billingModel" ]}.

(** The billing summary stored under [_meta.billing] on the normal path;
    [now] is the text [new Date().toISOString()] evaluates to. *)
Definition billingSummary (billingData : value) (context : ToolCallContext)
    (now : string) (res : ToolCallResult) : value :=
  VObj {[ "charged" := VBool (negb (truthy (get "isError" (result res))));
          "amount" := opt_get billingData "amount";
          "currency" := VStr "usd";
          "toolName" := VStr (toolName context);
          "timestamp" := VStr now ]}.

(** The billing entry stored under [_meta.billing] by the catch block. *)
Definition billingFailure : value :=
  VObj {[ "error" := VStr "Billing processing failed";
          "charged" := VBool false ]}.

(** [{ ...result.result._meta, billing: b }]. *)
Definition with_billing (res : ToolCallResult) (b : value) : value :=
  VObj (<["billing" := b]> (spread (get "_meta" (result res)))).

(** [afterToolCall]; [tUsage] is the instant of the first [new Date()]
    and [tMeta] the text of the second, [new Date().toISOString()]. *)
Definition afterToolCall (this : StripeMonetizationPlugin) (tUsage : Z)
    (tMeta : string) (context : ToolCallContext) (res : ToolCallResult)
    : M ToolCallResult :=
  if negb (initialized this) then ret res
  else
    try_catch
      (let billingData := opt_get (metadata context) "billing" in
       if truthy billingData then
         let! _ := invoke (RecordUsage (usageOf billingData context tUsage res))
                          (recordUsage (usageOf billingData context tUsage res)) in
         let! _ := (if negb (truthy (get "isError" (result res))) then
                      invoke (ProcessPayment (paymentOf billingData context))
                             (processPayment (paymentOf billingData context))
                    else ret tt) in
         ret (set_meta res (with_billing res (billingSummary billingData context tMeta res)))
       else ret res)
      (λ _, ret (set_meta res (with_billing res billingFailure))).

End Hooks.

(** The helper methods as the source implements them.  [rnd] is the text
    [Math.random().toString(36).substr(2, 9)] evaluates to. *)
Module Mock.

Definition authenticateUser (rnd : string) (context : ToolCallContext)
    : outcome AuthResult :=
  let authHeader :=
    or_else (opt_get (metadata context) "authorization")
            (opt_get (args context) "auth") in
  if negb (truthy authHeader) then
    Returned {| authenticated := false; userId := None |}
  else
    Returned {| authenticated := true; userId := Some ("user_" +:+ rnd) |}.

Definition checkRateLimit (context : ToolCallContext) (userId : option string)
    : outcome RateLimitResult :=
  Returned {| exceeded := false; retryAfter := None |}.

Definition checkBilling (this : StripeMonetizationPlugin)
    (context : ToolCallContext) (userId : option string) : outcome BillingResult :=
  let billingModel := get "billingModel" (config this) in
  if is_lit billingModel "per-call" then
    Returned {| canProceed := true; amount := Some 100; message := None |}
  else if is_lit billingModel "subscription" then
    Returned {| canProceed := true; amount := Some 0; message := None |}
  else if is_lit billingModel "freemium" then
    Returned {| canProceed := true; amount := Some 0; message := None |}
  else
    Returned {| canProceed := true; amount := Some 100; message := None |}.

Definition recordUsage (usage : value) : outcome unit := Returned tt.

Definition processPayment (payment : value) : outcome unit := Returned tt.

End Mock.

Definition mock (rnd : string) : Backend := {|
  authenticateUser := Mock.authenticateUser rnd;
  checkRateLimit := Mock.checkRateLimit;
  checkBilling := Mock.checkBilling;
  recordUsage := Mock.recordUsage;
  processPayment := Mock.processPayment;
|}.

End Plugin.

(* ===================================================================== *)
(** ** Webhook entry point (src/api/stripe-endpoints.ts) *)
(* ===================================================================== *)

Module Endpoints.
Import Js.

(** The endpoints object: the configuration it was built with and the
    Stripe client, which the constructor never assigns. *)
Record StripeAPIEndpoints : Type := {
  config : gmap string value;
  stripe : value;
}.

Record WebhookResponse : Type := {
  received : bool;
  eventType : option string;
  customerId : option string;
  processed : option bool;
}.

(** [handleWebhook(payload, signature)], as a step on the endpoints
    object: the method reads neither argument, assigns no field of [this]
    and holds no reference to a store. *)
Definition handleWebhook (payload signature : string)
    (this : StripeAPIEndpoints) : outcome WebhookResponse * StripeAPIEndpoints :=
  (Returned {| received := true;
               eventType := Some "payment_intent.succeeded";
               customerId := Some "cus_example123";
               processed := Some true |},
   this).

End Endpoints.

(* ===================================================================== *)
(** ** SQLite adapter (src/core/database/adapters/sqlite.ts) *)
(* ===================================================================== *)

Module Sqlite.

(** One row of the [customers] table, a field per column.  [None] is SQL
    NULL.  The DATETIME columns hold ISO-8601 text, represented by the
    instant it denotes; the [metadata] column holds the JSON text of a
    string-to-string record, represented by that record. *)
Module Row.
Record t : Type := {
  customer_id : string;
  stripe_customer_id : option string;
  email : string;
  name : option string;
  metadata : option (gmap string string);
  subscription_status : option string;
  plan_id : option string;
  credits : Z;
  created_at : Z;
  updated_at : Z;
  usage_total_calls : Z;
  usage_current_period_calls : Z;
  usage_last_call_at : option Z;
  usage_total_spent : Z;
  payment_method_type : option string;
  payment_method_last4 : option string;
  payment_method_brand : option string;
  payment_method_expiry_month : option Z;
  payment_method_expiry_year : option Z;
  status : string;
}.
End Row.

(** The adapter object: its table prefix and the [customers] table, keyed
    by the primary key [customer_id].  The other five tables are not
    touched by the methods modelled here. *)
Record SqliteAdapter : Type := {
  tablePrefix : option string;
  customers : gmap string Row.t;
}.

(** What the runtime supplies to a call: the next [uuidv4()] and the
    reading of [new Date()]. *)
Record Env : Type := {
  uuidv4 : string;
  now : Z;
}.

(** [CustomerInfo.usage] and [CustomerInfo.paymentMethod]. *)
Record Usage : Type := {
  totalCalls : Z;
  currentPeriodCalls : Z;
  lastCallAt : option Z;
  totalSpent : Z;
}.

Record PaymentMethod : Type := {
  type : string;
  last4 : option string;
  brand : option string;
  expiryMonth : option Z;
  expiryYear : option Z;
}.

(** [Omit<CustomerInfo, 'customerId' | 'createdAt' | 'updatedAt'>]: the
    fields a caller supplies.  [None] is an absent property on the way in,
    and [null] or [undefined] on the way out. *)
Record CustomerData : Type := {
  stripeCustomerId : option string;
  email : string;
  name : option string;
  metadata : option (gmap string string);
  subscriptionStatus : option string;
  planId : option string;
  credits : option Z;
  usage : option Usage;
  paymentMethod : option PaymentMethod;
  status : string;
}.

(** [CustomerInfo]: the supplied fields next to the three the server
    assigns. *)
Record CustomerInfo : Type := {
  customerId : string;
  createdAt : Z;
  updatedAt : Z;
  fields : CustomerData;
}.

(** [s || null] on an optional string, [n || null] and [n || 0] on an
    optional number. *)
Definition str_or_null (o : option string) : option string :=
  match o with
  | Some s => if String.eqb s "" then None else Some s
  | None => None
  end.

Definition num_or_null (o : option Z) : option Z :=
  match o with
  | Some n => if Z.eqb n 0 then None else Some n
  | None => None
  end.

Definition num_or_zero (o : option Z) : Z :=
  match o with
  | Some n => if Z.eqb n 0 then 0 else n
  | None => 0
  end.

Definition getTableName (this : SqliteAdapter) (table : string) : string :=
  match str_or_null (tablePrefix this) with
  | Some prefix => prefix +:+ table
  | None => "mcp_stripe_" +:+ table
  end.

(** The constraints of the [customers] table an INSERT can violate:
    PRIMARY KEY on [customer_id], UNIQUE on [email], UNIQUE on
    [stripe_customer_id] (NULLs never collide). *)
Inductive violation : Type :=
  | PrimaryKey
  | UniqueEmail
  | UniqueStripeCustomerId.

Definition check_insert (r : Row.t) (tbl : gmap string Row.t) : option violation :=
  if bool_decide (is_Some (tbl !! Row.customer_id r)) then Some PrimaryKey
  else if bool_decide (map_Exists (λ _ r', Row.email r' = Row.email r) tbl)
  then Some UniqueEmail
  else if bool_decide
            (map_Exists (λ _ r', is_Some (Row.stripe_customer_id r) ∧
                                 Row.stripe_customer_id r' = Row.stripe_customer_id r) tbl)
  then Some UniqueStripeCustomerId
  else None.

(** The text node-sqlite3 puts in the error of a failed statement. *)
Definition violation_message (this : SqliteAdapter) (v : violation) : string :=
  "SQLITE_CONSTRAINT: UNIQUE constraint failed: "
  +:+ getTableName this "customers" +:+ "."
  +:+ match v with
      | PrimaryKey => "customer_id"
      | UniqueEmail => "email"
      | UniqueStripeCustomerId => "stripe_customer_id"
      end.

Definition mapRowToCustomer (row : Row.t) : CustomerInfo :=
  {| customerId := Row.customer_id row;
     createdAt := Row.created_at row;
     updatedAt := Row.updated_at row;
     fields :=
       {| stripeCustomerId := Row.stripe_customer_id row;
          email := Row.email row;
          name := Row.name row;
          metadata := Row.metadata row;
          subscriptionStatus := Row.subscription_status row;
          planId := Row.plan_id row;
          credits := Some (Row.credits row);
          usage :=
            Some {| totalCalls := num_or_zero (Some (Row.usage_total_calls row));
                    currentPeriodCalls :=
                      num_or_zero (Some (Row.usage_current_period_calls row));
                    lastCallAt := Row.usage_last_call_at row;
                    totalSpent := num_or_zero (Some (Row.usage_total_spent row)) |};
          paymentMethod :=
            match str_or_null (Row.payment_method_type row) with
            | Some ty =>
                Some {| type := ty;
                        last4 := Row.payment_method_last4 row;
                        brand := Row.payment_method_brand row;
                        expiryMonth := Row.payment_method_expiry_month row;
                        expiryYear := Row.payment_method_expiry_year row |}
            | None => None
            end;
          status := Row.status row |} |}.

(** The row [createCustomer] binds to its INSERT statement. *)
Definition rowOf (customerId : string) (now : Z) (customerData : CustomerData) : Row.t :=
  {| Row.customer_id := customerId;
     Row.stripe_customer_id := str_or_null (stripeCustomerId customerData);
     Row.email := email customerData;
     Row.name := str_or_null (name customerData);
     Row.metadata := metadata customerData;
     Row.subscription_status := str_or_null (subscriptionStatus customerData);
     Row.plan_id := str_or_null (planId customerData);
     Row.credits := num_or_zero (credits customerData);
     Row.created_at := now;
     Row.updated_at := now;
     Row.usage_total_calls := num_or_zero (totalCalls <$> usage customerData);
     Row.usage_current_period_calls :=
       num_or_zero (currentPeriodCalls <$> usage customerData);
     Row.usage_last_call_at := usage customerData ≫= lastCallAt;
     Row.usage_total_spent := num_or_zero (totalSpent <$> usage customerData);
     Row.payment_method_type := str_or_null (type <$> paymentMethod customerData);
     Row.payment_method_last4 := str_or_null (paymentMethod customerData ≫= last4);
     Row.payment_method_brand := str_or_null (paymentMethod customerData ≫= brand);
     Row.payment_method_expiry_month :=
       num_or_null (paymentMethod customerData ≫= expiryMonth);
     Row.payment_method_expiry_year :=
       num_or_null (paymentMethod customerData ≫= expiryYear);
     Row.status := status customerData |}.

Definition getCustomer (customerId : string) (this : SqliteAdapter)
    : outcome (option CustomerInfo) * SqliteAdapter :=
  (Returned (mapRowToCustomer <$> customers this !! customerId), this).

Definition createCustomer (env : Env) (customerData : CustomerData)
    (this : SqliteAdapter) : outcome CustomerInfo * SqliteAdapter :=
  let customerId := uuidv4 env in
  let failed (why : string) :=
    Thrown (DatabaseError ("Failed to create customer: " +:+ why)
                          "createCustomer"
                          (Some (getTableName this "customers"))) in
  match check_insert (rowOf customerId (now env) customerData) (customers this) with
  | Some v => (failed (violation_message this v), this)
  | None =>
      let this' :=
        {| tablePrefix := tablePrefix this;
           customers :=
             <[customerId := rowOf customerId (now env) customerData]>
               (customers this) |} in
      match getCustomer customerId this' with
      | (Returned (Some customer), this'') => (Returned customer, this'')
      | (Returned None, this'') => (failed "Failed to create customer", this'')
      | (Thrown e, this'') => (failed (error_message e), this'')
      end
  end.

(** [UPDATE customers SET credits = credits + ?, updated_at = ? WHERE
    customer_id = ?]: one statement, no condition on the resulting
    balance; a missing customer updates no row and is not an error. *)
Definition add_credits (creditChange : Z) (now : Z) (r : Row.t) : Row.t :=
  {| Row.customer_id := Row.customer_id r;
     Row.stripe_customer_id := Row.stripe_customer_id r;
     Row.email := Row.email r;
     Row.name := Row.name r;
     Row.metadata := Row.metadata r;
     Row.subscription_status := Row.subscription_status r;
     Row.plan_id := Row.plan_id r;
     Row.credits := Row.credits r + creditChange;
     Row.created_at := Row.created_at r;
     Row.updated_at := now;
     Row.usage_total_calls := Row.usage_total_calls r;
     Row.usage_current_period_calls := Row.usage_current_period_calls r;
     Row.usage_last_call_at := Row.usage_last_call_at r;
     Row.usage_total_spent := Row.usage_total_spent r;
     Row.payment_method_type := Row.payment_method_type r;
     Row.payment_method_last4 := Row.payment_method_last4 r;
     Row.payment_method_brand := Row.payment_method_brand r;
     Row.payment_method_expiry_month := Row.payment_method_expiry_month r;
     Row.payment_method_expiry_year := Row.payment_method_expiry_year r;
     Row.status := Row.status r |}.

Definition updateCustomerCredits (env : Env) (customerId : string)
    (creditChange : Z) (this : SqliteAdapter) : outcome unit * SqliteAdapter :=
  (Returned tt,
   {| tablePrefix := tablePrefix this;
      customers := alter (add_credits creditChange (now env)) customerId
                         (customers this) |}).

(** Placeholder: [throw new Error('Method not implemented')]. *)
Definition createCreditTransaction (env : Env) (transaction : gmap string Js.value)
    (this : SqliteAdapter) : outcome (gmap string Js.value) * SqliteAdapter :=
  (Thrown (Error "Method not implemented"), this).

(** The balance column of a customer, if the customer exists. *)
Definition balance (customerId : string) (this : SqliteAdapter) : option Z :=
  Row.credits <$> customers this !! customerId.

End Sqlite.

(* ===================================================================== *)
(** ** Database manager (src/core/database/manager.ts) *)
(* ===================================================================== *)

Module Manager.
Import Js.

(** The part of the [DatabaseAdapter] interface the manager methods below
    delegate to; [S] is the state an adapter keeps. *)
Class DatabaseAdapter (S : Type) : Type := {
  adapter_createCustomer :
    Sqlite.Env → Sqlite.CustomerData → S → outcome Sqlite.CustomerInfo * S;
  adapter_getCustomer :
    string → S → outcome (option Sqlite.CustomerInfo) * S;
  adapter_updateCustomerCredits :
    Sqlite.Env → string → Z → S → outcome unit * S;
  adapter_createCreditTransaction :
    Sqlite.Env → gmap string value → S → outcome (gmap string value) * S;
}.

#[global] Instance sqlite : DatabaseAdapter Sqlite.SqliteAdapter := {|
  adapter_createCustomer := Sqlite.createCustomer;
  adapter_getCustomer := Sqlite.getCustomer;
  adapter_updateCustomerCredits := Sqlite.updateCustomerCredits;
  adapter_createCreditTransaction := Sqlite.createCreditTransaction;
|}.

(** The PostgreSQL adapter: every data method is the placeholder
    [throw new Error('Method not implemented')]. *)
Definition notImplemented {A S : Type} (s : S) : outcome A * S :=
  (Thrown (Error "Method not implemented"), s).

Definition postgres : DatabaseAdapter unit := {|
  adapter_createCustomer := λ _ _, notImplemented;
  adapter_getCustomer := λ _, notImplemented;
  adapter_updateCustomerCredits := λ _ _ _, notImplemented;
  adapter_createCreditTransaction := λ _ _, notImplemented;
|}.

Section Methods.
Context {S : Type} `{DatabaseAdapter S}.

Definition customerIdRequired : error :=
  ValidationError "Customer ID is required"
                  [("customerId", "Required field is missing")].

Definition getCustomer (customerId : string) (s : S)
    : outcome (option Sqlite.CustomerInfo) * S :=
  if String.eqb customerId "" then (Thrown customerIdRequired, s)
  else adapter_getCustomer customerId s.

Definition updateCustomerCredits (env : Sqlite.Env) (customerId : string)
    (creditChange : Z) (s : S) : outcome unit * S :=
  if String.eqb customerId "" then (Thrown customerIdRequired, s)
  else adapter_updateCustomerCredits env customerId creditChange s.

(** [transaction.balanceAfter < 0], evaluated on a number only. *)
Definition negative (v : value) : bool :=
  match v with VNum n => Z.ltb n 0 | _ => false end.

(** [if (cond) errors.push({ field, message })]. *)
Definition push_if (cond : bool) (field message : string)
    : list (string * string) :=
  if cond then [(field, message)] else [].

Definition transactionTypes : list string :=
  ["purchase"; "consumption"; "refund"; "bonus"; "expiry"].

(** The [errors] array [validateCreditTransaction] has built when it
    reaches its final test. *)
Definition creditTransactionErrors (transaction : gmap string value)
    : list (string * string) :=
  (push_if (negb (truthy (get "customerId" transaction)))
           "customerId" "Customer ID is required"
   ++ push_if (negb (truthy (get "type" transaction))
               || negb (includes transactionTypes (get "type" transaction)))
           "type" "Valid transaction type is required"
   ++ push_if (negb (is_number (get "amount" transaction)))
           "amount" "Amount must be a number"
   ++ push_if (negb (is_number (get "balanceAfter" transaction))
               || negative (get "balanceAfter" transaction))
           "balanceAfter" "Balance after must be a non-negative number"
   ++ push_if (negb (truthy (get "description" transaction)))
           "description" "Description is required"
   ++ push_if (negb (truthy (get "timestamp" transaction))
               || negb (is_date (get "timestamp" transaction)))
           "timestamp" "Valid timestamp is required")%list.

Definition validateCreditTransaction (transaction : gmap string value)
    : outcome unit :=
  if Nat.ltb 0 (length (creditTransactionErrors transaction)) then
    Thrown (ValidationError "Credit transaction validation failed"
                            (creditTransactionErrors transaction))
  else Returned tt.

Definition createCreditTransaction (env : Sqlite.Env)
    (transaction : gmap string value) (s : S)
    : outcome (gmap string value) * S :=
  match validateCreditTransaction transaction with
  | Thrown e => (Thrown e, s)
  | Returned _ => adapter_createCreditTransaction env transaction s
  end.

End Methods.

End Manager.

(* ===================================================================== *)
(** ** Setup helper (src/utils/helpers.ts) *)
(* ===================================================================== *)

Module Helpers.
Import Js.

Record BasicSetupOptions : Type := {
  stripeSecretKey : string;
  stripePublishableKey : string;
  webhookSecret : string;
  defaultPrice : Z;
  toolPrices : option (gmap string Z);
  volumeDiscounts : option (list (Z * Z));
}.

(** One [{ threshold, discountPercent }] entry. *)
Definition discountTier (d : Z * Z) : value :=
  VObj {[ "threshold" := VNum d.1; "discountPercent" := VNum d.2 ]}.

(** The [billing] object of [createBasicSetup]: the optional tables are
    spread in only when the caller gave them. *)
Definition perCallConfig (options : BasicSetupOptions) : gmap string value :=
  <["minimumCharge" := VNum 50]>
    (match volumeDiscounts options with
     | Some ds => <["volumeDiscounts" := VArr (discountTier <$> ds)]>
     | None => id
     end
       (match toolPrices options with
        | Some ps => <["toolPrices" := VObj (VNum <$> ps)]>
        | None => id
        end
          {[ "defaultPrice" := VNum (defaultPrice options) ]})).

(** [createBasicSetup(options)]; [jwtSecret] is [process.env.JWT_SECRET]. *)
Definition createBasicSetup (jwtSecret : option string)
    (options : BasicSetupOptions) : gmap string value :=
  {[ "billingModel" := VStr "per-call";
     "stripe" :=
       VObj {[ "secretKey" := VStr (stripeSecretKey options);
               "publishableKey" := VStr (stripePublishableKey options);
               "webhookSecret" := VStr (webhookSecret options);
               "apiVersion" := VStr "2023-10-16" ]};
     "billing" := VObj (perCallConfig options);
     "authentication" :=
       VObj {[ "method" := VStr "jwt";
               "jwt" :=
                 VObj {[ "secret" := or_else (of_str jwtSecret)
                                             (VStr "default-development-secret");
                         "expiresIn" := VStr "7d" ]} ]};
     "database" :=
       VObj {[ "type" := VStr "sqlite";
               "connection" := VStr "./monetization.db";
               "runMigrations" := VBool true ]};
     "environment" := VStr "development";
     "debug" := VBool true ]}.

End Helpers.

(* ===================================================================== *)
(** ** The design document's wording, for comparison with the code *)
(* ===================================================================== *)

Module Spec.
Import Js.

(** Section 6: a structured refusal is
    [{ blocked: true, reason, required, available }]. *)
Definition is_refusal (o : gmap string value) : bool :=
  match o !! "blocked" with Some (VBool true) => true | _ => false end
  && bool_decide (is_Some (o !! "reason"))
  && bool_decide (is_Some (o !! "required"))
  && bool_decide (is_Some (o !! "available")).

(** A hook result carries a refusal when its [result] object, or the
    [_meta] object inside it, is one. *)
Definition carries_refusal (r : Plugin.ToolCallResult) : bool :=
  is_refusal (Plugin.result r)
  || is_refusal (spread (get "_meta" (Plugin.result r))).

(** Section 4.1, per-call pricing.  A tier is a pair (threshold, discount
    percent); [calls] is the number of calls the account has made in the
    billing cycle; a tier is crossed once that number has reached its
    threshold. *)
Definition basePrice (defaultPrice : Z) (toolPrices : gmap string Z)
    (tool : string) : Z :=
  default defaultPrice (toolPrices !! tool).

Definition highestCrossedTier (tiers : list (Z * Z)) (calls : Z)
    : option (Z * Z) :=
  foldr (λ tier best,
           if Z.leb tier.1 calls then
             match best with
             | Some b => if Z.ltb b.1 tier.1 then Some tier else Some b
             | None => Some tier
             end
           else best)
        None tiers.

Definition applyDiscount (price : Z) (tier : option (Z * Z)) : Z :=
  match tier with
  | Some t => price * (100 - t.2) / 100
  | None => price
  end.

Definition perCallPrice (defaultPrice : Z) (toolPrices : gmap string Z)
    (tiers : list (Z * Z)) (minimumCharge : Z) (tool : string) (calls : Z) : Z :=
  Z.max minimumCharge
        (applyDiscount (basePrice defaultPrice toolPrices tool)
                       (highestCrossedTier tiers calls)).

(** The price the document assigns under a [createBasicSetup]
    configuration. *)
Definition basicSetupPrice (options : Helpers.BasicSetupOptions)
    (tool : string) (calls : Z) : Z :=
  perCallPrice (Helpers.defaultPrice options)
               (default ∅ (Helpers.toolPrices options))
               (default [] (Helpers.volumeDiscounts options))
               50 tool calls.

(** Section 4.3: the usage record of a failed call has [success = false]
    and cost 0. *)
Definition failed_usage_record (usage : value) : bool :=
  match opt_get usage "success", opt_get usage "amount" with
  | VBool false, VNum 0 => true
  | _, _ => false
  end.

(** Section 3: the transaction types of the ledger. *)
Definition transactionTypes : list string :=
  ["purchase"; "consumption"; "refund"; "adjustment"; "expiry"].

(** A credit transaction the document calls valid, for a given set of
    types: numeric amount, [balanceAfter] a non-negative number,
    non-empty description, Date timestamp, non-empty customer id. *)
Definition validCreditTransaction (types : list string)
    (transaction : gmap string value) : Prop :=
  (∃ ty, get "type" transaction = VStr ty ∧ ty ∈ types)
  ∧ (∃ n, get "amount" transaction = VNum n)
  ∧ (∃ n, get "balanceAfter" transaction = VNum n ∧ 0 ≤ n)
  ∧ truthy (get "description" transaction) = true
  ∧ (∃ t, get "timestamp" transaction = VDate t)
  ∧ truthy (get "customerId" transaction) = true.

End Spec.

(* ===================================================================== *)
(** ** Helper behaviours other than the mocked ones *)
(* ===================================================================== *)

Module Scenario.
Import Plugin.

(** The mocked helpers with the billing check replaced by a fixed
    outcome: a refusal, or a failure of the store behind it. *)
Definition billing_gives (rnd : string) (o : outcome BillingResult) : Backend := {|
  authenticateUser := Mock.authenticateUser rnd;
  checkRateLimit := Mock.checkRateLimit;
  checkBilling := λ _ _ _, o;
  recordUsage := Mock.recordUsage;
  processPayment := Mock.processPayment;
|}.

(** The mocked helpers with a usage store that fails. *)
Definition usage_store_fails (rnd : string) (e : error) : Backend := {|
  authenticateUser := Mock.authenticateUser rnd;
  checkRateLimit := Mock.checkRateLimit;
  checkBilling := Mock.checkBilling;
  recordUsage := λ _, Thrown e;
  processPayment := Mock.processPayment;
|}.

(** "An error is thrown during the pre-invocation checks": the first
    helper that does not return throws [e]; the helpers before it returned
    and let the call pass. *)
Inductive checks_throw `{Backend} (this : StripeMonetizationPlugin)
    (context : ToolCallContext) (e : error) : Prop :=
  | authentication_throws :
      authenticateUser context = Thrown e →
      checks_throw this context e
  | rate_limit_throws auth :
      authenticateUser context = Returned auth →
      authenticated auth = true →
      checkRateLimit context (userId auth) = Thrown e →
      checks_throw this context e
  | billing_throws auth limit :
      authenticateUser context = Returned auth →
      authenticated auth = true →
      checkRateLimit context (userId auth) = Returned limit →
      exceeded limit = false →
      checkBilling this context (userId auth) = Thrown e →
      checks_throw this context e.

(** "An error is thrown during usage recording or payment processing":
    [recordUsage] throws [e], or it returns, the tool result is not an
    error and [processPayment] throws [e]. *)
Inductive recording_throws `{Backend} (tUsage : Z)
    (context : ToolCallContext) (res : ToolCallResult) (e : error) : Prop :=
  | usage_throws :
      recordUsage (usageOf (Js.opt_get (metadata context) "billing")
                           context tUsage res) = Thrown e →
      recording_throws tUsage context res e
  | payment_throws u :
      recordUsage (usageOf (Js.opt_get (metadata context) "billing")
                           context tUsage res) = Returned u →
      Js.truthy (Js.get "isError" (result res)) = false →
      processPayment (paymentOf (Js.opt_get (metadata context) "billing")
                                context) = Thrown e →
      recording_throws tUsage context res e.

(** A caller that presents a token, and one that does not. *)
Definition authorized (tool : string) : ToolCallContext :=
  {| toolName := tool;
     args := Js.VObj ∅;
     metadata := Js.VObj {[ "authorization" := Js.VStr "Bearer token" ]} |}.

Definition anonymous (tool : string) : ToolCallContext :=
  {| toolName := tool; args := Js.VObj ∅; metadata := Js.VUndef |}.

(** An initialized plugin holding the given configuration. *)
Definition running (cfg : gmap string Js.value) : StripeMonetizationPlugin :=
  {| config := cfg; stripeEndpoints := cfg; initialized := true |}.

(** The amount a billing check resolved, and the amount the hook attached
    to the context for the after-call phase. *)
Definition resolved_amount (o : outcome BillingResult) : option Z :=
  match o with
  | Returned bill => amount bill
  | Thrown _ => None
  end.

Definition attached_amount
    (o : outcome (option ToolCallResult * ToolCallContext) * list call) : Js.value :=
  match o.1 with
  | Returned (_, context) =>
      Js.opt_get (Js.opt_get (metadata context) "billing") "amount"
  | Thrown _ => Js.VUndef
  end.

(** A per-call configuration with a default price of 250 and a price of
    500 for the tool 'search', as [createBasicSetup] builds it, and the
    same configuration for a production deployment. *)
Definition priced : Helpers.BasicSetupOptions :=
  {| Helpers.stripeSecretKey := "sk_test_123";
     Helpers.stripePublishableKey := "pk_test_123";
     Helpers.webhookSecret := "whsec_123";
     Helpers.defaultPrice := 250;
     Helpers.toolPrices := Some {[ "search" := 500 ]};
     Helpers.volumeDiscounts := None |}.

Definition basic : gmap string Js.value := Helpers.createBasicSetup None priced.

Definition production : gmap string Js.value :=
  <["environment" := Js.VStr "production"]> basic.

(** A billing check that refuses for lack of credits, and one whose store
    is down. *)
Definition insufficient : BillingResult :=
  {| canProceed := false; amount := Some 100;
     message := Some "Insufficient credits" |}.

Definition refusing : Backend := billing_gives "k3x9q0zt1" (Returned insufficient).

Definition store_down : Backend :=
  billing_gives "k3x9q0zt1" (Thrown (DatabaseError "Failed to get customer: SQLITE_BUSY"
                                                   "getCustomer" None)).

End Scenario.

(* ===================================================================== *)
(** ** Runs of the system *)
(* ===================================================================== *)

Module Run.
Import Sqlite.

(** The context the pre-invocation hook leaves behind and a tool result
    that is an error, for the after-call phase. *)
Definition context_after
    (o : outcome (option Plugin.ToolCallResult * Plugin.ToolCallContext)
         * list Plugin.call)
    (otherwise : Plugin.ToolCallContext) : Plugin.ToolCallContext :=
  match o.1 with
  | Returned (_, context) => context
  | Thrown _ => otherwise
  end.

Definition billed : Plugin.ToolCallContext :=
  context_after
    (Plugin.beforeToolCall (H := Plugin.mock "k3x9q0zt1")
       (Scenario.running Scenario.basic) (Scenario.authorized "search") [])
    (Scenario.authorized "search").

Definition failed : Plugin.ToolCallResult :=
  Plugin.errorResult (Js.VStr "upstream timeout").

(** Requests against the balance of one customer, served one statement
    at a time in the order of the list: each is a call of the manager's
    [updateCustomerCredits] with what the runtime supplies to it.  The
    answers are returned in order of arrival. *)
Definition request : Type := Env * string * Z.

Fixpoint serve {S : Type} `{Manager.DatabaseAdapter S}
    (requests : list request) (s : S) : list (outcome unit) * S :=
  match requests with
  | [] => ([], s)
  | (env, customerId, creditChange) :: rest =>
      let '(answer, s') :=
        Manager.updateCustomerCredits env customerId creditChange s in
      let '(answers, s'') := serve rest s' in
      (answer :: answers, s'')
  end.

(** A reservation of [price] credits, as the adapter offers it: the
    balance is decremented by the price. *)
Definition reservation (env : Env) (customerId : string) (price : Z) : request :=
  (env, customerId, - price).

Definition successes (answers : list (outcome unit)) : nat :=
  length (filter (λ a, is_returned a = true) answers).

Definition refusals (answers : list (outcome unit)) : nat :=
  length (filter (λ a, is_returned a = false) answers).

(** What the adapter keeps of the fields a caller supplies: an empty
    optional string and a zero expiry are stored as NULL, absent counters
    as 0, and a payment method only under a non-empty type. *)
Definition stored (d : CustomerData) : CustomerData :=
  {| stripeCustomerId := str_or_null (stripeCustomerId d);
     email := email d;
     name := str_or_null (name d);
     metadata := metadata d;
     subscriptionStatus := str_or_null (subscriptionStatus d);
     planId := str_or_null (planId d);
     credits := Some (num_or_zero (credits d));
     usage :=
       Some {| totalCalls := num_or_zero (totalCalls <$> usage d);
               currentPeriodCalls := num_or_zero (currentPeriodCalls <$> usage d);
               lastCallAt := usage d ≫= lastCallAt;
               totalSpent := num_or_zero (totalSpent <$> usage d) |};
     paymentMethod :=
       match paymentMethod d with
       | Some pm =>
           if String.eqb (type pm) "" then None
           else Some {| type := type pm;
                        last4 := str_or_null (last4 pm);
                        brand := str_or_null (brand pm);
                        expiryMonth := num_or_null (expiryMonth pm);
                        expiryYear := num_or_null (expiryYear pm) |}
       | None => None
       end;
     status := status d |}.

(** Supplied fields that are kept as they are: no optional string is
    empty, credits and usage counters are given, and a payment method has
    a non-empty type and no zero expiry. *)
Definition kept_as_is (d : CustomerData) : Prop :=
  stripeCustomerId d ≠ Some "" ∧ name d ≠ Some ""
  ∧ subscriptionStatus d ≠ Some "" ∧ planId d ≠ Some ""
  ∧ is_Some (credits d) ∧ is_Some (usage d)
  ∧ ∀ pm, paymentMethod d = Some pm →
          type pm ≠ "" ∧ last4 pm ≠ Some "" ∧ brand pm ≠ Some ""
          ∧ expiryMonth pm ≠ Some 0 ∧ expiryYear pm ≠ Some 0.

(** An empty store, a first customer, and the runtime of two calls. *)
Definition empty_store : SqliteAdapter :=
  {| tablePrefix := None; customers := ∅ |}.

Definition first_call : Env :=
  {| uuidv4 := "3f2b8c1e-5d4a-4e6f-9a7b-0c1d2e3f4a5b"; now := 1700000000000 |}.

Definition later_call : Env :=
  {| uuidv4 := "9a8b7c6d-1e2f-4a3b-8c4d-5e6f7a8b9c0d"; now := 1700000060000 |}.

Definition ada : CustomerData :=
  {| stripeCustomerId := Some "cus_ada";
     email := "ada@example.com";
     name := Some "Ada";
     metadata := None;
     subscriptionStatus := None;
     planId := None;
     credits := Some 20;
     usage := Some {| totalCalls := 0; currentPeriodCalls := 0;
                      lastCallAt := None; totalSpent := 0 |};
     paymentMethod := None;
     status := "active" |}.

(** The same customer with an empty display name. *)
Definition unnamed : CustomerData :=
  {| stripeCustomerId := Some "cus_ada";
     email := "ada@example.com";
     name := Some "";
     metadata := None;
     subscriptionStatus := None;
     planId := None;
     credits := Some 20;
     usage := Some {| totalCalls := 0; currentPeriodCalls := 0;
                      lastCallAt := None; totalSpent := 0 |};
     paymentMethod := None;
     status := "active" |}.

(** The store once [ada] has been created in it. *)
Definition store_with_ada : SqliteAdapter :=
  (createCustomer first_call ada empty_store).2.

Definition ada_id : string := uuidv4 first_call.

(** Credit transactions of type 'adjustment' and 'bonus', valid in every
    other field. *)
Definition transaction_of (ty : string) : gmap string Js.value :=
  {[ "customerId" := Js.VStr ada_id;
     "type" := Js.VStr ty;
     "amount" := Js.VNum 5;
     "balanceAfter" := Js.VNum 25;
     "description" := Js.VStr "Manual correction";
     "timestamp" := Js.VDate 1700000060000 ]}.



End Run.

(* ===================================================================== *)
(** ** Regular expressions of the validators *)
(* ===================================================================== *)

Module Regex.

(** The fragment of regular expressions the validators use, over the
    code units of a string; a string of the model is the sequence of its
    code units, all below 256. *)
Inductive re : Type :=
  | Empty
  | Eps
  | Cls (p : ascii → bool)
  | Seq (r1 r2 : re)
  | Alt (r1 r2 : re)
  | Star (r : re).

(** A literal character, and [r+]. *)
Definition Chr (c : ascii) : re := Cls (Ascii.eqb c).

Definition Plus (r : re) : re := Seq r (Star r).

(** Matching by derivatives. *)
Fixpoint nullable (r : re) : bool :=
  match r with
  | Empty => false
  | Eps => true
  | Cls _ => false
  | Seq r1 r2 => nullable r1 && nullable r2
  | Alt r1 r2 => nullable r1 || nullable r2
  | Star _ => true
  end.

Fixpoint deriv (c : ascii) (r : re) : re :=
  match r with
  | Empty => Empty
  | Eps => Empty
  | Cls p => if p c then Eps else Empty
  | Seq r1 r2 =>
      if nullable r1 then Alt (Seq (deriv c r1) r2) (deriv c r2)
      else Seq (deriv c r1) r2
  | Alt r1 r2 => Alt (deriv c r1) (deriv c r2)
  | Star r1 => Seq (deriv c r1) (Star r1)
  end.

Fixpoint matches (r : re) (s : list ascii) : bool :=
  match s with
  | [] => nullable r
  | c :: s' => matches (deriv c r) s'
  end.

(** [/^r$/.test(s)]. *)
Definition test (r : re) (s : string) : bool :=
  matches r (String.list_ascii_of_string s).

(** The strings a regular expression denotes. *)
Inductive Lang : re → list ascii → Prop :=
  | LEps : Lang Eps []
  | LCls p c : p c = true → Lang (Cls p) [c]
  | LSeq r1 r2 s1 s2 :
      Lang r1 s1 → Lang r2 s2 → Lang (Seq r1 r2) (s1 ++ s2)%list
  | LAltL r1 r2 s : Lang r1 s → Lang (Alt r1 r2) s
  | LAltR r1 r2 s : Lang r2 s → Lang (Alt r1 r2) s
  | LStar0 r : Lang (Star r) []
  | LStarS r s1 s2 :
      Lang r s1 → Lang (Star r) s2 → Lang (Star r) (s1 ++ s2)%list.

(** Character classes: [\s] (tab to carriage return, space, no-break
    space), [\d], [a-zA-Z] and [_]. *)
Definition code (c : ascii) : N := N_of_ascii c.

Definition between (lo hi : N) (c : ascii) : bool :=
  N.leb lo (code c) && N.leb (code c) hi.

Definition whitespace (c : ascii) : bool :=
  between 9 13 c || N.eqb (code c) 32 || N.eqb (code c) 160.

Definition digit (c : ascii) : bool := between 48 57 c.

Definition letter (c : ascii) : bool := between 65 90 c || between 97 122 c.

Definition underscore (c : ascii) : bool := N.eqb (code c) 95.

(** [[^\s@]]. *)
Definition plain (c : ascii) : bool :=
  negb (whitespace c || Ascii.eqb c "@"%char).

(** [/^[^\s@]+@[^\s@]+\.[^\s@]+$/], the e-mail pattern of the manager. *)
Definition email : re :=
  Seq (Plus (Cls plain))
      (Seq (Chr "@"%char)
           (Seq (Plus (Cls plain))
                (Seq (Chr "."%char) (Plus (Cls plain))))).

(** [/^[a-zA-Z_][a-zA-Z0-9_]*$/], the table-prefix pattern. *)
Definition identifier : re :=
  Seq (Cls (λ c, letter c || underscore c))
      (Star (Cls (λ c, letter c || digit c || underscore c))).


End Regex.

(* ===================================================================== *)
(** ** Plugin life cycle (src/core/plugin.ts) *)
(* ===================================================================== *)

Module Lifecycle.
Import Js Plugin.

(** The private [validateConfig()]: it reads [this.config.stripe]. *)
Definition validateConfig (this : StripeMonetizationPlugin) : outcome unit :=
  let stripe := get "stripe" (config this) in
  if negb (truthy (opt_get stripe "secretKey")) then
    Thrown (Error "Stripe secret key is required")
  else if negb (truthy (opt_get stripe "publishableKey")) then
    Thrown (Error "Stripe publishable key is required")
  else if negb (truthy (opt_get stripe "webhookSecret")) then
    Thrown (Error "Stripe webhook secret is required")
  else Returned tt.

(** [initialize(context)].  [base] is the outcome of
    [super.initialize(context)], a method of the proxy wrapper's
    [BasePlugin]; it is taken to leave the three fields of the plugin
    alone.  The three mocked initializers only log. *)
Definition initialize (base : outcome unit) (this : StripeMonetizationPlugin)
    : outcome unit * StripeMonetizationPlugin :=
  match base with
  | Thrown e => (Thrown e, this)
  | Returned _ =>
      match validateConfig this with
      | Thrown e => (Thrown e, this)
      | Returned _ =>
          (Returned tt,
           {| config := config this;
              stripeEndpoints := stripeEndpoints this;
              initialized := true |})
      end
  end.

(** [healthCheck()]: the three mocked checks are fulfilled with [true]. *)
Definition healthCheck (this : StripeMonetizationPlugin) : bool :=
  if negb (initialized this) then false
  else forallb (λ check, check) [true; true; true].

End Lifecycle.

(* ===================================================================== *)
(** ** Setup helpers and factory (src/utils/helpers.ts,
       src/utils/factory.ts) *)
(* ===================================================================== *)

Module Setups.
Import Js.

(** The three blocks every setup helper writes out in full. *)
Definition stripeBlock (secretKey publishableKey webhookSecret : string) : value :=
  VObj {[ "secretKey" := VStr secretKey;
          "publishableKey" := VStr publishableKey;
          "webhookSecret" := VStr webhookSecret;
          "apiVersion" := VStr "2023-10-16" ]}.

Definition authenticationBlock (jwtSecret : option string) : value :=
  VObj {[ "method" := VStr "jwt";
          "jwt" :=
            VObj {[ "secret" := or_else (of_str jwtSecret)
                                        (VStr "default-development-secret");
                    "expiresIn" := VStr "7d" ]} ]}.

Definition databaseBlock : value :=
  VObj {[ "type" := VStr "sqlite";
          "connection" := VStr "./monetization.db";
          "runMigrations" := VBool true ]}.

(** The object a setup helper returns around its [billing] block. *)
Definition setup (billingModel : string) (jwtSecret : option string)
    (secretKey publishableKey webhookSecret : string) (billing : value)
    : gmap string value :=
  {[ "billingModel" := VStr billingModel;
     "stripe" := stripeBlock secretKey publishableKey webhookSecret;
     "billing" := billing;
     "authentication" := authenticationBlock jwtSecret;
     "database" := databaseBlock;
     "environment" := VStr "development";
     "debug" := VBool true ]}.

Record SubscriptionSetupOptions : Type := {
  sub_stripeSecretKey : string;
  sub_stripePublishableKey : string;
  sub_webhookSecret : string;
  plans : list value;
  trialPeriodDays : option Z;
}.

Definition createSubscriptionSetup (jwtSecret : option string)
    (options : SubscriptionSetupOptions) : gmap string value :=
  setup "subscription" jwtSecret
    (sub_stripeSecretKey options) (sub_stripePublishableKey options)
    (sub_webhookSecret options)
    (VObj (match trialPeriodDays options with
           | Some days => <["trialPeriodDays" := VNum days]>
           | None => id
           end
             {[ "plans" := VArr (plans options);
                "allowPlanChanges" := VBool true;
                "prorationBehavior" := VStr "always_invoice" ]})).

Record UsageBasedSetupOptions : Type := {
  ub_stripeSecretKey : string;
  ub_stripePublishableKey : string;
  ub_webhookSecret : string;
  meterId : string;
  tiers : list value;
}.

Definition createUsageBasedSetup (jwtSecret : option string)
    (options : UsageBasedSetupOptions) : gmap string value :=
  setup "usage-based" jwtSecret
    (ub_stripeSecretKey options) (ub_stripePublishableKey options)
    (ub_webhookSecret options)
    (VObj {[ "meterId" := VStr (meterId options);
             "tiers" := VArr (tiers options);
             "billingPeriod" := VStr "month";
             "aggregateUsage" := VBool true ]}).

Record FreemiumSetupOptions : Type := {
  fr_stripeSecretKey : string;
  fr_stripePublishableKey : string;
  fr_webhookSecret : string;
  freeTier : value;
  upgradeOptions : list value;
}.

Definition createFreemiumSetup (jwtSecret : option string)
    (options : FreemiumSetupOptions) : gmap string value :=
  setup "freemium" jwtSecret
    (fr_stripeSecretKey options) (fr_stripePublishableKey options)
    (fr_webhookSecret options)
    (VObj {[ "freeTier" := freeTier options;
             "upgradeOptions" := VArr (upgradeOptions options);
             "limitExceededBehavior" := VStr "block" ]}).

Record CreditSystemSetupOptions : Type := {
  cs_stripeSecretKey : string;
  cs_stripePublishableKey : string;
  cs_webhookSecret : string;
  creditPackages : list value;
  cs_toolPrices : gmap string Z;
}.

Definition createCreditSystemSetup (jwtSecret : option string)
    (options : CreditSystemSetupOptions) : gmap string value :=
  setup "credit-system" jwtSecret
    (cs_stripeSecretKey options) (cs_stripePublishableKey options)
    (cs_webhookSecret options)
    (VObj {[ "creditPackages" := VArr (creditPackages options);
             "toolPrices" := VObj (VNum <$> cs_toolPrices options);
             "defaultCreditCost" := VNum 1 ]}).

(** [createDevelopmentSetup]: the basic setup at one cent a call, with an
    empty table of tool prices. *)
Definition createDevelopmentSetup (jwtSecret : option string)
    (secretKey publishableKey webhookSecret : string) : gmap string value :=
  Helpers.createBasicSetup jwtSecret
    {| Helpers.stripeSecretKey := secretKey;
       Helpers.stripePublishableKey := publishableKey;
       Helpers.webhookSecret := webhookSecret;
       Helpers.defaultPrice := 1;
       Helpers.toolPrices := Some ∅;
       Helpers.volumeDiscounts := None |}.

(** [validateConfig(config)] of the helpers. *)
Definition validateConfig (config : gmap string value) : outcome bool :=
  let stripe := get "stripe" config in
  if negb (truthy (opt_get stripe "secretKey")) then
    Thrown (Error "Stripe secret key is required")
  else if negb (truthy (opt_get stripe "publishableKey")) then
    Thrown (Error "Stripe publishable key is required")
  else if negb (truthy (opt_get stripe "webhookSecret")) then
    Thrown (Error "Stripe webhook secret is required")
  else if negb (truthy (get "billingModel" config)) then
    Thrown (Error "Billing model is required")
  else if negb (truthy (get "authentication" config)) then
    Thrown (Error "Authentication configuration is required")
  else if negb (truthy (get "database" config)) then
    Thrown (Error "Database configuration is required")
  else Returned true.

(** [createStripeMonetizationPlugin(config)] of the factory. *)
Definition createStripeMonetizationPlugin (config : gmap string value)
    : outcome Plugin.StripeMonetizationPlugin :=
  match validateConfig config with
  | Thrown e => Thrown e
  | Returned _ => Returned (Plugin.constructor config)
  end.

(** [validateBillingModel(model)] of the configuration validators. *)
Definition validateBillingModel (model : value) : bool :=
  includes ["per_call"; "subscription"; "usage_based"; "freemium";
            "credit_system"] model.

End Setups.

(* ===================================================================== *)
(** ** SQLite adapter, further methods
       (src/core/database/adapters/sqlite.ts) *)
(* ===================================================================== *)

Module SqliteStore.

(** One row of the [usage_records] table.  [args] and [metadata] hold
    JSON text, represented by the record it encodes; [success] holds 1 or
    0. *)
Module UsageRow.
Record t : Type := {
  id : string;
  customer_id : string;
  tool_name : string;
  args : gmap string string;
  cost : Z;
  credits : option Z;
  timestamp : Z;
  processing_time : option Z;
  success : Z;
  error : option string;
  metadata : option (gmap string string);
  billing_period : option string;
  subscription_id : option string;
  payment_intent_id : option string;
}.
End UsageRow.

(** The database behind the adapter: the adapter's prefix and [customers]
    table, and the [usage_records] table, whose [customer_id] column
    references [customers] (foreign keys are switched on by
    [initialize]).  No method of the adapter writes to the other four
    tables: each throws 'Method not implemented'. *)
Record Database : Type := {
  adapter : Sqlite.SqliteAdapter;
  usage_records : gmap string UsageRow.t;
}.

Definition customers (db : Database) : gmap string Sqlite.Row.t :=
  Sqlite.customers (adapter db).

Definition with_customers (db : Database) (tbl : gmap string Sqlite.Row.t)
    : Database :=
  {| adapter := {| Sqlite.tablePrefix := Sqlite.tablePrefix (adapter db);
                   Sqlite.customers := tbl |};
     usage_records := usage_records db |}.

(** A method that works on the [customers] table alone. *)
Definition on_adapter {A : Type}
    (method : Sqlite.SqliteAdapter → outcome A * Sqlite.SqliteAdapter)
    (db : Database) : outcome A * Database :=
  let '(answer, adapter') := method (adapter db) in
  (answer, {| adapter := adapter'; usage_records := usage_records db |}).

Definition createCustomer (env : Sqlite.Env) (customerData : Sqlite.CustomerData)
    : Database → outcome Sqlite.CustomerInfo * Database :=
  on_adapter (Sqlite.createCustomer env customerData).

Definition getCustomer (customerId : string)
    : Database → outcome (option Sqlite.CustomerInfo) * Database :=
  on_adapter (Sqlite.getCustomer customerId).

Definition updateCustomerCredits (env : Sqlite.Env) (customerId : string)
    (creditChange : Z) : Database → outcome unit * Database :=
  on_adapter (Sqlite.updateCustomerCredits env customerId creditChange).

(** [DatabaseError] as the catch blocks build it. *)
Definition failed {A : Type} (db : Database) (what why operation table : string)
    : outcome A :=
  Thrown (DatabaseError (what +:+ ": " +:+ why) operation
                        (Some (Sqlite.getTableName (adapter db) table))).

(** [SELECT * FROM customers WHERE email = ?], first row. *)
Definition getCustomerByEmail (email : string) (db : Database)
    : outcome (option Sqlite.CustomerInfo) * Database :=
  (Returned
     (Sqlite.mapRowToCustomer
        <$> head (filter (λ r, Sqlite.Row.email r = email)
                         (map_to_list (customers db)).*2)),
   db).

(** [Partial<CustomerInfo>]: [None] is an absent property. *)
Module Updates.
Record t : Type := {
  customerId : option string;
  stripeCustomerId : option string;
  email : option string;
  name : option string;
  metadata : option (gmap string string);
  subscriptionStatus : option string;
  planId : option string;
  credits : option Z;
  createdAt : option Z;
  updatedAt : option Z;
  usage : option Sqlite.Usage;
  paymentMethod : option Sqlite.PaymentMethod;
  status : option string;
}.
End Updates.

(** The row after [UPDATE customers SET ... , updated_at = ?] with the
    pairs [updateCustomer] builds. *)
Definition apply_updates (updates : Updates.t) (now : Z) (r : Sqlite.Row.t)
    : Sqlite.Row.t :=
  {| Sqlite.Row.customer_id := Sqlite.Row.customer_id r;
     Sqlite.Row.stripe_customer_id := Sqlite.Row.stripe_customer_id r;
     Sqlite.Row.email := default (Sqlite.Row.email r) (Updates.email updates);
     Sqlite.Row.name :=
       match Updates.name updates with
       | Some n => Some n
       | None => Sqlite.Row.name r
       end;
     Sqlite.Row.metadata :=
       match Updates.metadata updates with
       | Some m => Some m
       | None => Sqlite.Row.metadata r
       end;
     Sqlite.Row.subscription_status :=
       match Updates.subscriptionStatus updates with
       | Some s => Some s
       | None => Sqlite.Row.subscription_status r
       end;
     Sqlite.Row.plan_id :=
       match Updates.planId updates with
       | Some p => Some p
       | None => Sqlite.Row.plan_id r
       end;
     Sqlite.Row.credits := default (Sqlite.Row.credits r) (Updates.credits updates);
     Sqlite.Row.created_at := Sqlite.Row.created_at r;
     Sqlite.Row.updated_at := now;
     Sqlite.Row.usage_total_calls := Sqlite.Row.usage_total_calls r;
     Sqlite.Row.usage_current_period_calls :=
       Sqlite.Row.usage_current_period_calls r;
     Sqlite.Row.usage_last_call_at := Sqlite.Row.usage_last_call_at r;
     Sqlite.Row.usage_total_spent := Sqlite.Row.usage_total_spent r;
     Sqlite.Row.payment_method_type := Sqlite.Row.payment_method_type r;
     Sqlite.Row.payment_method_last4 := Sqlite.Row.payment_method_last4 r;
     Sqlite.Row.payment_method_brand := Sqlite.Row.payment_method_brand r;
     Sqlite.Row.payment_method_expiry_month :=
       Sqlite.Row.payment_method_expiry_month r;
     Sqlite.Row.payment_method_expiry_year :=
       Sqlite.Row.payment_method_expiry_year r;
     Sqlite.Row.status := default (Sqlite.Row.status r) (Updates.status updates) |}.

(** [updateCustomer]: the UPDATE touches the row with that id, if any,
    and fails when it would give it the e-mail address of another row;
    the customer is then read back, and not finding it is an error. *)
Definition updateCustomer (env : Sqlite.Env) (customerId : string)
    (updates : Updates.t) (db : Database)
    : outcome Sqlite.CustomerInfo * Database :=
  match customers db !! customerId with
  | None =>
      (failed db "Failed to update customer" "Customer not found after update"
              "updateCustomer" "customers",
       db)
  | Some r =>
      let r' := apply_updates updates (Sqlite.now env) r in
      if bool_decide
           (map_Exists (λ id other, id ≠ customerId
                                    ∧ Sqlite.Row.email other = Sqlite.Row.email r')
                       (customers db))
      then
        (failed db "Failed to update customer"
                (Sqlite.violation_message (adapter db) Sqlite.UniqueEmail)
                "updateCustomer" "customers",
         db)
      else
        (Returned (Sqlite.mapRowToCustomer r'),
         with_customers db (<[customerId := r']> (customers db)))
  end.

(** [DELETE FROM customers WHERE customer_id = ?]: refused while a usage
    record references the row. *)
Definition deleteCustomer (customerId : string) (db : Database)
    : outcome unit * Database :=
  match customers db !! customerId with
  | None => (Returned tt, db)
  | Some _ =>
      if bool_decide
           (map_Exists (λ _ u, UsageRow.customer_id u = customerId)
                       (usage_records db))
      then
        (failed db "Failed to delete customer"
                "SQLITE_CONSTRAINT: FOREIGN KEY constraint failed"
                "deleteCustomer" "customers",
         db)
      else (Returned tt, with_customers db (delete customerId (customers db)))
  end.

(** The [usage] argument of [updateCustomerUsage]. *)
Record UsageChange : Type := {
  totalCalls : option Z;
  currentPeriodCalls : option Z;
  lastCallAt : option Z;
  totalSpent : option Z;
  creditsUsed : option Z;
}.

Definition add_usage (usage : UsageChange) (now : Z) (r : Sqlite.Row.t)
    : Sqlite.Row.t :=
  {| Sqlite.Row.customer_id := Sqlite.Row.customer_id r;
     Sqlite.Row.stripe_customer_id := Sqlite.Row.stripe_customer_id r;
     Sqlite.Row.email := Sqlite.Row.email r;
     Sqlite.Row.name := Sqlite.Row.name r;
     Sqlite.Row.metadata := Sqlite.Row.metadata r;
     Sqlite.Row.subscription_status := Sqlite.Row.subscription_status r;
     Sqlite.Row.plan_id := Sqlite.Row.plan_id r;
     Sqlite.Row.credits := Sqlite.Row.credits r;
     Sqlite.Row.created_at := Sqlite.Row.created_at r;
     Sqlite.Row.updated_at := now;
     Sqlite.Row.usage_total_calls :=
       match totalCalls usage with
       | Some n => Sqlite.Row.usage_total_calls r + n
       | None => Sqlite.Row.usage_total_calls r
       end;
     Sqlite.Row.usage_current_period_calls :=
       match currentPeriodCalls usage with
       | Some n => Sqlite.Row.usage_current_period_calls r + n
       | None => Sqlite.Row.usage_current_period_calls r
       end;
     Sqlite.Row.usage_last_call_at :=
       match lastCallAt usage with
       | Some t => Some t
       | None => Sqlite.Row.usage_last_call_at r
       end;
     Sqlite.Row.usage_total_spent :=
       match totalSpent usage with
       | Some n => Sqlite.Row.usage_total_spent r + n
       | None => Sqlite.Row.usage_total_spent r
       end;
     Sqlite.Row.payment_method_type := Sqlite.Row.payment_method_type r;
     Sqlite.Row.payment_method_last4 := Sqlite.Row.payment_method_last4 r;
     Sqlite.Row.payment_method_brand := Sqlite.Row.payment_method_brand r;
     Sqlite.Row.payment_method_expiry_month :=
       Sqlite.Row.payment_method_expiry_month r;
     Sqlite.Row.payment_method_expiry_year :=
       Sqlite.Row.payment_method_expiry_year r;
     Sqlite.Row.status := Sqlite.Row.status r |}.

Definition updateCustomerUsage (env : Sqlite.Env) (customerId : string)
    (usage : UsageChange) (db : Database) : outcome unit * Database :=
  (Returned tt,
   with_customers db
     (alter (add_usage usage (Sqlite.now env)) customerId (customers db))).

(** [Omit<UsageRecord, 'id'>] as [createUsageRecord] reads it, and the
    record it returns, [{ id, ...record }]. *)
Record UsageData : Type := {
  customerId : string;
  toolName : string;
  args : gmap string string;
  cost : Z;
  credits : option Z;
  timestamp : Z;
  processingTime : option Z;
  success : bool;
  error : option string;
  metadata : option (gmap string string);
  billingPeriod : option string;
  subscriptionId : option string;
  paymentIntentId : option string;
}.

Record UsageRecord : Type := {
  id : string;
  record : UsageData;
}.

Definition usageRowOf (id : string) (record : UsageData) : UsageRow.t :=
  {| UsageRow.id := id;
     UsageRow.customer_id := customerId record;
     UsageRow.tool_name := toolName record;
     UsageRow.args := args record;
     UsageRow.cost := cost record;
     UsageRow.credits := Sqlite.num_or_null (credits record);
     UsageRow.timestamp := timestamp record;
     UsageRow.processing_time := Sqlite.num_or_null (processingTime record);
     UsageRow.success := if success record then 1 else 0;
     UsageRow.error := Sqlite.str_or_null (error record);
     UsageRow.metadata := metadata record;
     UsageRow.billing_period := Sqlite.str_or_null (billingPeriod record);
     UsageRow.subscription_id := Sqlite.str_or_null (subscriptionId record);
     UsageRow.payment_intent_id := Sqlite.str_or_null (paymentIntentId record) |}.

(** [createUsageRecord]: the INSERT needs a fresh id and an existing
    customer. *)
Definition createUsageRecord (env : Sqlite.Env) (record : UsageData)
    (db : Database) : outcome UsageRecord * Database :=
  let id := Sqlite.uuidv4 env in
  if bool_decide (is_Some (usage_records db !! id)) then
    (failed db "Failed to create usage record"
            ("SQLITE_CONSTRAINT: UNIQUE constraint failed: "
             +:+ Sqlite.getTableName (adapter db) "usage_records" +:+ ".id")
            "createUsageRecord" "usage_records",
     db)
  else if bool_decide (is_Some (customers db !! customerId record)) then
    (Returned {| id := id; record := record |},
     {| adapter := adapter db;
        usage_records := <[id := usageRowOf id record]> (usage_records db) |})
  else
    (failed db "Failed to create usage record"
            "SQLITE_CONSTRAINT: FOREIGN KEY constraint failed"
            "createUsageRecord" "usage_records",
     db).

(** What the constraints of the two tables guarantee of a database: a
    row is stored under its own id, no two customers share an e-mail
    address or a Stripe customer id, and every usage record belongs to a
    customer of the table. *)
Record consistent (db : Database) : Prop := {
  keys_match :
    ∀ id r, customers db !! id = Some r → Sqlite.Row.customer_id r = id;
  emails_unique :
    ∀ id1 id2 r1 r2,
      customers db !! id1 = Some r1 → customers db !! id2 = Some r2 →
      Sqlite.Row.email r1 = Sqlite.Row.email r2 → id1 = id2;
  stripe_ids_unique :
    ∀ id1 id2 r1 r2 s,
      customers db !! id1 = Some r1 → customers db !! id2 = Some r2 →
      Sqlite.Row.stripe_customer_id r1 = Some s →
      Sqlite.Row.stripe_customer_id r2 = Some s → id1 = id2;
  usage_keys_match :
    ∀ id u, usage_records db !! id = Some u → UsageRow.id u = id;
  usage_refers :
    ∀ id u, usage_records db !! id = Some u →
            is_Some (customers db !! UsageRow.customer_id u);
}.

(** The calls that write to the database, and a run of them from the
    empty database; a call that throws leaves the database as it was. *)
Inductive operation : Type :=
  | CreateCustomer (env : Sqlite.Env) (customerData : Sqlite.CustomerData)
  | UpdateCustomer (env : Sqlite.Env) (customerId : string) (updates : Updates.t)
  | DeleteCustomer (customerId : string)
  | UpdateCustomerCredits (env : Sqlite.Env) (customerId : string) (creditChange : Z)
  | UpdateCustomerUsage (env : Sqlite.Env) (customerId : string) (usage : UsageChange)
  | CreateUsageRecord (env : Sqlite.Env) (record : UsageData).

Definition perform (op : operation) (db : Database) : Database :=
  match op with
  | CreateCustomer env customerData => (createCustomer env customerData db).2
  | UpdateCustomer env customerId updates =>
      (updateCustomer env customerId updates db).2
  | DeleteCustomer customerId => (deleteCustomer customerId db).2
  | UpdateCustomerCredits env customerId creditChange =>
      (updateCustomerCredits env customerId creditChange db).2
  | UpdateCustomerUsage env customerId usage =>
      (updateCustomerUsage env customerId usage db).2
  | CreateUsageRecord env record => (createUsageRecord env record db).2
  end.

Definition empty (prefix : option string) : Database :=
  {| adapter := {| Sqlite.tablePrefix := prefix; Sqlite.customers := ∅ |};
     usage_records := ∅ |}.

Definition run (ops : list operation) (db : Database) : Database :=
  foldl (λ db op, perform op db) db ops.

End SqliteStore.

(* ===================================================================== *)
(** ** Database manager, further methods
       (src/core/database/manager.ts) *)
(* ===================================================================== *)

Module DatabaseManager.
Import Js.

(** The customer methods of the [DatabaseAdapter] interface beyond those
    of [Manager.DatabaseAdapter]. *)
Class CustomerAdapter (S : Type) : Type := {
  customer_base :: Manager.DatabaseAdapter S;
  adapter_getCustomerByEmail :
    string → S → outcome (option Sqlite.CustomerInfo) * S;
  adapter_updateCustomer :
    Sqlite.Env → string → SqliteStore.Updates.t → S →
    outcome Sqlite.CustomerInfo * S;
  adapter_deleteCustomer : string → S → outcome unit * S;
  adapter_updateCustomerUsage :
    Sqlite.Env → string → SqliteStore.UsageChange → S → outcome unit * S;
}.

(** The methods of the interface that take a record to insert. *)
Class RecordAdapter (S : Type) : Type := {
  adapter_createUsageRecord :
    Sqlite.Env → gmap string value → S → outcome (gmap string value) * S;
  adapter_createPaymentIntent :
    Sqlite.Env → gmap string value → S → outcome (gmap string value) * S;
  adapter_createSubscription :
    Sqlite.Env → gmap string value → S → outcome (gmap string value) * S;
  adapter_createWebhookEvent :
    Sqlite.Env → gmap string value → S → outcome (gmap string value) * S;
}.

(** The SQLite adapter over its database. *)
#[global] Instance sqlite_store_base
    : Manager.DatabaseAdapter SqliteStore.Database := {|
  Manager.adapter_createCustomer := SqliteStore.createCustomer;
  Manager.adapter_getCustomer := SqliteStore.getCustomer;
  Manager.adapter_updateCustomerCredits := SqliteStore.updateCustomerCredits;
  Manager.adapter_createCreditTransaction :=
    λ env transaction,
      SqliteStore.on_adapter (Sqlite.createCreditTransaction env transaction);
|}.

#[global] Instance sqlite_store : CustomerAdapter SqliteStore.Database := {|
  customer_base := sqlite_store_base;
  adapter_getCustomerByEmail := SqliteStore.getCustomerByEmail;
  adapter_updateCustomer := SqliteStore.updateCustomer;
  adapter_deleteCustomer := SqliteStore.deleteCustomer;
  adapter_updateCustomerUsage := SqliteStore.updateCustomerUsage;
|}.

(** An adapter whose record methods are all the placeholder, as in the
    PostgreSQL adapter. *)
Definition placeholders : RecordAdapter unit := {|
  adapter_createUsageRecord := λ _ _, Manager.notImplemented;
  adapter_createPaymentIntent := λ _ _, Manager.notImplemented;
  adapter_createSubscription := λ _ _, Manager.notImplemented;
  adapter_createWebhookEvent := λ _ _, Manager.notImplemented;
|}.

(** [if (errors.length > 0) throw new ValidationError(message, errors)]. *)
Definition throw_if_any (message : string) (errors : list (string * string))
    : outcome unit :=
  if Nat.ltb 0 (length errors) then Thrown (ValidationError message errors)
  else Returned tt.

(** [if (a) push(x) else if (b) push(y)]. *)
Definition push_first (a : bool) (field message : string)
    (b : bool) (message' : string) : list (string * string) :=
  if a then [(field, message)]
  else if b then [(field, message')]
  else [].

Definition customerStatuses : list string := ["active"; "suspended"; "deleted"].

Definition customerDataErrors (customer : Sqlite.CustomerData)
    : list (string * string) :=
  (push_first (String.eqb (Sqlite.email customer) "")
              "email" "Email is required"
              (negb (Regex.test Regex.email (Sqlite.email customer)))
              "Invalid email format"
   ++ push_first (String.eqb (Sqlite.status customer) "")
              "status" "Status is required"
              (negb (includes customerStatuses (VStr (Sqlite.status customer))))
              "Invalid status value")%list.

Definition validateCustomerData (customer : Sqlite.CustomerData) : outcome unit :=
  throw_if_any "Customer validation failed" (customerDataErrors customer).

(** [updates.x && !ok(x)] on an optional string. *)
Definition given_but (o : option string) (ok : string → bool) : bool :=
  match o with
  | Some s => negb (String.eqb s "") && negb (ok s)
  | None => false
  end.

(** The type of [updates.credits] makes the [typeof] test of the source
    hold whenever the property is present. *)
Definition customerUpdateErrors (updates : SqliteStore.Updates.t)
    : list (string * string) :=
  (Manager.push_if (given_but (SqliteStore.Updates.email updates)
                              (Regex.test Regex.email))
                   "email" "Invalid email format"
   ++ Manager.push_if (given_but (SqliteStore.Updates.status updates)
                                 (λ s, includes customerStatuses (VStr s)))
                   "status" "Invalid status value"
   ++ Manager.push_if (match SqliteStore.Updates.credits updates with
                       | Some n => Z.ltb n 0
                       | None => false
                       end)
                   "credits" "Credits must be a non-negative number")%list.

Definition validateCustomerUpdateData (updates : SqliteStore.Updates.t)
    : outcome unit :=
  throw_if_any "Customer update validation failed" (customerUpdateErrors updates).

Definition required (field : string) (what : string) : error :=
  ValidationError (what +:+ " is required")
                  [(field, "Required field is missing")].

Section Customers.
Context {S : Type} `{CustomerAdapter S}.

Definition createCustomer (env : Sqlite.Env) (customer : Sqlite.CustomerData)
    (s : S) : outcome Sqlite.CustomerInfo * S :=
  match validateCustomerData customer with
  | Thrown e => (Thrown e, s)
  | Returned _ => Manager.adapter_createCustomer env customer s
  end.

Definition getCustomerByEmail (email : string) (s : S)
    : outcome (option Sqlite.CustomerInfo) * S :=
  if String.eqb email "" then (Thrown (required "email" "Email"), s)
  else adapter_getCustomerByEmail email s.

Definition updateCustomer (env : Sqlite.Env) (customerId : string)
    (updates : SqliteStore.Updates.t) (s : S)
    : outcome Sqlite.CustomerInfo * S :=
  if String.eqb customerId "" then
    (Thrown (required "customerId" "Customer ID"), s)
  else
    match validateCustomerUpdateData updates with
    | Thrown e => (Thrown e, s)
    | Returned _ => adapter_updateCustomer env customerId updates s
    end.

Definition deleteCustomer (customerId : string) (s : S) : outcome unit * S :=
  if String.eqb customerId "" then
    (Thrown (required "customerId" "Customer ID"), s)
  else
    match Manager.adapter_getCustomer customerId s with
    | (Thrown e, s') => (Thrown e, s')
    | (Returned None, s') =>
        (Thrown (CustomerNotFoundError "Customer not found" customerId), s')
    | (Returned (Some _), s') => adapter_deleteCustomer customerId s'
    end.

Definition updateCustomerUsage (env : Sqlite.Env) (customerId : string)
    (usage : SqliteStore.UsageChange) (s : S) : outcome unit * S :=
  if String.eqb customerId "" then
    (Thrown (required "customerId" "Customer ID"), s)
  else adapter_updateCustomerUsage env customerId usage s.

End Customers.

(** [v !== undefined] and [typeof v !== 'boolean']. *)
Definition is_defined (v : value) : bool :=
  match v with VUndef => false | _ => true end.

Definition is_boolean (v : value) : bool :=
  match v with VBool _ => true | _ => false end.

(** [v <= 0], evaluated on a number only. *)
Definition not_positive (v : value) : bool :=
  match v with VNum n => Z.leb n 0 | _ => false end.

Definition usageRecordErrors (record : gmap string value)
    : list (string * string) :=
  (Manager.push_if (negb (truthy (get "customerId" record)))
                   "customerId" "Customer ID is required"
   ++ Manager.push_if (negb (truthy (get "toolName" record)))
                   "toolName" "Tool name is required"
   ++ Manager.push_if (negb (is_number (get "cost" record))
                       || Manager.negative (get "cost" record))
                   "cost" "Cost must be a non-negative number"
   ++ Manager.push_if (is_defined (get "credits" record)
                       && (negb (is_number (get "credits" record))
                           || Manager.negative (get "credits" record)))
                   "credits" "Credits must be a non-negative number"
   ++ Manager.push_if (negb (truthy (get "timestamp" record))
                       || negb (is_date (get "timestamp" record)))
                   "timestamp" "Valid timestamp is required"
   ++ Manager.push_if (negb (is_boolean (get "success" record)))
                   "success" "Success field must be a boolean")%list.

Definition paymentIntentErrors (paymentIntent : gmap string value)
    : list (string * string) :=
  (Manager.push_if (negb (truthy (get "paymentIntentId" paymentIntent)))
                   "paymentIntentId" "Payment intent ID is required"
   ++ Manager.push_if (negb (is_number (get "amount" paymentIntent))
                       || not_positive (get "amount" paymentIntent))
                   "amount" "Amount must be a positive number"
   ++ Manager.push_if (negb (truthy (get "currency" paymentIntent)))
                   "currency" "Currency is required"
   ++ Manager.push_if (negb (truthy (get "customerId" paymentIntent)))
                   "customerId" "Customer ID is required")%list.

Definition subscriptionStatuses : list string :=
  ["active"; "canceled"; "past_due"; "trialing"; "incomplete"].

Definition subscriptionErrors (subscription : gmap string value)
    : list (string * string) :=
  (Manager.push_if (negb (truthy (get "stripeSubscriptionId" subscription)))
                   "stripeSubscriptionId" "Stripe subscription ID is required"
   ++ Manager.push_if (negb (truthy (get "customerId" subscription)))
                   "customerId" "Customer ID is required"
   ++ Manager.push_if (negb (truthy (get "planId" subscription)))
                   "planId" "Plan ID is required"
   ++ Manager.push_if (negb (truthy (get "status" subscription))
                       || negb (includes subscriptionStatuses
                                         (get "status" subscription)))
                   "status" "Valid status is required"
   ++ Manager.push_if (negb (truthy (get "currentPeriodStart" subscription))
                       || negb (is_date (get "currentPeriodStart" subscription)))
                   "currentPeriodStart"
                   "Valid current period start date is required"
   ++ Manager.push_if (negb (truthy (get "currentPeriodEnd" subscription))
                       || negb (is_date (get "currentPeriodEnd" subscription)))
                   "currentPeriodEnd"
                   "Valid current period end date is required")%list.

Definition webhookStatuses : list string :=
  ["pending"; "processed"; "failed"; "retrying"].

Definition webhookEventErrors (event : gmap string value)
    : list (string * string) :=
  (Manager.push_if (negb (truthy (get "type" event)))
                   "type" "Event type is required"
   ++ Manager.push_if (negb (truthy (get "data" event)))
                   "data" "Event data is required"
   ++ Manager.push_if (negb (truthy (get "status" event))
                       || negb (includes webhookStatuses (get "status" event)))
                   "status" "Valid status is required"
   ++ Manager.push_if (negb (is_number (get "retryCount" event))
                       || Manager.negative (get "retryCount" event))
                   "retryCount" "Retry count must be a non-negative number")%list.

Definition validateUsageRecord (record : gmap string value) : outcome unit :=
  throw_if_any "Usage record validation failed" (usageRecordErrors record).

Definition validatePaymentIntent (paymentIntent : gmap string value)
    : outcome unit :=
  throw_if_any "Payment intent validation failed"
               (paymentIntentErrors paymentIntent).

Definition validateSubscription (subscription : gmap string value)
    : outcome unit :=
  throw_if_any "Subscription validation failed" (subscriptionErrors subscription).

Definition validateWebhookEvent (event : gmap string value) : outcome unit :=
  throw_if_any "Webhook event validation failed" (webhookEventErrors event).

Section Records.
Context {S : Type} `{RecordAdapter S}.

(** [validate(x); return await this.adapter.create(x)]. *)
Definition validated (check : outcome unit)
    (create : S → outcome (gmap string value) * S) (s : S)
    : outcome (gmap string value) * S :=
  match check with
  | Thrown e => (Thrown e, s)
  | Returned _ => create s
  end.

Definition createUsageRecord (env : Sqlite.Env) (record : gmap string value)
    : S → outcome (gmap string value) * S :=
  validated (validateUsageRecord record) (adapter_createUsageRecord env record).

Definition createPaymentIntent (env : Sqlite.Env)
    (paymentIntent : gmap string value) : S → outcome (gmap string value) * S :=
  validated (validatePaymentIntent paymentIntent)
            (adapter_createPaymentIntent env paymentIntent).

Definition createSubscription (env : Sqlite.Env)
    (subscription : gmap string value) : S → outcome (gmap string value) * S :=
  validated (validateSubscription subscription)
            (adapter_createSubscription env subscription).

Definition createWebhookEvent (env : Sqlite.Env) (event : gmap string value)
    : S → outcome (gmap string value) * S :=
  validated (validateWebhookEvent event) (adapter_createWebhookEvent env event).

End Records.

End DatabaseManager.

(* ===================================================================== *)
(** ** Configuration validators (src/utils/validators.ts) *)
(* ===================================================================== *)

Module Validators.

(** [s.startsWith(p)], [s.endsWith(p)] and [s.includes(p)]. *)
Definition startsWith (s p : string) : bool := String.prefix p s.

Definition endsWith (s p : string) : bool :=
  Nat.leb (String.length p) (String.length s)
  && String.eqb (String.substring (String.length s - String.length p)
                                  (String.length p) s) p.

Fixpoint includes (s p : string) : bool :=
  String.prefix p s
  || match s with
     | EmptyString => false
     | String _ rest => includes rest p
     end.




(** [o && !ok(o)] and [o && o !== x] on an optional string. *)
Definition given_but (o : option string) (ok : string → bool) : bool :=
  match o with
  | Some s => negb (String.eqb s "") && negb (ok s)
  | None => false
  end.

Section Stripe.

(** [validateUrl] of the helpers is not part of the sources at hand. *)
Variable validateUrl : string → bool.



End Stripe.

Record PoolConfig : Type := {
  pool_min : option Z;
  pool_max : option Z;
  acquire : option Z;
  idle : option Z;
}.

Record BackupConfig : Type := {
  backup_enabled : bool;
  schedule : option string;
  retention : option Z;
}.

Record DatabaseConfig : Type := {
  type : string;
  connectionString : option string;
  pool : option PoolConfig;
  tablePrefix : option string;
  backup : option BackupConfig;
}.

(** [s.trim()] and [s.split(/\s+/)] on the code units of a string. *)
Fixpoint drop_while (p : ascii → bool) (s : list ascii) : list ascii :=
  match s with
  | c :: s' => if p c then drop_while p s' else s
  | [] => []
  end.

Definition trim (s : list ascii) : list ascii :=
  reverse (drop_while Regex.whitespace
             (reverse (drop_while Regex.whitespace s))).

(** [piece] is the piece being read, last character first; [in_run]
    tells that the last character read was whitespace. *)
Fixpoint split_whitespace (s piece : list ascii) (in_run : bool)
    : list (list ascii) :=
  match s with
  | [] => [reverse piece]
  | c :: s' =>
      if Regex.whitespace c then
        if in_run then split_whitespace s' piece true
        else reverse piece :: split_whitespace s' [] true
      else split_whitespace s' (c :: piece) false
  end.

Definition isValidCronExpression (cron : string) : bool :=
  let parts :=
    split_whitespace (trim (String.list_ascii_of_string cron)) [] false in
  Nat.eqb (length parts) 5 || Nat.eqb (length parts) 6.

Definition supportedTypes : list string := ["sqlite"; "postgresql"; "mysql"].

(** A text between double quotes. *)
Definition quoted (s : string) : string :=
  String (Ascii.ascii_of_nat 34) (s +:+ String (Ascii.ascii_of_nat 34) "").

(** The check of the connection string for the three database types;
    another type has no case in the [switch]. *)
Definition connectionStringErrors (type connectionString : string)
    : list (string * string) :=
  if String.eqb type "sqlite" then
    Manager.push_if
      (negb (String.eqb connectionString ":memory:")
       && negb (endsWith connectionString ".db")
       && negb (endsWith connectionString ".sqlite")
       && negb (endsWith connectionString ".sqlite3"))
      "connectionString"
      ("SQLite connection string should be a .db, .sqlite, .sqlite3 file or "
       +:+ quoted ":memory:")
  else if String.eqb type "postgresql" then
    Manager.push_if
      (negb (startsWith connectionString "postgres://")
       && negb (startsWith connectionString "postgresql://"))
      "connectionString"
      ("PostgreSQL connection string must start with "
       +:+ quoted "postgres://" +:+ " or " +:+ quoted "postgresql://")
  else if String.eqb type "mysql" then
    Manager.push_if
      (negb (startsWith connectionString "mysql://"))
      "connectionString"
      ("MySQL connection string must start with " +:+ quoted "mysql://")
  else [].

(** [o !== undefined && test(o)] on an optional number. *)
Definition given_and (o : option Z) (test : Z → bool) : bool :=
  match o with Some n => test n | None => false end.

Definition poolErrors (p : PoolConfig) : list (string * string) :=
  (Manager.push_if (given_and (pool_min p) (λ n, Z.ltb n 0))
                   "pool.min" "Pool minimum must be non-negative"
   ++ Manager.push_if (given_and (pool_max p) (λ n, Z.ltb n 1))
                   "pool.max" "Pool maximum must be at least 1"
   ++ Manager.push_if
        (match pool_min p, pool_max p with
         | Some lo, Some hi => Z.ltb hi lo
         | _, _ => false
         end)
        "pool" "Pool minimum cannot be greater than maximum"
   ++ Manager.push_if (given_and (acquire p) (λ n, Z.ltb n 1000))
                   "pool.acquire" "Pool acquire timeout must be at least 1000ms"
   ++ Manager.push_if (given_and (idle p) (λ n, Z.ltb n 1000))
                   "pool.idle" "Pool idle timeout must be at least 1000ms")%list.

Definition backupErrors (b : BackupConfig) : list (string * string) :=
  if backup_enabled b then
    (Manager.push_if (given_but (schedule b) isValidCronExpression)
                     "backup.schedule"
                     "Invalid cron expression for backup schedule"
     ++ Manager.push_if (given_and (retention b) (λ n, Z.ltb n 1))
                     "backup.retention"
                     "Backup retention must be at least 1 day")%list
  else [].

Definition databaseConfigErrors (config : DatabaseConfig)
    : list (string * string) :=
  (Manager.push_if
     (negb (Js.includes supportedTypes (Js.VStr (type config))))
     "type" "Database type must be one of: sqlite, postgresql, mysql"
   ++ match connectionString config with
      | Some cs =>
          if String.eqb cs "" then
            [("connectionString", "Connection string is required")]
          else connectionStringErrors (type config) cs
      | None => [("connectionString", "Connection string is required")]
      end
   ++ match pool config with Some p => poolErrors p | None => [] end
   ++ Manager.push_if
        (given_but (tablePrefix config) (Regex.test Regex.identifier))
        "tablePrefix"
        "Table prefix must contain only letters, numbers, and underscores, and start with a letter or underscore"
   ++ match backup config with Some b => backupErrors b | None => [] end)%list.

(** [validateDatabaseConfig(config)]: a ValidationError, or [null]. *)
Definition validateDatabaseConfig (config : DatabaseConfig) : option error :=
  if Nat.ltb 0 (length (databaseConfigErrors config)) then
    Some (ValidationError "Database configuration validation failed"
                          (databaseConfigErrors config))
  else None.

(** The character set of an SQL identifier. *)
Definition identifier_char (c : ascii) : bool :=
  Regex.letter c || Regex.digit c || Regex.underscore c.

End Validators.

(* ===================================================================== *)
(** ** Payment endpoint (src/api/stripe-endpoints.ts) *)
(* ===================================================================== *)

Module Payments.

Record PaymentParams : Type := {
  customerId : string;
  amount : Z;
  currency : string;
  toolName : string;
  paymentMethodId : option string;
  description : option string;
  metadata : option (gmap string string);
}.

Record PaymentResult : Type := {
  success : bool;
  result_amount : option Z;
  result_currency : option string;
  paymentIntentId : option string;
  error : option string;
  result_metadata : option (gmap string string);
}.

(** [processPayment(params)]; [rnd] is the text
    [Math.random().toString(36).substr(2, 24)] evaluates to.  In
    [{ toolName, customerId, ...params.metadata }] the later properties
    win. *)
Definition processPayment (rnd : string) (params : PaymentParams)
    (this : Endpoints.StripeAPIEndpoints)
    : outcome PaymentResult * Endpoints.StripeAPIEndpoints :=
  (Returned
     {| success := true;
        result_amount := Some (amount params);
        result_currency := Some (currency params);
        paymentIntentId := Some ("pi_" +:+ rnd);
        error := None;
        result_metadata :=
          Some (default ∅ (metadata params)
                ∪ {[ "toolName" := toolName params;
                     "customerId" := customerId params ]}) |},
   this).

End Payments.

(* ===================================================================== *)
(** ** Data the hooks pass on *)
(* ===================================================================== *)

Module HookData.
Import Js Plugin.

(** The billing entry the pre-invocation hook attaches. *)
Definition billingEntry (this : StripeMonetizationPlugin) (auth : AuthResult)
    (bill : BillingResult) : value :=
  VObj {[ "userId" := of_str (userId auth);
          "amount" := of_num (amount bill);
          "currency" := VStr "usd";
          "billingModel" := get "billingModel" (config this) ]}.

(** The context the pre-invocation hook leaves when the call proceeds. *)
Definition proceeding (this : StripeMonetizationPlugin)
    (context : ToolCallContext) (auth : AuthResult) (bill : BillingResult)
    : ToolCallContext :=
  set_metadata context
    (VObj (<["billing" := billingEntry this auth bill]>
             (spread (metadata context)))).

End HookData.

(* ===================================================================== *)
(** ** Calls of the setup helpers *)
(* ===================================================================== *)

Module SetupCalls.

(** A call of one of the six setup helpers, with its argument. *)
Inductive call : Type :=
  | Basic (options : Helpers.BasicSetupOptions)
  | Subscription (options : Setups.SubscriptionSetupOptions)
  | UsageBased (options : Setups.UsageBasedSetupOptions)
  | Freemium (options : Setups.FreemiumSetupOptions)
  | CreditSystem (options : Setups.CreditSystemSetupOptions)
  | Development (secretKey publishableKey webhookSecret : string).

(** The configuration the call returns. *)
Definition configuration (jwtSecret : option string) (c : call)
    : gmap string Js.value :=
  match c with
  | Basic options => Helpers.createBasicSetup jwtSecret options
  | Subscription options => Setups.createSubscriptionSetup jwtSecret options
  | UsageBased options => Setups.createUsageBasedSetup jwtSecret options
  | Freemium options => Setups.createFreemiumSetup jwtSecret options
  | CreditSystem options => Setups.createCreditSystemSetup jwtSecret options
  | Development secretKey publishableKey webhookSecret =>
      Setups.createDevelopmentSetup jwtSecret
        secretKey publishableKey webhookSecret
  end.

(** The three Stripe keys the caller passed. *)
Definition keys (c : call) : list string :=
  match c with
  | Basic options =>
      [Helpers.stripeSecretKey options; Helpers.stripePublishableKey options;
       Helpers.webhookSecret options]
  | Subscription options =>
      [Setups.sub_stripeSecretKey options;
       Setups.sub_stripePublishableKey options;
       Setups.sub_webhookSecret options]
  | UsageBased options =>
      [Setups.ub_stripeSecretKey options;
       Setups.ub_stripePublishableKey options;
       Setups.ub_webhookSecret options]
  | Freemium options =>
      [Setups.fr_stripeSecretKey options;
       Setups.fr_stripePublishableKey options;
       Setups.fr_webhookSecret options]
  | CreditSystem options =>
      [Setups.cs_stripeSecretKey options;
       Setups.cs_stripePublishableKey options;
       Setups.cs_webhookSecret options]
  | Development secretKey publishableKey webhookSecret =>
      [secretKey; publishableKey; webhookSecret]
  end.

(** The billing model the helper is for, as the helper spells it. *)
Definition billingModel (c : call) : string :=
  match c with
  | Basic _ | Development _ _ _ => "per-call"
  | Subscription _ => "subscription"
  | UsageBased _ => "usage-based"
  | Freemium _ => "freemium"
  | CreditSystem _ => "credit-system"
  end.

End SetupCalls.

(* ===================================================================== *)
(** ** Sample runs of the adapter *)
(* ===================================================================== *)

Module StoreRun.
Import SqliteStore.

(** A database holding one customer. *)
Definition with_ada : Database :=
  (createCustomer Run.first_call Run.ada (empty None)).2.

Definition third_call : Sqlite.Env :=
  {| Sqlite.uuidv4 := "5c6d7e8f-2a3b-4c4d-9e5f-6a7b8c9d0e1f";
     Sqlite.now := 1700000120000 |}.

(** A second customer, and the database holding both. *)
Definition grace : Sqlite.CustomerData :=
  {| Sqlite.stripeCustomerId := None;
     Sqlite.email := "grace@example.com";
     Sqlite.name := Some "Grace";
     Sqlite.metadata := None;
     Sqlite.subscriptionStatus := None;
     Sqlite.planId := None;
     Sqlite.credits := None;
     Sqlite.usage := None;
     Sqlite.paymentMethod := None;
     Sqlite.status := "active" |}.

Definition with_both : Database :=
  (createCustomer Run.later_call grace with_ada).2.


(** An update of e-mail address and credits that also names fields the
    UPDATE statement does not carry. *)
Definition new_address : Updates.t :=
  {| Updates.customerId := Some "someone-else";
     Updates.stripeCustomerId := Some "cus_other";
     Updates.email := Some "ada@lovelace.org";
     Updates.name := None;
     Updates.metadata := None;
     Updates.subscriptionStatus := None;
     Updates.planId := None;
     Updates.credits := Some 35;
     Updates.createdAt := Some 0;
     Updates.updatedAt := Some 0;
     Updates.usage := None;
     Updates.paymentMethod := None;
     Updates.status := None |}.

(** One call of a tool, as usage change and as usage record. *)
Definition one_call : UsageChange :=
  {| totalCalls := Some 1;
     currentPeriodCalls := Some 1;
     lastCallAt := Some 1700000110000;
     totalSpent := Some 100;
     creditsUsed := Some 10 |}.

Definition search_record : UsageData :=
  {| customerId := Run.ada_id;
     toolName := "search";
     args := ∅;
     cost := 100;
     credits := None;
     timestamp := 1700000110000;
     processingTime := Some 12;
     success := true;
     error := None;
     metadata := None;
     billingPeriod := None;
     subscriptionId := None;
     paymentIntentId := None |}.

End StoreRun.

(* ===================================================================== *)
(** ** What the manager's validators let through *)
(* ===================================================================== *)

Module Accepted.
Import Js.

(** local@domain.tail: three non-empty parts without whitespace and
    without '@'. *)
Definition address (s : string) : Prop :=
  ∃ a b c,
    String.list_ascii_of_string s = (a ++ "@"%char :: b ++ "."%char :: c)%list
    ∧ a ≠ [] ∧ b ≠ [] ∧ c ≠ []
    ∧ Forall (λ x, Regex.plain x = true) a
    ∧ Forall (λ x, Regex.plain x = true) b
    ∧ Forall (λ x, Regex.plain x = true) c.

Definition customer (d : Sqlite.CustomerData) : Prop :=
  address (Sqlite.email d)
  ∧ Sqlite.status d ∈ DatabaseManager.customerStatuses.

Definition update (u : SqliteStore.Updates.t) : Prop :=
  (∀ e, SqliteStore.Updates.email u = Some e → e = "" ∨ address e)
  ∧ (∀ s, SqliteStore.Updates.status u = Some s →
          s = "" ∨ s ∈ DatabaseManager.customerStatuses)
  ∧ (∀ n, SqliteStore.Updates.credits u = Some n → 0 ≤ n).

(** A number that is not negative, and one that is positive. *)
Definition amount (v : value) : Prop := ∃ n, v = VNum n ∧ 0 ≤ n.

Definition positive (v : value) : Prop := ∃ n, v = VNum n ∧ 0 < n.

Definition date (v : value) : Prop := ∃ t, v = VDate t.

Definition one_of (lits : list string) (v : value) : Prop :=
  ∃ s, v = VStr s ∧ s ∈ lits.

Definition usageRecord (r : gmap string value) : Prop :=
  truthy (get "customerId" r) = true
  ∧ truthy (get "toolName" r) = true
  ∧ amount (get "cost" r)
  ∧ (get "credits" r = VUndef ∨ amount (get "credits" r))
  ∧ date (get "timestamp" r)
  ∧ ∃ b, get "success" r = VBool b.

Definition paymentIntent (p : gmap string value) : Prop :=
  truthy (get "paymentIntentId" p) = true
  ∧ positive (get "amount" p)
  ∧ truthy (get "currency" p) = true
  ∧ truthy (get "customerId" p) = true.

Definition subscription (s : gmap string value) : Prop :=
  truthy (get "stripeSubscriptionId" s) = true
  ∧ truthy (get "customerId" s) = true
  ∧ truthy (get "planId" s) = true
  ∧ one_of DatabaseManager.subscriptionStatuses (get "status" s)
  ∧ date (get "currentPeriodStart" s)
  ∧ date (get "currentPeriodEnd" s).

Definition webhookEvent (e : gmap string value) : Prop :=
  truthy (get "type" e) = true
  ∧ truthy (get "data" e) = true
  ∧ one_of DatabaseManager.webhookStatuses (get "status" e)
  ∧ amount (get "retryCount" e).

End Accepted.

(* ===================================================================== *)
(** * Properties *)
(* ===================================================================== *)

(** ** JavaScript values *)

Module JsFacts.
Import Js.

Lemma truthy_or_else_l a b : truthy a = true → or_else a b = a.
Proof. unfold or_else. by intros ->. Qed.

Lemma truthy_or_else_r a b : truthy a = false → or_else a b = b.
Proof. unfold or_else. by intros ->. Qed.

Lemma is_lit_true v lit : is_lit v lit = true ↔ v = VStr lit.
Proof.
  destruct v; simpl; try (split; [discriminate | congruence]).
  rewrite String.eqb_eq. split; congruence.
Qed.

Lemma is_lit_false v lit : is_lit v lit = false ↔ v ≠ VStr lit.
Proof.
  rewrite <- is_lit_true. destruct (is_lit v lit); split; congruence.
Qed.

Lemma includes_true lits v :
  includes lits v = true ↔ ∃ s, v = VStr s ∧ s ∈ lits.
Proof.
  unfold includes. rewrite existsb_exists. split.
  - intros (s & Hin & Hs). apply is_lit_true in Hs.
    exists s. split; [done | by apply list_elem_of_In].
  - intros (s & -> & Hin). exists s.
    split; [by apply list_elem_of_In | by apply is_lit_true].
Qed.

Lemma truthy_string s : truthy (VStr s) = true ↔ s ≠ "".
Proof.
  simpl. rewrite negb_true_iff. split.
  - intros Hs ->. by rewrite String.eqb_refl in Hs.
  - intros Hs. by apply String.eqb_neq.
Qed.

End JsFacts.

(** ** The pre-invocation hook *)

Module GateProps.
Import Js Plugin.

(** Unfolds a hook down to the helper calls. *)
Ltac hook :=
  unfold beforeToolCall, afterToolCall, try_catch, bind, await, invoke, ret, throw.

Lemma errorResult_isError text :
  get "isError" (result (errorResult text)) = VBool true.
Proof. reflexivity. Qed.

Lemma errorResult_text text :
  get "content" (result (errorResult text))
  = VArr [VObj {[ "type" := VStr "text"; "text" := text ]}].
Proof. reflexivity. Qed.

Lemma errorResult_keys text k :
  is_Some (result (errorResult text) !! k) ↔ k = "isError" ∨ k = "content".
Proof.
  unfold errorResult; simpl.
  rewrite lookup_insert_is_Some, lookup_singleton_is_Some.
  intuition congruence.
Qed.

Lemma errorResult_not_refusal text :
  Spec.carries_refusal (errorResult text) = false.
Proof. reflexivity. Qed.

(** Which answers of the hook let the tool run: [undefined] is returned
    only after all three checks passed, or after a check threw under the
    development setting. *)
Lemma beforeToolCall_proceeds `{Backend} (this : StripeMonetizationPlugin)
    (context context' : ToolCallContext) (log log' : list call) :
  beforeToolCall this context log = (Returned (None, context'), log') →
  (∃ auth limit bill,
      authenticateUser context = Returned auth ∧ authenticated auth = true
      ∧ checkRateLimit context (userId auth) = Returned limit
      ∧ exceeded limit = false
      ∧ checkBilling this context (userId auth) = Returned bill
      ∧ canProceed bill = true)
  ∨ ((∃ e, Scenario.checks_throw this context e)
     ∧ get "environment" (config this) = VStr "development").
Proof.
  hook. destruct (initialized this); simpl; [| discriminate].
  destruct (authenticateUser context) as [auth | e] eqn:Ha.
  - destruct (authenticated auth) eqn:Hauth; simpl; [| discriminate].
    destruct (checkRateLimit context (userId auth)) as [limit | e] eqn:Hl.
    + destruct (exceeded limit) eqn:Hex; simpl; [discriminate |].
      destruct (checkBilling this context (userId auth)) as [bill | e] eqn:Hb.
      * destruct (canProceed bill) eqn:Hcp; simpl; [| discriminate].
        intros _. left. by exists auth, limit, bill.
      * destruct (is_lit _ _) eqn:Hdev; [| discriminate].
        intros _. right. split; [| by apply JsFacts.is_lit_true].
        exists e. by eapply Scenario.billing_throws.
    + destruct (is_lit _ _) eqn:Hdev; [| discriminate].
      intros _. right. split; [| by apply JsFacts.is_lit_true].
      exists e. by eapply Scenario.rate_limit_throws.
  - destruct (is_lit _ _) eqn:Hdev; [| discriminate].
    intros _. right. split; [| by apply JsFacts.is_lit_true].
    exists e. by apply Scenario.authentication_throws.
Qed.

(** C2 (as amended).  When the billing check refuses a call, the hook
    returns, without throwing and without touching the context or making
    an outgoing call, the error result
    [{ isError: true, content: [{ type: 'text', text }] }] whose text is
    the refusal's message or, failing that, 'Payment required to use this
    tool.'; it never returns [undefined], so the tool is not run.  The
    result has no other property: no blocked flag and no required or
    available amount. *)
Theorem beforeToolCall_billing_refusal {B : Backend}
    (this : StripeMonetizationPlugin) (context : ToolCallContext)
    (auth : AuthResult) (limit : RateLimitResult) (bill : BillingResult)
    (log : list call) :
  initialized this = true →
  authenticateUser context = Returned auth →
  authenticated auth = true →
  checkRateLimit context (userId auth) = Returned limit →
  exceeded limit = false →
  checkBilling this context (userId auth) = Returned bill →
  canProceed bill = false →
  ∃ r : ToolCallResult,
    beforeToolCall this context log = (Returned (Some r, context), log)
    ∧ r = errorResult (or_else (of_str (message bill))
                               (VStr "Payment required to use this tool."))
    ∧ get "isError" (result r) = VBool true
    ∧ (∀ k, is_Some (result r !! k) ↔ k = "isError" ∨ k = "content")
    ∧ Spec.carries_refusal r = false.
Proof.
  intros Hinit Ha Hauth Hl Hex Hb Hcp.
  eexists. split; [| split; [reflexivity |]].
  - hook. rewrite Hinit; simpl. rewrite Ha, Hauth; simpl.
    rewrite Hl, Hex; simpl. rewrite Hb, Hcp; simpl. reflexivity.
  - split; [apply errorResult_isError |].
    split; [apply errorResult_keys | apply errorResult_not_refusal].
Qed.

(** C6.  When a pre-invocation check throws, the hook blocks the call with
    an error result unless the stored environment is 'development', in
    which case it returns [undefined] and the call proceeds; in neither
    case does the exception leave the hook. *)
Theorem beforeToolCall_check_failure {B : Backend}
    (this : StripeMonetizationPlugin) (context : ToolCallContext)
    (e : error) (log : list call) :
  initialized this = true →
  Scenario.checks_throw this context e →
  (get "environment" (config this) ≠ VStr "development" →
     beforeToolCall this context log
     = (Returned
          (Some (errorResult
             (VStr "Billing system temporarily unavailable. Please try again later.")),
           context),
        log))
  ∧ (get "environment" (config this) = VStr "development" →
     beforeToolCall this context log = (Returned (None, context), log)).
Proof.
  intros Hinit Hthrow.
  assert (beforeToolCall this context log
          = if is_lit (get "environment" (config this)) "development"
            then (Returned (None, context), log)
            else (Returned
                    (Some (errorResult
                       (VStr "Billing system temporarily unavailable. Please try again later.")),
                     context), log)) as Hrun.
  { hook. rewrite Hinit; simpl.
    destruct Hthrow as [Ha | auth Ha Hauth Hl | auth limit Ha Hauth Hl Hex Hb].
    - rewrite Ha. by destruct (is_lit _ _).
    - rewrite Ha, Hauth; simpl. rewrite Hl. by destruct (is_lit _ _).
    - rewrite Ha, Hauth; simpl. rewrite Hl, Hex; simpl. rewrite Hb.
      by destruct (is_lit _ _). }
  split; intros Henv; rewrite Hrun.
  - apply JsFacts.is_lit_false in Henv. by rewrite Henv.
  - apply JsFacts.is_lit_true in Henv. by rewrite Henv.
Qed.

(** C3 (as amended).  Under per-call billing the billing check lets every
    call proceed and resolves the fixed amount 100, whatever tool is
    called and whatever prices, discount tiers and minimum charge the
    configuration holds. *)
Theorem checkBilling_per_call_amount (this : StripeMonetizationPlugin)
    (context : ToolCallContext) (user : option string) :
  get "billingModel" (config this) = VStr "per-call" →
  Mock.checkBilling this context user
  = Returned {| canProceed := true; amount := Some 100; message := None |}.
Proof.
  intros Hmodel. unfold Mock.checkBilling. by rewrite Hmodel.
Qed.

(** The amount does not depend on the configuration beyond the billing
    model: 0 under 'subscription' and 'freemium', 100 otherwise. *)
Lemma checkBilling_amount (this : StripeMonetizationPlugin)
    (context : ToolCallContext) (user : option string) :
  ∃ bill, Mock.checkBilling this context user = Returned bill
    ∧ canProceed bill = true
    ∧ amount bill
      = if is_lit (get "billingModel" (config this)) "subscription"
           || is_lit (get "billingModel" (config this)) "freemium"
        then Some 0 else Some 100.
Proof.
  unfold Mock.checkBilling.
  destruct (get "billingModel" (config this)) as [| | | |s| | |];
    try (eexists; split; [reflexivity | done]).
  simpl.
  destruct (String.eqb s "per-call") eqn:H1.
  - apply String.eqb_eq in H1 as ->. eexists; split; [reflexivity | done].
  - destruct (String.eqb s "subscription") eqn:H2; simpl.
    + eexists; split; [reflexivity | done].
    + destruct (String.eqb s "freemium"); eexists; (split; [reflexivity | done]).
Qed.

(** The document's own example of a volume discount (section 8): with
    the tier [{ threshold: 100, discountPercent: 10 }] the 100th call of
    the period costs the default price and the 101st costs 90% of it. *)
Example documented_volume_discount :
  Spec.perCallPrice 100 ∅ [(100, 10)] 0 "search" 99 = 100
  ∧ Spec.perCallPrice 100 ∅ [(100, 10)] 0 "search" 100 = 90
  ∧ Spec.perCallPrice 100 {[ "search" := 30 ]} [(100, 10)] 50 "search" 100 = 50.
Proof. repeat split; reflexivity. Qed.

(** The configuration [createBasicSetup] builds selects per-call billing. *)
Lemma createBasicSetup_billingModel jwt options :
  get "billingModel" (Helpers.createBasicSetup jwt options) = VStr "per-call".
Proof. reflexivity. Qed.

Lemma createBasicSetup_environment jwt options :
  get "environment" (Helpers.createBasicSetup jwt options) = VStr "development".
Proof. reflexivity. Qed.

(** The constructor keeps none of the billing settings in [this.config]. *)
Lemma constructor_config cfg k :
  is_Some (config (constructor cfg) !! k)
  ↔ k = "enabled" ∨ k = "priority" ∨ k = "debug".
Proof.
  unfold constructor; simpl.
  rewrite !lookup_insert_is_Some, lookup_singleton_is_Some.
  intuition congruence.
Qed.

(** Witness for C2: the refusing billing check on an authorized call. *)
Lemma beforeToolCall_billing_refusal_witness :
  ∃ r : ToolCallResult,
    beforeToolCall (H := Scenario.refusing) (Scenario.running Scenario.basic)
                   (Scenario.authorized "search") []
    = (Returned (Some r, Scenario.authorized "search"), [])
    ∧ r = errorResult (or_else (of_str (message Scenario.insufficient))
                               (VStr "Payment required to use this tool."))
    ∧ get "isError" (result r) = VBool true
    ∧ (∀ k, is_Some (result r !! k) ↔ k = "isError" ∨ k = "content")
    ∧ Spec.carries_refusal r = false.
Proof.
  apply (beforeToolCall_billing_refusal (B := Scenario.refusing)
           (Scenario.running Scenario.basic) (Scenario.authorized "search")
           {| authenticated := true; userId := Some "user_k3x9q0zt1" |}
           {| exceeded := false; retryAfter := None |}
           Scenario.insufficient []);
    reflexivity.
Defined.

(** C2 as stated fails.  A call refused by the billing check comes back as
    the error result with the text 'Insufficient credits': it has no
    [blocked], [required] or [available] property anywhere.  The same
    holds, with the helpers of the source, for a call refused for lack of
    credentials. *)
Lemma billing_refusal_is_unstructured :
  beforeToolCall (H := Scenario.refusing) (Scenario.running Scenario.basic)
                 (Scenario.authorized "search") []
  = (Returned (Some (errorResult (VStr "Insufficient credits")),
               Scenario.authorized "search"), [])
  ∧ Spec.carries_refusal (errorResult (VStr "Insufficient credits")) = false
  ∧ result (errorResult (VStr "Insufficient credits")) !! "blocked" = None
  ∧ result (errorResult (VStr "Insufficient credits")) !! "required" = None
  ∧ result (errorResult (VStr "Insufficient credits")) !! "available" = None
  ∧ beforeToolCall (H := mock "k3x9q0zt1") (Scenario.running Scenario.basic)
                   (Scenario.anonymous "search") []
    = (Returned
         (Some (errorResult
            (VStr "Authentication required. Please provide valid credentials.")),
          Scenario.anonymous "search"), [])
  ∧ Spec.carries_refusal
      (errorResult
         (VStr "Authentication required. Please provide valid credentials."))
    = false.
Proof. repeat split; reflexivity. Qed.

(** Witness for C6: the store behind the billing check is down, once
    under the development configuration and once under production. *)
Lemma beforeToolCall_check_failure_witness :
  beforeToolCall (H := Scenario.store_down) (Scenario.running Scenario.production)
                 (Scenario.authorized "search") []
  = (Returned
       (Some (errorResult
          (VStr "Billing system temporarily unavailable. Please try again later.")),
        Scenario.authorized "search"), [])
  ∧ beforeToolCall (H := Scenario.store_down) (Scenario.running Scenario.basic)
                   (Scenario.authorized "search") []
    = (Returned (None, Scenario.authorized "search"), []).
Proof.
  assert (∀ cfg,
    Scenario.checks_throw (H := Scenario.store_down) (Scenario.running cfg)
      (Scenario.authorized "search")
      (DatabaseError "Failed to get customer: SQLITE_BUSY" "getCustomer" None))
    as Hthrow.
  { intros cfg.
    apply (Scenario.billing_throws (H := Scenario.store_down) _ _ _
             {| authenticated := true; userId := Some "user_k3x9q0zt1" |}
             {| exceeded := false; retryAfter := None |});
      reflexivity. }
  split.
  - apply (proj1 (beforeToolCall_check_failure (B := Scenario.store_down)
                    (Scenario.running Scenario.production)
                    (Scenario.authorized "search") _ [] eq_refl
                    (Hthrow Scenario.production))).
    vm_compute. discriminate.
  - apply (proj2 (beforeToolCall_check_failure (B := Scenario.store_down)
                    (Scenario.running Scenario.basic)
                    (Scenario.authorized "search") _ [] eq_refl
                    (Hthrow Scenario.basic))).
    reflexivity.
Defined.

(** Witness for C3: the configuration built by [createBasicSetup]. *)
Lemma checkBilling_per_call_amount_witness :
  Mock.checkBilling (Scenario.running Scenario.basic)
                    (Scenario.authorized "search") (Some "user_k3x9q0zt1")
  = Returned {| canProceed := true; amount := Some 100; message := None |}.
Proof.
  apply (checkBilling_per_call_amount (Scenario.running Scenario.basic)
           (Scenario.authorized "search") (Some "user_k3x9q0zt1")).
  reflexivity.
Defined.

(** C3 as stated fails.  With a default price of 250 and a price of 500
    for 'search', the document's price is 500 for 'search' and 250 for any
    other tool; the billing check resolves 100 for both, and the hook
    attaches that amount to the call. *)
Lemma checkBilling_ignores_prices :
  Spec.basicSetupPrice Scenario.priced "search" 0 = 500
  ∧ Spec.basicSetupPrice Scenario.priced "lookup" 0 = 250
  ∧ Scenario.resolved_amount
      (Mock.checkBilling (Scenario.running Scenario.basic)
         (Scenario.authorized "search") (Some "user_k3x9q0zt1"))
    = Some 100
  ∧ Scenario.resolved_amount
      (Mock.checkBilling (Scenario.running Scenario.basic)
         (Scenario.authorized "lookup") (Some "user_k3x9q0zt1"))
    = Some 100
  ∧ Scenario.attached_amount
      (beforeToolCall (H := mock "k3x9q0zt1") (Scenario.running Scenario.basic)
         (Scenario.authorized "search") [])
    = VNum 100.
Proof. repeat split; reflexivity. Qed.

End GateProps.

(** ** The post-invocation hook *)

Module RecorderProps.
Import Js Plugin.

Ltac hook := GateProps.hook.

#[local] Arguments usageOf : simpl never.
#[local] Arguments paymentOf : simpl never.
#[local] Arguments billingSummary : simpl never.
#[local] Arguments billingFailure : simpl never.
#[local] Arguments with_billing : simpl never.
#[local] Arguments set_meta : simpl never.

Lemma usageOf_success billingData context now res :
  opt_get (usageOf billingData context now res) "success"
  = VBool (negb (truthy (get "isError" (result res)))).
Proof. reflexivity. Qed.

Lemma usageOf_amount billingData context now res :
  opt_get (usageOf billingData context now res) "amount"
  = opt_get billingData "amount".
Proof. reflexivity. Qed.

Lemma billingSummary_charged billingData context now res :
  opt_get (billingSummary billingData context now res) "charged"
  = VBool (negb (truthy (get "isError" (result res)))).
Proof. reflexivity. Qed.

Lemma billingFailure_fields :
  opt_get billingFailure "error" = VStr "Billing processing failed"
  ∧ opt_get billingFailure "charged" = VBool false
  ∧ ∀ k, is_Some (spread billingFailure !! k) ↔ k = "error" ∨ k = "charged".
Proof.
  split; [reflexivity | split; [reflexivity |]].
  intros k. unfold billingFailure; simpl.
  rewrite lookup_insert_is_Some, lookup_singleton_is_Some.
  intuition congruence.
Qed.

(** [_meta] after the assignment: [billing] is the new entry, every other
    entry is the one that was there. *)
Lemma set_meta_billing res b :
  opt_get (get "_meta" (result (set_meta res (with_billing res b)))) "billing" = b.
Proof.
  unfold set_meta, with_billing, get at 1; simpl.
  rewrite lookup_insert_eq; simpl.
  unfold get. by rewrite lookup_insert_eq.
Qed.

Lemma set_meta_others res b k :
  k ≠ "billing" →
  spread (get "_meta" (result (set_meta res (with_billing res b)))) !! k
  = spread (get "_meta" (result res)) !! k.
Proof.
  intros Hk. unfold set_meta, with_billing, get at 1; simpl.
  rewrite lookup_insert_eq; simpl. by rewrite lookup_insert_ne.
Qed.

Lemma set_meta_frame res m k :
  k ≠ "_meta" → result (set_meta res m) !! k = result res !! k.
Proof. intros Hk. unfold set_meta; simpl. by rewrite lookup_insert_ne. Qed.

(** The hook always returns, and what it returns is the result it was
    given or that result with [_meta] reassigned. *)
Lemma afterToolCall_returns `{Backend} (this : StripeMonetizationPlugin)
    (tUsage : Z) (tMeta : string) (context : ToolCallContext)
    (res : ToolCallResult) (log : list call) :
  ∃ r suffix,
    afterToolCall this tUsage tMeta context res log
    = (Returned r, (log ++ suffix)%list)
    ∧ (r = res ∨ ∃ b, r = set_meta res (with_billing res b)).
Proof.
  hook. destruct (initialized this); simpl.
  2: { exists res, []. by rewrite app_nil_r; auto. }
  destruct (truthy (opt_get (metadata context) "billing")).
  2: { exists res, []. by rewrite app_nil_r; auto. }
  destruct (recordUsage _) as [[] | e].
  2: { eexists _, [_]. split; [reflexivity | eauto]. }
  destruct (truthy (get "isError" (result res))); simpl.
  { eexists _, [_]. split; [reflexivity | eauto]. }
  destruct (processPayment _) as [[] | e].
  - eexists _, [_; _]. rewrite <- app_assoc. split; [reflexivity | eauto].
  - eexists _, [_; _]. rewrite <- app_assoc. split; [reflexivity | eauto].
Qed.

(** C4 (as amended).  For an initialized plugin and a call that carries
    billing data, the hook returns after calling [recordUsage]; if the
    tool result is an error that is the only outgoing call, its record
    has [success = false] and, as amount, the amount the billing gate attached
    to the call, and the result reports [charged = false]; [processPayment]
    is called only when the tool result is not an error. *)
Theorem afterToolCall_failed_call `{Backend} (this : StripeMonetizationPlugin)
    (tUsage : Z) (tMeta : string) (context : ToolCallContext)
    (res : ToolCallResult) (log : list call) :
  initialized this = true →
  truthy (opt_get (metadata context) "billing") = true →
  ∃ r suffix,
    afterToolCall this tUsage tMeta context res log
    = (Returned r, (log ++ suffix)%list)
    ∧ (truthy (get "isError" (result res)) = true →
         suffix = [RecordUsage (usageOf (opt_get (metadata context) "billing")
                                        context tUsage res)]
         ∧ opt_get (usageOf (opt_get (metadata context) "billing")
                            context tUsage res) "success" = VBool false
         ∧ opt_get (usageOf (opt_get (metadata context) "billing")
                            context tUsage res) "amount"
           = opt_get (opt_get (metadata context) "billing") "amount"
         ∧ opt_get (opt_get (get "_meta" (result r)) "billing") "charged"
           = VBool false)
    ∧ (∀ p, ProcessPayment p ∈ suffix →
            truthy (get "isError" (result res)) = false).
Proof.
  intros Hinit Hdata.
  pose proof (usageOf_success (opt_get (metadata context) "billing")
                context tUsage res) as Hsuccess.
  pose proof (usageOf_amount (opt_get (metadata context) "billing")
                context tUsage res) as Hamount.
  pose proof (billingSummary_charged (opt_get (metadata context) "billing")
                context tMeta res) as Hcharged.
  hook. rewrite Hinit, Hdata. cbn [negb].
  destruct (truthy (get "isError" (result res))) eqn:Herr; cbn [negb] in *.
  - destruct (recordUsage _) as [[] | e];
      eexists _, [_]; (split; [reflexivity |]); split.
    + intros _. split; [done |]. split; [done |]. split; [done |].
      by rewrite set_meta_billing.
    + intros p Hp. apply list_elem_of_singleton in Hp. discriminate.
    + intros _. split; [done |]. split; [done |]. split; [done |].
      rewrite set_meta_billing. apply billingFailure_fields.
    + intros p Hp. apply list_elem_of_singleton in Hp. discriminate.
  - destruct (recordUsage _) as [[] | e].
    + destruct (processPayment _) as [[] | e];
        eexists _, [_; _]; rewrite <- app_assoc;
        (split; [reflexivity |]); split; done.
    + eexists _, [_]; (split; [reflexivity |]); split; done.
Qed.

(** C10.  The hook never throws.  The result it returns agrees with the
    one it was given on every property other than [_meta] (so [content]
    and [isError] are untouched), and its [_meta] agrees on every entry
    other than [billing]; an uninitialized plugin returns the result as
    it is and makes no call; when usage recording or payment processing
    throws, [_meta.billing] is [{ error: 'Billing processing failed',
    charged: false }]. *)
Theorem afterToolCall_frame `{Backend} (this : StripeMonetizationPlugin)
    (tUsage : Z) (tMeta : string) (context : ToolCallContext)
    (res : ToolCallResult) (log : list call) :
  ∃ r log',
    afterToolCall this tUsage tMeta context res log = (Returned r, log')
    ∧ (∀ k, k ≠ "_meta" → result r !! k = result res !! k)
    ∧ (∀ k, k ≠ "billing" →
            spread (get "_meta" (result r)) !! k
            = spread (get "_meta" (result res)) !! k)
    ∧ (initialized this = false → r = res ∧ log' = log)
    ∧ (∀ e, initialized this = true →
            truthy (opt_get (metadata context) "billing") = true →
            Scenario.recording_throws tUsage context res e →
            opt_get (get "_meta" (result r)) "billing" = billingFailure
            ∧ opt_get billingFailure "error" = VStr "Billing processing failed"
            ∧ opt_get billingFailure "charged" = VBool false).
Proof.
  destruct (afterToolCall_returns this tUsage tMeta context res log)
    as (r & suffix & Hrun & Hshape).
  exists r, (log ++ suffix)%list. split; [done |].
  split; [| split; [| split]].
  - intros k Hk. destruct Hshape as [-> | [b ->]]; [done |].
    by apply set_meta_frame.
  - intros k Hk. destruct Hshape as [-> | [b ->]]; [done |].
    by apply set_meta_others.
  - intros Hinit. revert Hrun. hook. rewrite Hinit; simpl.
    intros [= <- Hlog]. split; [done |]. by rewrite <- Hlog.
  - intros e Hinit Hdata Hthrow.
    split; [| split; apply billingFailure_fields].
    revert Hrun. hook. rewrite Hinit, Hdata; simpl.
    destruct Hthrow as [Hu | u Hu Herr Hp].
    + rewrite Hu. intros [= <- _]. apply set_meta_billing.
    + rewrite Hu, Herr; simpl. rewrite Hp. intros [= <- _].
      apply set_meta_billing.
Qed.

(** Witness for C4: the call billed before it ran comes back failed. *)
Lemma afterToolCall_failed_call_witness :
  ∃ r suffix,
    afterToolCall (H := mock "k3x9q0zt1") (Scenario.running Scenario.basic)
                  1700000000500 "2023-11-14T22:13:20.501Z" Run.billed Run.failed []
    = (Returned r, ([] ++ suffix)%list)
    ∧ (truthy (get "isError" (result Run.failed)) = true →
         suffix = [RecordUsage (usageOf (opt_get (metadata Run.billed) "billing")
                                        Run.billed 1700000000500 Run.failed)]
         ∧ opt_get (usageOf (opt_get (metadata Run.billed) "billing")
                            Run.billed 1700000000500 Run.failed) "success"
           = VBool false
         ∧ opt_get (usageOf (opt_get (metadata Run.billed) "billing")
                            Run.billed 1700000000500 Run.failed) "amount"
           = opt_get (opt_get (metadata Run.billed) "billing") "amount"
         ∧ opt_get (opt_get (get "_meta" (result r)) "billing") "charged"
           = VBool false)
    ∧ (∀ p, ProcessPayment p ∈ suffix →
            truthy (get "isError" (result Run.failed)) = false).
Proof.
  apply (afterToolCall_failed_call (H := mock "k3x9q0zt1")
           (Scenario.running Scenario.basic) 1700000000500 "2023-11-14T22:13:20.501Z"
           Run.billed Run.failed []);
    reflexivity.
Defined.

(** C4 as stated fails.  The billing gate attaches the amount 100 to a per-call
    invocation; when the tool then fails, the one outgoing call is
    [recordUsage] with [success = false] and that amount, not 0. *)
Lemma failed_call_is_recorded_with_amount :
  (afterToolCall (H := mock "k3x9q0zt1") (Scenario.running Scenario.basic)
                 1700000000500 "2023-11-14T22:13:20.501Z" Run.billed Run.failed []).2
  = [RecordUsage (usageOf (opt_get (metadata Run.billed) "billing")
                          Run.billed 1700000000500 Run.failed)]
  ∧ opt_get (usageOf (opt_get (metadata Run.billed) "billing")
                     Run.billed 1700000000500 Run.failed) "success"
    = VBool false
  ∧ opt_get (usageOf (opt_get (metadata Run.billed) "billing")
                     Run.billed 1700000000500 Run.failed) "amount"
    = VNum 100
  ∧ Spec.failed_usage_record
      (usageOf (opt_get (metadata Run.billed) "billing")
               Run.billed 1700000000500 Run.failed)
    = false.
Proof. repeat split; reflexivity. Qed.

(** An uninitialized plugin, and a usage store that is down. *)
Example afterToolCall_uninitialized :
  afterToolCall (H := mock "k3x9q0zt1") (constructor Scenario.basic)
                1700000000500 "2023-11-14T22:13:20.501Z" Run.billed Run.failed []
  = (Returned Run.failed, []).
Proof. reflexivity. Qed.

Example afterToolCall_store_down :
  afterToolCall (H := Scenario.usage_store_fails "k3x9q0zt1"
                        (DatabaseError "Failed to create usage record: SQLITE_BUSY"
                                       "createUsageRecord" None))
                (Scenario.running Scenario.basic)
                1700000000500 "2023-11-14T22:13:20.501Z" Run.billed Run.failed []
  = (Returned (set_meta Run.failed (with_billing Run.failed billingFailure)),
     [RecordUsage (usageOf (opt_get (metadata Run.billed) "billing")
                           Run.billed 1700000000500 Run.failed)]).
Proof. reflexivity. Qed.

End RecorderProps.

(** ** The credit balance *)

Module LedgerProps.
Import Sqlite.

Lemma balance_add_credits env customerId creditChange this r :
  customers this !! customerId = Some r →
  balance customerId (updateCustomerCredits env customerId creditChange this).2
  = Some (Row.credits r + creditChange).
Proof.
  intros Hr. unfold balance, updateCustomerCredits; simpl.
  by rewrite lookup_alter_eq, Hr.
Qed.

(** What the manager's [updateCustomerCredits] does to an existing
    customer: it returns, and the balance is the old one plus the change,
    whatever its sign. *)
Lemma updateCustomerCredits_balance env customerId creditChange this r :
  customerId ≠ "" →
  customers this !! customerId = Some r →
  ∃ this',
    Manager.updateCustomerCredits env customerId creditChange this
    = (Returned tt, this')
    ∧ balance customerId this' = Some (Row.credits r + creditChange)
    ∧ ∃ r', customers this' !! customerId = Some r'
            ∧ Row.credits r' = Row.credits r + creditChange.
Proof.
  intros Hid Hr. apply String.eqb_neq in Hid.
  unfold Manager.updateCustomerCredits. rewrite Hid. simpl.
  eexists. split; [reflexivity |]. split.
  - by apply (balance_add_credits env customerId creditChange this r).
  - simpl. rewrite lookup_alter_eq, Hr. simpl. by eexists.
Qed.

(** Credits that only ever go up keep a non-negative balance. *)
Lemma updateCustomerCredits_top_up env customerId creditChange this b :
  customerId ≠ "" →
  balance customerId this = Some b → 0 ≤ b → 0 ≤ creditChange →
  ∃ b', balance customerId
          (Manager.updateCustomerCredits env customerId creditChange this).2
        = Some b' ∧ 0 ≤ b'.
Proof.
  intros Hid Hb Hpos Hchange. unfold balance in Hb.
  destruct (customers this !! customerId) as [r |] eqn:Hr; [| done].
  injection Hb as <-.
  destruct (updateCustomerCredits_balance env customerId creditChange this r Hid Hr)
    as (this' & -> & Hb' & _).
  exists (Row.credits r + creditChange). split; [done | lia].
Qed.

(** C1 (defect).  A customer created with 20 credits is debited 25 by
    [DatabaseManager.updateCustomerCredits]: the call returns and leaves a
    balance of -5. *)
Theorem updateCustomerCredits_overdraws :
  balance Run.ada_id Run.store_with_ada = Some 20
  ∧ (Manager.updateCustomerCredits Run.later_call Run.ada_id (-25)
       Run.store_with_ada).1
    = Returned tt
  ∧ balance Run.ada_id
      (Manager.updateCustomerCredits Run.later_call Run.ada_id (-25)
         Run.store_with_ada).2
    = Some (-5).
Proof. repeat split; vm_compute; reflexivity. Qed.

(** Any number of reservations against one customer, in any order and
    with any clock readings: every one of them returns, and the balance
    ends at the old balance minus the price times their number. *)
Lemma serve_reservations (requests : list Run.request) customerId price this r :
  customerId ≠ "" →
  customers this !! customerId = Some r →
  Forall (λ q, ∃ env, q = Run.reservation env customerId price) requests →
  (Run.serve requests this).1 = replicate (length requests) (Returned tt)
  ∧ balance customerId (Run.serve requests this).2
    = Some (Row.credits r - Z.of_nat (length requests) * price).
Proof.
  intros Hid. revert this r.
  induction requests as [| q rest IH]; intros this r Hr Hall.
  - simpl. unfold balance. rewrite Hr. simpl. split; [done | f_equal; lia].
  - apply Forall_cons in Hall as [[env ->] Hrest].
    destruct (updateCustomerCredits_balance env customerId (- price) this r Hid Hr)
      as (this' & Hrun & _ & r' & Hr' & Hcredits).
    cbn [Run.serve Run.reservation]. rewrite Hrun.
    destruct (IH this' r' Hr' Hrest) as [Hanswers Hbalance].
    destruct (Run.serve rest this') as [answers this''].
    simpl in *. rewrite Hanswers. split; [done |].
    rewrite Hbalance, Hcredits. f_equal. lia.
Qed.

Lemma successes_all_returned n :
  Run.successes (replicate n (Returned tt)) = n
  ∧ Run.refusals (replicate n (Returned tt)) = 0%nat.
Proof.
  unfold Run.successes, Run.refusals. induction n as [| n [IH1 IH2]]; [done |].
  cbn [replicate].
  rewrite (filter_cons_True (λ a : outcome (), is_returned a = true))
    by reflexivity.
  rewrite (filter_cons_False (λ a : outcome (), is_returned a = false))
    by (simpl; discriminate).
  cbn [length]. by rewrite IH1, IH2.
Qed.

(** A balance that pays for exactly [n] calls, and [n + 5] reservations:
    all [n + 5] succeed and the balance ends five prices below zero. *)
Lemma serve_oversubscribed (requests : list Run.request) customerId price n this r :
  customerId ≠ "" →
  customers this !! customerId = Some r →
  Row.credits r = Z.of_nat n * price →
  length requests = (n + 5)%nat →
  Forall (λ q, ∃ env, q = Run.reservation env customerId price) requests →
  Run.successes (Run.serve requests this).1 = (n + 5)%nat
  ∧ Run.refusals (Run.serve requests this).1 = 0%nat
  ∧ balance customerId (Run.serve requests this).2 = Some (- 5 * price).
Proof.
  intros Hid Hr Hcredits Hlen Hall.
  destruct (serve_reservations requests customerId price this r Hid Hr Hall)
    as [-> ->].
  rewrite Hlen. split; [apply successes_all_returned |].
  split; [apply successes_all_returned |]. f_equal. lia.
Qed.

(** C7 (defect).  A customer holds 20 credits, the price of two calls at
    10; seven reservations arrive: all seven return, none is refused, and
    the balance ends at -50. *)
Theorem seven_reservations_all_succeed :
  balance Run.ada_id Run.store_with_ada = Some 20
  ∧ Run.successes
      (Run.serve (replicate 7 (Run.reservation Run.later_call Run.ada_id 10))
                 Run.store_with_ada).1
    = 7%nat
  ∧ Run.refusals
      (Run.serve (replicate 7 (Run.reservation Run.later_call Run.ada_id 10))
                 Run.store_with_ada).1
    = 0%nat
  ∧ balance Run.ada_id
      (Run.serve (replicate 7 (Run.reservation Run.later_call Run.ada_id 10))
                 Run.store_with_ada).2
    = Some (-50).
Proof. repeat split; vm_compute; reflexivity. Qed.

End LedgerProps.

(** ** Validation of credit transactions *)

Module ValidationProps.
Import Js.

Lemma push_if_nil cond field message :
  Manager.push_if cond field message = [] ↔ cond = false.
Proof. by destruct cond. Qed.

Lemma transaction_type_ok v :
  truthy v = true ∧ includes Manager.transactionTypes v = true
  ↔ ∃ ty, v = VStr ty ∧ ty ∈ Manager.transactionTypes.
Proof.
  rewrite JsFacts.includes_true. split; [by intros [_ ?] |].
  intros (ty & -> & Hty). split; [| by exists ty].
  unfold Manager.transactionTypes in Hty.
  rewrite !elem_of_cons, elem_of_nil in Hty.
  by destruct Hty as [-> | [-> | [-> | [-> | [-> | []]]]]].
Qed.

Lemma number_ok v : is_number v = true ↔ ∃ n, v = VNum n.
Proof.
  destruct v; simpl; split; try discriminate; try (intros [? ?]; discriminate).
  - by eexists.
  - done.
Qed.

Lemma balance_ok v :
  is_number v = true ∧ Manager.negative v = false ↔ ∃ n, v = VNum n ∧ 0 ≤ n.
Proof.
  destruct v; simpl; split;
    try (intros [? _]; discriminate); try (intros (? & ? & _); discriminate).
  - intros [_ Hn]. eexists. split; [done |]. by apply Z.ltb_ge.
  - intros (m & [= <-] & Hm). split; [done |]. by apply Z.ltb_ge.
Qed.

Lemma timestamp_ok v :
  truthy v = true ∧ is_date v = true ↔ ∃ t, v = VDate t.
Proof.
  destruct v; simpl; split;
    try (intros [_ ?]; discriminate); try (intros [? ?]; discriminate).
  - by eexists.
  - done.
Qed.

(** The validator collects no error exactly on the transactions that are
    valid for the types it lists. *)
Lemma creditTransactionErrors_nil transaction :
  Manager.creditTransactionErrors transaction = []
  ↔ Spec.validCreditTransaction Manager.transactionTypes transaction.
Proof.
  unfold Manager.creditTransactionErrors, Spec.validCreditTransaction.
  rewrite !app_nil, !push_if_nil, !orb_false_iff, !negb_false_iff.
  rewrite <- transaction_type_ok, <- balance_ok, <- timestamp_ok, number_ok.
  tauto.
Qed.

(** C8 (as amended).  [createCreditTransaction] hands a transaction to
    the storage adapter exactly when its type is one of purchase,
    consumption, refund, bonus, expiry and its other required fields are
    valid; for every other input it throws a ValidationError with a
    non-empty list of field errors, whatever the adapter, and leaves the
    adapter's state as it was. *)
Theorem createCreditTransaction_validation {S : Type}
    `{Manager.DatabaseAdapter S} (env : Sqlite.Env)
    (transaction : gmap string value) (s : S) :
  (Spec.validCreditTransaction Manager.transactionTypes transaction →
     Manager.validateCreditTransaction transaction = Returned tt
     ∧ Manager.createCreditTransaction env transaction s
       = Manager.adapter_createCreditTransaction env transaction s)
  ∧ (¬ Spec.validCreditTransaction Manager.transactionTypes transaction →
     ∃ errors,
       errors ≠ []
       ∧ Manager.validateCreditTransaction transaction
         = Thrown (ValidationError "Credit transaction validation failed" errors)
       ∧ Manager.createCreditTransaction env transaction s
         = (Thrown (ValidationError "Credit transaction validation failed" errors),
            s)).
Proof.
  unfold Manager.createCreditTransaction, Manager.validateCreditTransaction.
  rewrite <- creditTransactionErrors_nil.
  destruct (Manager.creditTransactionErrors transaction) as [| err errs].
  - split; [done |]. by intros [].
  - split; [done |]. intros _. by exists (err :: errs).
Qed.

(** C8 as stated fails.  A transaction of type 'adjustment', valid in
    every field, is rejected with a ValidationError on [type] before the
    adapter is reached; one of type 'bonus', which the document does not
    list, passes validation. *)
Lemma adjustment_is_rejected :
  Spec.validCreditTransaction Spec.transactionTypes
    (Run.transaction_of "adjustment")
  ∧ Manager.createCreditTransaction Run.later_call
      (Run.transaction_of "adjustment") Run.store_with_ada
    = (Thrown (ValidationError "Credit transaction validation failed"
                 [("type", "Valid transaction type is required")]),
       Run.store_with_ada)
  ∧ Manager.validateCreditTransaction (Run.transaction_of "bonus") = Returned tt
  ∧ "bonus" ∉ Spec.transactionTypes.
Proof.
  split; [| split; [reflexivity | split; [reflexivity |]]].
  - unfold Spec.validCreditTransaction.
    split; [exists "adjustment"; split; [reflexivity |] |].
    + unfold Spec.transactionTypes. rewrite !elem_of_cons. auto 10.
    + repeat split; try (eexists; reflexivity).
      exists 25. split; [reflexivity | lia].
  - unfold Spec.transactionTypes.
    rewrite !not_elem_of_cons. repeat split; try discriminate.
    apply not_elem_of_nil.
Qed.

(** The PostgreSQL adapter is never reached by an invalid transaction
    either. *)
Example postgres_never_reached :
  Manager.createCreditTransaction (H := Manager.postgres) Run.later_call
    (Run.transaction_of "adjustment") tt
  = (Thrown (ValidationError "Credit transaction validation failed"
               [("type", "Valid transaction type is required")]),
     tt).
Proof. reflexivity. Qed.

(** A transaction the validator accepts reaches the SQLite adapter, whose
    method is the placeholder. *)
Example bonus_reaches_adapter :
  Manager.createCreditTransaction Run.later_call
    (Run.transaction_of "bonus") Run.store_with_ada
  = (Thrown (Error "Method not implemented"), Run.store_with_ada).
Proof. reflexivity. Qed.

End ValidationProps.

(** ** Creating and reading a customer *)

Module CustomerProps.
Import Sqlite.

Lemma num_or_zero_idem o : num_or_zero (Some (num_or_zero o)) = num_or_zero o.
Proof.
  destruct o as [n |]; simpl; [| done].
  destruct (Z.eqb n 0) eqn:Hn; simpl; [done |]. by rewrite Hn.
Qed.

Lemma str_or_null_Some o s : str_or_null o = Some s ↔ o = Some s ∧ s ≠ "".
Proof.
  destruct o as [s' |]; simpl; [| by split; [| intros []]].
  destruct (String.eqb s' "") eqn:Hs.
  - apply String.eqb_eq in Hs as ->. split; [done |]. by intros [[= <-] ?].
  - apply String.eqb_neq in Hs. split.
    + by intros [= <-].
    + by intros [[= <-] _].
Qed.

Lemma str_or_null_id o : o ≠ Some "" → str_or_null o = o.
Proof.
  destruct o as [s |]; simpl; [| done].
  destruct (String.eqb s "") eqn:Hs; [| done].
  apply String.eqb_eq in Hs as ->. done.
Qed.

Lemma num_or_null_id o : o ≠ Some 0 → num_or_null o = o.
Proof.
  destruct o as [n |]; simpl; [| done].
  destruct (Z.eqb n 0) eqn:Hn; [| done].
  apply Z.eqb_eq in Hn as ->. done.
Qed.

Lemma num_or_zero_id n : num_or_zero (Some n) = n.
Proof. simpl. destruct (Z.eqb n 0) eqn:Hn; [| done]. by apply Z.eqb_eq in Hn. Qed.

#[local] Arguments num_or_zero : simpl never.
#[local] Arguments num_or_null : simpl never.

(** Reading back the row an INSERT was given. *)
Lemma mapRowToCustomer_rowOf customerId now d :
  mapRowToCustomer (rowOf customerId now d)
  = {| customerId := customerId; createdAt := now; updatedAt := now;
       fields := Run.stored d |}.
Proof.
  unfold mapRowToCustomer, rowOf, Run.stored; simpl.
  rewrite !num_or_zero_idem. do 2 f_equal.
  destruct (paymentMethod d) as [pm |]; simpl; [| done].
  destruct (String.eqb (type pm) "") eqn:Hty; simpl; [done |].
  by rewrite Hty.
Qed.

Lemma stored_kept_as_is d : Run.kept_as_is d → Run.stored d = d.
Proof.
  intros (Hstripe & Hname & Hsub & Hplan & [c Hc] & [u Hu] & Hpm).
  destruct d as [stripe em nm md sub plan cr us pm st]; simpl in *; subst.
  unfold Run.stored; simpl.
  rewrite !str_or_null_id, !num_or_zero_id by done.
  destruct u as [tc cpc lca ts]; simpl.
  f_equal. destruct pm as [[ty l4 br em' ey] |]; [| done].
  destruct (Hpm _ eq_refl) as (Hty & Hl4 & Hbr & Hem & Hey); simpl in *.
  apply String.eqb_neq in Hty. rewrite Hty.
  by rewrite !str_or_null_id, !num_or_null_id by done.
Qed.

Lemma check_insert_ok r (tbl : gmap string Row.t) :
  tbl !! Row.customer_id r = None →
  (∀ id r', tbl !! id = Some r' → Row.email r' ≠ Row.email r) →
  (∀ id r', tbl !! id = Some r' → is_Some (Row.stripe_customer_id r) →
            Row.stripe_customer_id r' ≠ Row.stripe_customer_id r) →
  check_insert r tbl = None.
Proof.
  intros Hfresh Hemail Hstripe. unfold check_insert.
  rewrite bool_decide_eq_false_2 by (rewrite Hfresh; by intros [? ?]).
  rewrite bool_decide_eq_false_2.
  2: { intros (id & r' & Hr' & Heq). by eapply Hemail. }
  rewrite bool_decide_eq_false_2; [done |].
  intros (id & r' & Hr' & Hsome & Heq). by eapply Hstripe.
Qed.

(** C9 (as amended).  When the INSERT meets no constraint (the id is
    fresh, no other customer has the e-mail address or the Stripe
    customer id), [createCustomer] returns a customer under the fresh id,
    [getCustomer] with that id returns the same record, and its business
    fields are the supplied ones as the adapter stores them: e-mail
    address, status and metadata as given, an empty optional string or a
    zero expiry as null, absent credits and counters as 0, a payment
    method only under a non-empty type.  They equal the supplied fields
    whenever those are already of that form. *)
Theorem createCustomer_getCustomer (env : Env) (d : CustomerData)
    (this : SqliteAdapter) :
  customers this !! uuidv4 env = None →
  (∀ id r, customers this !! id = Some r → Row.email r ≠ email d) →
  (∀ id r, customers this !! id = Some r →
           is_Some (str_or_null (stripeCustomerId d)) →
           Row.stripe_customer_id r ≠ str_or_null (stripeCustomerId d)) →
  ∃ c this',
    createCustomer env d this = (Returned c, this')
    ∧ customerId c = uuidv4 env
    ∧ getCustomer (customerId c) this' = (Returned (Some c), this')
    ∧ fields c = Run.stored d
    ∧ email (fields c) = email d
    ∧ status (fields c) = status d
    ∧ (Run.kept_as_is d → fields c = d).
Proof.
  intros Hfresh Hemail Hstripe. unfold createCustomer.
  rewrite check_insert_ok by done.
  unfold getCustomer; simpl. rewrite lookup_insert_eq; simpl.
  eexists _, _. split; [reflexivity |].
  rewrite mapRowToCustomer_rowOf; simpl.
  rewrite lookup_insert_eq; simpl. rewrite mapRowToCustomer_rowOf.
  repeat split; try done. apply stored_kept_as_is.
Qed.

(** The guard of the statement is needed: a second customer under an
    e-mail address already in the table is refused with a DatabaseError
    and the table stays as it was. *)
Lemma createCustomer_duplicate_email (env : Env) (d : CustomerData)
    (this : SqliteAdapter) id r :
  customers this !! uuidv4 env = None →
  customers this !! id = Some r →
  Row.email r = email d →
  ∃ message,
    createCustomer env d this
    = (Thrown (DatabaseError message "createCustomer"
                             (Some (getTableName this "customers"))),
       this).
Proof.
  intros Hfresh Hr Hemail. unfold createCustomer, check_insert.
  rewrite bool_decide_eq_false_2 by (simpl; rewrite Hfresh; by intros [? ?]).
  rewrite bool_decide_eq_true_2 by (by exists id, r).
  by eexists.
Qed.

(** Through the manager, reading by a non-empty id is the adapter's
    [getCustomer]. *)
Lemma manager_getCustomer customerId (this : SqliteAdapter) :
  customerId ≠ "" →
  Manager.getCustomer customerId this = getCustomer customerId this.
Proof.
  intros Hid. apply String.eqb_neq in Hid.
  unfold Manager.getCustomer. by rewrite Hid.
Qed.

(** Witness for C9: the first customer of an empty store. *)
Lemma createCustomer_getCustomer_witness :
  ∃ c this',
    createCustomer Run.first_call Run.ada Run.empty_store = (Returned c, this')
    ∧ customerId c = uuidv4 Run.first_call
    ∧ getCustomer (customerId c) this' = (Returned (Some c), this')
    ∧ fields c = Run.stored Run.ada
    ∧ email (fields c) = email Run.ada
    ∧ status (fields c) = status Run.ada
    ∧ (Run.kept_as_is Run.ada → fields c = Run.ada).
Proof.
  apply (createCustomer_getCustomer Run.first_call Run.ada Run.empty_store).
  - reflexivity.
  - intros id r Hr. simpl in Hr. by rewrite lookup_empty in Hr.
  - intros id r Hr. simpl in Hr. by rewrite lookup_empty in Hr.
Defined.

(** C9 as stated fails.  A customer supplied with a valid e-mail address,
    status 'active' and the empty string as name is created and read back
    with [name] null. *)
Lemma empty_name_comes_back_null :
  (fields <$> match (createCustomer Run.first_call Run.unnamed Run.empty_store).1
              with Returned c => Some c | Thrown _ => None end)
  = Some (Run.stored Run.unnamed)
  ∧ name Run.unnamed = Some ""
  ∧ name (Run.stored Run.unnamed) = None
  ∧ (getCustomer (uuidv4 Run.first_call)
       (createCustomer Run.first_call Run.unnamed Run.empty_store).2).1
    = Returned (Some {| customerId := uuidv4 Run.first_call;
                        createdAt := now Run.first_call;
                        updatedAt := now Run.first_call;
                        fields := Run.stored Run.unnamed |}).
Proof. repeat split; vm_compute; reflexivity. Qed.

End CustomerProps.

(** ** Webhook deliveries *)

Module WebhookProps.
Import Endpoints.


(** The method itself: it returns the same acknowledgement for every
    payload and signature and leaves [this] as it is. *)
Lemma handleWebhook_constant payload signature this :
  handleWebhook payload signature this
  = (Returned {| received := true;
                 eventType := Some "payment_intent.succeeded";
                 customerId := Some "cus_example123";
                 processed := Some true |},
     this).
Proof. reflexivity. Qed.

End WebhookProps.

(** ** Regular expressions *)

Module RegexFacts.
Import Regex.

Lemma Lang_Empty s : Lang Empty s ↔ False.
Proof. split; [inversion 1 | done]. Qed.

Lemma Lang_Eps s : Lang Eps s ↔ s = [].
Proof. split; [by inversion 1 | intros ->; constructor]. Qed.

Lemma Lang_Cls p s : Lang (Cls p) s ↔ ∃ c, s = [c] ∧ p c = true.
Proof.
  split.
  - inversion 1; subst. eauto.
  - intros (c & -> & Hc). by constructor.
Qed.

Lemma Lang_Seq r1 r2 s :
  Lang (Seq r1 r2) s ↔ ∃ s1 s2, s = (s1 ++ s2)%list ∧ Lang r1 s1 ∧ Lang r2 s2.
Proof.
  split.
  - inversion 1; subst. eauto.
  - intros (s1 & s2 & -> & H1 & H2). by constructor.
Qed.

Lemma Lang_Alt r1 r2 s : Lang (Alt r1 r2) s ↔ Lang r1 s ∨ Lang r2 s.
Proof.
  split.
  - inversion 1; subst; auto.
  - intros [H | H]; [by apply LAltL | by apply LAltR].
Qed.

Lemma nullable_spec r : nullable r = true ↔ Lang r [].
Proof.
  induction r as [| | p | r1 IH1 r2 IH2 | r1 IH1 r2 IH2 | r IH]; simpl.
  - rewrite Lang_Empty. split; [discriminate | done].
  - rewrite Lang_Eps. done.
  - rewrite Lang_Cls. split; [discriminate | by intros (c & ? & _)].
  - rewrite andb_true_iff, IH1, IH2, Lang_Seq. split.
    + intros [H1 H2]. by exists [], [].
    + intros (s1 & s2 & Heq & H1 & H2). symmetry in Heq.
      apply app_eq_nil in Heq as [-> ->]. done.
  - by rewrite orb_true_iff, IH1, IH2, Lang_Alt.
  - split; [constructor | done].
Qed.

Lemma star_cons r c s :
  Lang (Star r) (c :: s) →
  ∃ s1 s2, s = (s1 ++ s2)%list ∧ Lang r (c :: s1) ∧ Lang (Star r) s2.
Proof.
  intros H. remember (Star r) as r' eqn:Hr. remember (c :: s) as s' eqn:Hs.
  revert s Hs.
  induction H as [| | | | | | r0 s1 s2 H1 _ H2 IH2]; try discriminate.
  injection Hr as ->. intros s Hs.
  destruct s1 as [| c1 s1]; simpl in Hs.
  - by apply IH2.
  - injection Hs as -> <-. by exists s1, s2.
Qed.

Lemma deriv_spec c r s : Lang (deriv c r) s ↔ Lang r (c :: s).
Proof.
  revert s. induction r as [| | p | r1 IH1 r2 IH2 | r1 IH1 r2 IH2 | r IH];
    intros s; simpl.
  - by rewrite !Lang_Empty.
  - rewrite Lang_Empty, Lang_Eps. done.
  - rewrite Lang_Cls. destruct (p c) eqn:Hp.
    + rewrite Lang_Eps. split.
      * intros ->. by exists c.
      * by intros (c' & [= <- ->] & _).
    + rewrite Lang_Empty. split; [done |].
      intros (c' & [= <- ->] & Hc). congruence.
  - assert (Lang (Seq r1 r2) (c :: s)
            ↔ Lang (Seq (deriv c r1) r2) s ∨ (Lang r1 [] ∧ Lang r2 (c :: s)))
      as Hsplit.
    { rewrite !Lang_Seq. split.
      - intros (s1 & s2 & Heq & H1 & H2).
        destruct s1 as [| c1 s1]; simpl in Heq.
        + right. by subst.
        + injection Heq as <- ->. left. exists s1, s2.
          split; [done |]. split; [by apply IH1 | done].
      - intros [(s1 & s2 & -> & H1 & H2) | [H1 H2]].
        + exists (c :: s1), s2. split; [done |]. split; [by apply IH1 | done].
        + by exists [], (c :: s). }
    rewrite Hsplit, <- nullable_spec, <- IH2.
    destruct (nullable r1); [rewrite Lang_Alt |]; intuition congruence.
  - by rewrite !Lang_Alt, IH1, IH2.
  - rewrite Lang_Seq. split.
    + intros (s1 & s2 & -> & H1 & H2). apply IH in H1.
      by apply (LStarS r (c :: s1) s2).
    + intros H. apply star_cons in H as (s1 & s2 & -> & H1 & H2).
      exists s1, s2. split; [done |]. split; [by apply IH | done].
Qed.

Lemma matches_spec r s : matches r s = true ↔ Lang r s.
Proof.
  revert r. induction s as [| c s IH]; intros r; simpl.
  - apply nullable_spec.
  - rewrite IH. apply deriv_spec.
Qed.

(** Zero or more, and one or more, characters of a class. *)
Lemma Lang_Star_Cls p s : Lang (Star (Cls p)) s ↔ Forall (λ c, p c = true) s.
Proof.
  split.
  - intros H. remember (Star (Cls p)) as r eqn:Hr.
    induction H as [| | | | | | r0 s1 s2 H1 _ H2 IH2]; try discriminate.
    + constructor.
    + injection Hr as ->. apply Lang_Cls in H1 as (c & -> & Hc).
      constructor; [done | by apply IH2].
  - induction 1 as [| c s Hc _ IH]; [constructor |].
    apply (LStarS (Cls p) [c] s); [by constructor | done].
Qed.

Lemma Lang_Plus_Cls p s :
  Lang (Plus (Cls p)) s ↔ s ≠ [] ∧ Forall (λ c, p c = true) s.
Proof.
  unfold Plus. rewrite Lang_Seq. split.
  - intros (s1 & s2 & -> & H1 & H2). apply Lang_Cls in H1 as (c & -> & Hc).
    apply Lang_Star_Cls in H2. split; [done | by constructor].
  - intros [Hne Hall]. destruct s as [| c s]; [done |].
    apply Forall_cons in Hall as [Hc Hall].
    exists [c], s. split; [done |].
    split; [by apply Lang_Cls; exists c | by apply Lang_Star_Cls].
Qed.

Lemma Lang_Chr c s : Lang (Chr c) s ↔ s = [c].
Proof.
  unfold Chr. rewrite Lang_Cls. split.
  - intros (c' & -> & Hc). by apply Ascii.eqb_eq in Hc as ->.
  - intros ->. exists c. split; [done | apply Ascii.eqb_refl].
Qed.


(** The e-mail pattern accepts exactly the strings of the form
    local@domain.tail in which the three parts are non-empty and contain
    neither whitespace nor '@' (the domain and the tail may contain
    further dots). *)
Lemma email_pattern (s : string) :
  test email s = true
  ↔ ∃ a b c,
      String.list_ascii_of_string s
      = (a ++ "@"%char :: b ++ "."%char :: c)%list
      ∧ a ≠ [] ∧ b ≠ [] ∧ c ≠ []
      ∧ Forall (λ x, plain x = true) a
      ∧ Forall (λ x, plain x = true) b
      ∧ Forall (λ x, plain x = true) c.
Proof.
  unfold test, email. rewrite matches_spec. split.
  - intros H.
    apply Lang_Seq in H as (a & r1 & -> & Ha & H).
    apply Lang_Seq in H as (at' & r2 & -> & Hat & H).
    apply Lang_Seq in H as (b & r3 & -> & Hb & H).
    apply Lang_Seq in H as (dot & c & -> & Hdot & Hc).
    apply Lang_Chr in Hat as ->. apply Lang_Chr in Hdot as ->.
    apply Lang_Plus_Cls in Ha as [? ?]. apply Lang_Plus_Cls in Hb as [? ?].
    apply Lang_Plus_Cls in Hc as [? ?].
    by exists a, b, c.
  - intros (a & b & c & -> & Ha & Hb & Hc & Pa & Pb & Pc).
    apply LSeq; [by apply Lang_Plus_Cls |].
    apply (LSeq _ _ ["@"%char]); [by apply Lang_Chr |].
    apply LSeq; [by apply Lang_Plus_Cls |].
    apply (LSeq _ _ ["."%char]); [by apply Lang_Chr |].
    by apply Lang_Plus_Cls.
Qed.

(** What an accepted address never contains. *)
Lemma email_pattern_sound (s : string) :
  test email s = true →
  Forall (λ x, whitespace x = false) (String.list_ascii_of_string s)
  ∧ length (filter (λ x, x = "@"%char) (String.list_ascii_of_string s)) = 1%nat.
Proof.
  intros H. apply email_pattern in H
    as (a & b & c & -> & _ & _ & _ & Pa & Pb & Pc).
  assert (∀ l, Forall (λ x, plain x = true) l →
               Forall (λ x, whitespace x = false) l
               ∧ filter (λ x, x = "@"%char) l = []) as Hplain.
  { induction 1 as [| x l Hx _ [IH1 IH2]]; [done |].
    unfold plain in Hx. apply negb_true_iff, orb_false_iff in Hx as [Hw Hat].
    split; [by constructor |].
    rewrite filter_cons_False; [done |].
    intros ->. by rewrite Ascii.eqb_refl in Hat. }
  destruct (Hplain a Pa) as [Wa Fa], (Hplain b Pb) as [Wb Fb],
    (Hplain c Pc) as [Wc Fc].
  split.
  - apply Forall_app. split; [done |]. constructor; [done |].
    apply Forall_app. split; [done |]. by constructor.
  - rewrite filter_app, Fa, filter_cons, filter_app, Fb, filter_cons, Fc.
    rewrite decide_True by done. by rewrite decide_False by done.
Qed.

Example email_examples :
  test email "ada@example.com" = true
  ∧ test email "ada@example" = false
  ∧ test email "ada lovelace@example.com" = false
  ∧ test email "ada@@example.com" = false
  ∧ test email "@example.com" = false
  ∧ test email "ada@example.co.uk" = true.
Proof. repeat split; reflexivity. Qed.

(** The table-prefix pattern accepts exactly the strings that start with
    a letter or an underscore and go on with letters, digits and
    underscores. *)
Lemma identifier_pattern (s : string) :
  test identifier s = true
  ↔ ∃ c rest,
      String.list_ascii_of_string s = c :: rest
      ∧ (letter c || underscore c) = true
      ∧ Forall (λ x, (letter x || digit x || underscore x) = true) rest.
Proof.
  unfold test, identifier. rewrite matches_spec, Lang_Seq. split.
  - intros (s1 & rest & -> & H1 & H2).
    apply Lang_Cls in H1 as (c & -> & Hc). apply Lang_Star_Cls in H2.
    by exists c, rest.
  - intros (c & rest & -> & Hc & Hrest). exists [c], rest.
    split; [done |]. split; [by apply Lang_Cls; exists c |].
    by apply Lang_Star_Cls.
Qed.


End RegexFacts.

(** ** The hooks, further properties *)

Module HookProps.
Import Js Plugin.

Ltac hook := GateProps.hook.

Lemma billingEntry_fields this auth bill :
  opt_get (HookData.billingEntry this auth bill) "userId" = of_str (userId auth)
  ∧ opt_get (HookData.billingEntry this auth bill) "amount" = of_num (amount bill)
  ∧ opt_get (HookData.billingEntry this auth bill) "currency" = VStr "usd"
  ∧ opt_get (HookData.billingEntry this auth bill) "billingModel"
    = get "billingModel" (config this).
Proof. repeat split; reflexivity. Qed.

Lemma proceeding_fields this context auth bill :
  toolName (HookData.proceeding this context auth bill) = toolName context
  ∧ args (HookData.proceeding this context auth bill) = args context
  ∧ opt_get (metadata (HookData.proceeding this context auth bill)) "billing"
    = HookData.billingEntry this auth bill
  ∧ truthy (opt_get (metadata (HookData.proceeding this context auth bill))
                    "billing") = true
  ∧ ∀ k, k ≠ "billing" →
         spread (metadata (HookData.proceeding this context auth bill)) !! k
         = spread (metadata context) !! k.
Proof.
  split; [done |]. split; [done |].
  unfold HookData.proceeding, set_metadata; cbn [metadata opt_get spread].
  split; [unfold get; by rewrite lookup_insert_eq |].
  split; [unfold get; by rewrite lookup_insert_eq |].
  intros k Hk. by rewrite lookup_insert_ne.
Qed.

(** The run of the hook when the three checks pass. *)
Lemma beforeToolCall_passes {B : Backend} (this : StripeMonetizationPlugin)
    (context : ToolCallContext) (auth : AuthResult) (limit : RateLimitResult)
    (bill : BillingResult) (log : list call) :
  initialized this = true →
  authenticateUser context = Returned auth →
  authenticated auth = true →
  checkRateLimit context (userId auth) = Returned limit →
  exceeded limit = false →
  checkBilling this context (userId auth) = Returned bill →
  canProceed bill = true →
  beforeToolCall this context log
  = (Returned (None, HookData.proceeding this context auth bill), log).
Proof.
  intros Hinit Ha Hauth Hl Hex Hb Hcp.
  hook. rewrite Hinit. cbn [negb]. rewrite Ha, Hauth. cbn [negb].
  rewrite Hl, Hex, Hb, Hcp. cbn [negb]. reflexivity.
Qed.

(** The run of the hook when authentication refuses. *)
Lemma beforeToolCall_unauthenticated {B : Backend}
    (this : StripeMonetizationPlugin) (context : ToolCallContext)
    (auth : AuthResult) (log : list call) :
  initialized this = true →
  authenticateUser context = Returned auth →
  authenticated auth = false →
  beforeToolCall this context log
  = (Returned
       (Some (errorResult
          (VStr "Authentication required. Please provide valid credentials.")),
        context), log).
Proof.
  intros Hinit Ha Hauth. hook. rewrite Hinit. cbn [negb]. by rewrite Ha, Hauth.
Qed.

(** X1.  When the three checks pass, the hook returns [undefined] and
    leaves a context with the same tool name and arguments whose
    metadata keeps every entry it had and gains [billing]: the user id of
    the authentication, the amount of the billing check, the currency
    'usd' and the stored billing model. *)
Theorem beforeToolCall_proceed {B : Backend} (this : StripeMonetizationPlugin)
    (context : ToolCallContext) (auth : AuthResult) (limit : RateLimitResult)
    (bill : BillingResult) (log : list call) :
  initialized this = true →
  authenticateUser context = Returned auth →
  authenticated auth = true →
  checkRateLimit context (userId auth) = Returned limit →
  exceeded limit = false →
  checkBilling this context (userId auth) = Returned bill →
  canProceed bill = true →
  ∃ context',
    beforeToolCall this context log = (Returned (None, context'), log)
    ∧ toolName context' = toolName context
    ∧ args context' = args context
    ∧ opt_get (metadata context') "billing" = HookData.billingEntry this auth bill
    ∧ truthy (opt_get (metadata context') "billing") = true
    ∧ ∀ k, k ≠ "billing" →
           spread (metadata context') !! k = spread (metadata context) !! k.
Proof.
  intros Hinit Ha Hauth Hl Hex Hb Hcp.
  exists (HookData.proceeding this context auth bill). split.
  - by apply (beforeToolCall_passes this context auth limit bill log).
  - apply proceeding_fields.
Qed.

Lemma beforeToolCall_proceed_witness :
  ∃ context',
    beforeToolCall (H := mock "k3x9q0zt1") (Scenario.running Scenario.basic)
                   (Scenario.authorized "search") []
    = (Returned (None, context'), [])
    ∧ toolName context' = toolName (Scenario.authorized "search")
    ∧ args context' = args (Scenario.authorized "search")
    ∧ opt_get (metadata context') "billing"
      = HookData.billingEntry (Scenario.running Scenario.basic)
          {| authenticated := true; userId := Some "user_k3x9q0zt1" |}
          {| canProceed := true; amount := Some 100; message := None |}
    ∧ truthy (opt_get (metadata context') "billing") = true
    ∧ ∀ k, k ≠ "billing" →
           spread (metadata context') !! k
           = spread (metadata (Scenario.authorized "search")) !! k.
Proof.
  apply (beforeToolCall_proceed (B := mock "k3x9q0zt1")
           (Scenario.running Scenario.basic) (Scenario.authorized "search")
           {| authenticated := true; userId := Some "user_k3x9q0zt1" |}
           {| exceeded := false; retryAfter := None |}
           {| canProceed := true; amount := Some 100; message := None |} []);
    reflexivity.
Defined.

(** X2.  A refusal by authentication or by the rate limit comes back as
    an error result with the corresponding text, the context is left as
    it was and no later check decides anything: the answer is the same
    whatever the billing check would have done. *)
Theorem beforeToolCall_early_refusal {B : Backend}
    (this : StripeMonetizationPlugin) (context : ToolCallContext)
    (auth : AuthResult) (log : list call) :
  initialized this = true →
  authenticateUser context = Returned auth →
  (authenticated auth = false →
     beforeToolCall this context log
     = (Returned
          (Some (errorResult
             (VStr "Authentication required. Please provide valid credentials.")),
           context), log))
  ∧ (∀ limit,
       authenticated auth = true →
       checkRateLimit context (userId auth) = Returned limit →
       exceeded limit = true →
       beforeToolCall this context log
       = (Returned
            (Some (errorResult
               (VStr ("Rate limit exceeded. Try again in "
                      +:+ show_num (retryAfter limit) +:+ " seconds."))),
             context), log)).
Proof.
  intros Hinit Ha. split.
  - intros Hauth.
    by apply (beforeToolCall_unauthenticated this context auth log).
  - intros limit Hauth Hl Hex. hook. rewrite Hinit. cbn [negb].
    rewrite Ha, Hauth. cbn [negb]. by rewrite Hl, Hex.
Qed.

Lemma beforeToolCall_early_refusal_witness :
  (authenticated {| authenticated := false; userId := None |} = false →
     beforeToolCall (H := Scenario.store_down)
                    (Scenario.running Scenario.production)
                    (Scenario.anonymous "search") []
     = (Returned
          (Some (errorResult
             (VStr "Authentication required. Please provide valid credentials.")),
           Scenario.anonymous "search"), []))
  ∧ (∀ limit,
       authenticated {| authenticated := false; userId := None |} = true →
       checkRateLimit (Backend := Scenario.store_down)
                      (Scenario.anonymous "search")
                      (userId {| authenticated := false; userId := None |})
       = Returned limit →
       exceeded limit = true →
       beforeToolCall (H := Scenario.store_down)
                      (Scenario.running Scenario.production)
                      (Scenario.anonymous "search") []
       = (Returned
            (Some (errorResult
               (VStr ("Rate limit exceeded. Try again in "
                      +:+ show_num (retryAfter limit) +:+ " seconds."))),
             Scenario.anonymous "search"), [])).
Proof.
  apply (beforeToolCall_early_refusal (B := Scenario.store_down)
           (Scenario.running Scenario.production) (Scenario.anonymous "search")
           {| authenticated := false; userId := None |} []);
    reflexivity.
Defined.

(** X3.  With the helpers of the source an initialized plugin never
    throws and decides on the credentials alone: a call without a truthy
    [metadata.authorization] or [args.auth] is refused with the
    authentication text, every other call proceeds with a billing entry
    whose user id is 'user_' followed by the random text and whose amount
    is 0 under the subscription and freemium models and 100 otherwise;
    neither the environment nor the value of the credentials matters. *)
Theorem beforeToolCall_mock (rnd : string) (this : StripeMonetizationPlugin)
    (context : ToolCallContext) (log : list call) :
  initialized this = true →
  (truthy (or_else (opt_get (metadata context) "authorization")
                   (opt_get (args context) "auth")) = false →
     beforeToolCall (H := mock rnd) this context log
     = (Returned
          (Some (errorResult
             (VStr "Authentication required. Please provide valid credentials.")),
           context), log))
  ∧ (truthy (or_else (opt_get (metadata context) "authorization")
                     (opt_get (args context) "auth")) = true →
     ∃ context',
       beforeToolCall (H := mock rnd) this context log
       = (Returned (None, context'), log)
       ∧ opt_get (opt_get (metadata context') "billing") "userId"
         = VStr ("user_" +:+ rnd)
       ∧ opt_get (opt_get (metadata context') "billing") "amount"
         = VNum (if is_lit (get "billingModel" (config this)) "subscription"
                    || is_lit (get "billingModel" (config this)) "freemium"
                 then 0 else 100)
       ∧ ∀ k, k ≠ "billing" →
              spread (metadata context') !! k = spread (metadata context) !! k).
Proof.
  intros Hinit. split; intros Hcred.
  - assert (authenticateUser (Backend := mock rnd) context
            = Returned {| authenticated := false; userId := None |}) as Ha.
    { cbn [authenticateUser mock]. unfold Mock.authenticateUser.
      by rewrite Hcred. }
    by apply (beforeToolCall_unauthenticated (B := mock rnd) this context
                {| authenticated := false; userId := None |} log).
  - assert (authenticateUser (Backend := mock rnd) context
            = Returned {| authenticated := true;
                          userId := Some ("user_" +:+ rnd) |}) as Ha.
    { cbn [authenticateUser mock]. unfold Mock.authenticateUser.
      by rewrite Hcred. }
    destruct (GateProps.checkBilling_amount this context (Some ("user_" +:+ rnd)))
      as (bill & Hbill & Hcp & Hamount).
    pose proof (beforeToolCall_passes (B := mock rnd) this context
                  {| authenticated := true; userId := Some ("user_" +:+ rnd) |}
                  {| exceeded := false; retryAfter := None |} bill log
                  Hinit Ha eq_refl eq_refl eq_refl Hbill Hcp) as Hrun.
    destruct (proceeding_fields this context
                {| authenticated := true; userId := Some ("user_" +:+ rnd) |}
                bill) as (_ & _ & Hentry & _ & Hframe).
    eexists. split; [exact Hrun |]. rewrite Hentry.
    destruct (billingEntry_fields this
                {| authenticated := true; userId := Some ("user_" +:+ rnd) |}
                bill) as (-> & -> & _).
    split; [done |]. split; [| done].
    rewrite Hamount. by destruct (_ || _).
Qed.

Lemma beforeToolCall_mock_witness :
  (truthy (or_else (opt_get (metadata (Scenario.anonymous "search"))
                            "authorization")
                   (opt_get (args (Scenario.anonymous "search")) "auth"))
   = false →
     beforeToolCall (H := mock "k3x9q0zt1") (Scenario.running Scenario.basic)
                    (Scenario.anonymous "search") []
     = (Returned
          (Some (errorResult
             (VStr "Authentication required. Please provide valid credentials.")),
           Scenario.anonymous "search"), []))
  ∧ (truthy (or_else (opt_get (metadata (Scenario.anonymous "search"))
                              "authorization")
                     (opt_get (args (Scenario.anonymous "search")) "auth"))
     = true →
     ∃ context',
       beforeToolCall (H := mock "k3x9q0zt1") (Scenario.running Scenario.basic)
                      (Scenario.anonymous "search") []
       = (Returned (None, context'), [])
       ∧ opt_get (opt_get (metadata context') "billing") "userId"
         = VStr ("user_" +:+ "k3x9q0zt1")
       ∧ opt_get (opt_get (metadata context') "billing") "amount"
         = VNum (if is_lit (get "billingModel"
                              (config (Scenario.running Scenario.basic)))
                           "subscription"
                    || is_lit (get "billingModel"
                                 (config (Scenario.running Scenario.basic)))
                              "freemium"
                 then 0 else 100)
       ∧ ∀ k, k ≠ "billing" →
              spread (metadata context') !! k
              = spread (metadata (Scenario.anonymous "search")) !! k).
Proof.
  apply (beforeToolCall_mock "k3x9q0zt1" (Scenario.running Scenario.basic)
           (Scenario.anonymous "search") []).
  reflexivity.
Defined.

End HookProps.

(** ** The post-invocation hook, further properties *)

Module RecorderMore.
Import Js Plugin.

Ltac hook := GateProps.hook.

#[local] Arguments usageOf : simpl never.
#[local] Arguments paymentOf : simpl never.
#[local] Arguments billingSummary : simpl never.
#[local] Arguments with_billing : simpl never.
#[local] Arguments set_meta : simpl never.

Lemma billingSummary_fields billingData context now res :
  opt_get (billingSummary billingData context now res) "amount"
  = opt_get billingData "amount"
  ∧ opt_get (billingSummary billingData context now res) "currency" = VStr "usd"
  ∧ opt_get (billingSummary billingData context now res) "toolName"
    = VStr (toolName context)
  ∧ opt_get (billingSummary billingData context now res) "timestamp" = VStr now.
Proof. repeat split; reflexivity. Qed.

Lemma paymentOf_fields billingData context :
  opt_get (paymentOf billingData context) "userId" = opt_get billingData "userId"
  ∧ opt_get (paymentOf billingData context) "amount"
    = opt_get billingData "amount"
  ∧ opt_get (paymentOf billingData context) "toolName" = VStr (toolName context)
  ∧ opt_get (paymentOf billingData context) "billingModel"
    = opt_get billingData "billingModel".
Proof. repeat split; reflexivity. Qed.

(** X4.  For a call that carries billing data and a tool result that is
    not an error, when both helpers return, the hook calls [recordUsage]
    and then [processPayment], each once and with the user id and amount
    of the billing data, and stores under [_meta.billing] the summary
    [charged = true], that amount, 'usd', the tool name and the time
    stamp. *)
Theorem afterToolCall_charged `{Backend} (this : StripeMonetizationPlugin)
    (tUsage : Z) (tMeta : string) (context : ToolCallContext)
    (res : ToolCallResult) (log : list call) :
  initialized this = true →
  truthy (opt_get (metadata context) "billing") = true →
  truthy (get "isError" (result res)) = false →
  recordUsage (usageOf (opt_get (metadata context) "billing")
                       context tUsage res) = Returned tt →
  processPayment (paymentOf (opt_get (metadata context) "billing") context)
  = Returned tt →
  ∃ r,
    afterToolCall this tUsage tMeta context res log
    = (Returned r,
       (log ++ [RecordUsage (usageOf (opt_get (metadata context) "billing")
                                     context tUsage res);
                ProcessPayment (paymentOf (opt_get (metadata context) "billing")
                                          context)])%list)
    ∧ opt_get (usageOf (opt_get (metadata context) "billing")
                       context tUsage res) "success" = VBool true
    ∧ opt_get (usageOf (opt_get (metadata context) "billing")
                       context tUsage res) "amount"
      = opt_get (opt_get (metadata context) "billing") "amount"
    ∧ opt_get (paymentOf (opt_get (metadata context) "billing") context) "amount"
      = opt_get (opt_get (metadata context) "billing") "amount"
    ∧ opt_get (paymentOf (opt_get (metadata context) "billing") context) "userId"
      = opt_get (opt_get (metadata context) "billing") "userId"
    ∧ opt_get (opt_get (get "_meta" (result r)) "billing") "charged" = VBool true
    ∧ opt_get (opt_get (get "_meta" (result r)) "billing") "amount"
      = opt_get (opt_get (metadata context) "billing") "amount"
    ∧ opt_get (opt_get (get "_meta" (result r)) "billing") "currency" = VStr "usd"
    ∧ opt_get (opt_get (get "_meta" (result r)) "billing") "toolName"
      = VStr (toolName context)
    ∧ opt_get (opt_get (get "_meta" (result r)) "billing") "timestamp"
      = VStr tMeta.
Proof.
  intros Hinit Hdata Herr Husage Hpay.
  pose proof (RecorderProps.usageOf_success (opt_get (metadata context) "billing")
                context tUsage res) as Hsuccess.
  pose proof (RecorderProps.usageOf_amount (opt_get (metadata context) "billing")
                context tUsage res) as Hamount.
  pose proof (RecorderProps.billingSummary_charged
                (opt_get (metadata context) "billing") context tMeta res)
    as Hcharged.
  destruct (billingSummary_fields (opt_get (metadata context) "billing")
              context tMeta res) as (Hs1 & Hs2 & Hs3 & Hs4).
  destruct (paymentOf_fields (opt_get (metadata context) "billing") context)
    as (Hp1 & Hp2 & _ & _).
  rewrite Herr in Hsuccess, Hcharged. cbn [negb] in Hsuccess, Hcharged.
  eexists. split.
  - hook. rewrite Hinit, Hdata. cbn [negb]. rewrite Husage, Herr. cbn [negb].
    rewrite Hpay. by rewrite <- app_assoc.
  - rewrite !RecorderProps.set_meta_billing. by repeat split.
Qed.

Lemma afterToolCall_charged_witness :
  ∃ r,
    afterToolCall (H := mock "k3x9q0zt1") (Scenario.running Scenario.basic)
                  1700000000500 "2023-11-14T22:13:20.501Z" Run.billed
                  {| result := ∅ |} []
    = (Returned r,
       ([] ++ [RecordUsage (usageOf (opt_get (metadata Run.billed) "billing")
                                    Run.billed 1700000000500 {| result := ∅ |});
               ProcessPayment (paymentOf (opt_get (metadata Run.billed) "billing")
                                         Run.billed)])%list)
    ∧ opt_get (usageOf (opt_get (metadata Run.billed) "billing")
                       Run.billed 1700000000500 {| result := ∅ |}) "success"
      = VBool true
    ∧ opt_get (usageOf (opt_get (metadata Run.billed) "billing")
                       Run.billed 1700000000500 {| result := ∅ |}) "amount"
      = opt_get (opt_get (metadata Run.billed) "billing") "amount"
    ∧ opt_get (paymentOf (opt_get (metadata Run.billed) "billing") Run.billed)
              "amount"
      = opt_get (opt_get (metadata Run.billed) "billing") "amount"
    ∧ opt_get (paymentOf (opt_get (metadata Run.billed) "billing") Run.billed)
              "userId"
      = opt_get (opt_get (metadata Run.billed) "billing") "userId"
    ∧ opt_get (opt_get (get "_meta" (result r)) "billing") "charged" = VBool true
    ∧ opt_get (opt_get (get "_meta" (result r)) "billing") "amount"
      = opt_get (opt_get (metadata Run.billed) "billing") "amount"
    ∧ opt_get (opt_get (get "_meta" (result r)) "billing") "currency" = VStr "usd"
    ∧ opt_get (opt_get (get "_meta" (result r)) "billing") "toolName"
      = VStr (toolName Run.billed)
    ∧ opt_get (opt_get (get "_meta" (result r)) "billing") "timestamp"
      = VStr "2023-11-14T22:13:20.501Z".
Proof.
  apply (afterToolCall_charged (H := mock "k3x9q0zt1")
           (Scenario.running Scenario.basic) 1700000000500
           "2023-11-14T22:13:20.501Z" Run.billed {| result := ∅ |} []);
    reflexivity.
Defined.

(** X5.  A call whose context carries no billing data (it did not pass
    the pre-invocation hook, or was let through after a failure in
    development) is returned as it is: nothing is recorded, nothing is
    charged and [_meta] is not touched. *)
Theorem afterToolCall_unbilled `{Backend} (this : StripeMonetizationPlugin)
    (tUsage : Z) (tMeta : string) (context : ToolCallContext)
    (res : ToolCallResult) (log : list call) :
  truthy (opt_get (metadata context) "billing") = false →
  afterToolCall this tUsage tMeta context res log = (Returned res, log).
Proof.
  intros Hdata. hook. destruct (initialized this); cbn [negb]; [| done].
  by rewrite Hdata.
Qed.

Lemma afterToolCall_unbilled_witness :
  afterToolCall (H := Scenario.usage_store_fails "k3x9q0zt1"
                        (Error "unreachable"))
                (Scenario.running Scenario.basic)
                1700000000500 "2023-11-14T22:13:20.501Z"
                (Scenario.authorized "search") Run.failed []
  = (Returned Run.failed, []).
Proof.
  apply (afterToolCall_unbilled (H := Scenario.usage_store_fails "k3x9q0zt1"
                                        (Error "unreachable"))
           (Scenario.running Scenario.basic) 1700000000500
           "2023-11-14T22:13:20.501Z" (Scenario.authorized "search")
           Run.failed []).
  reflexivity.
Defined.

Lemma usageOf_fields billingData context now res :
  opt_get (usageOf billingData context now res) "userId"
  = opt_get billingData "userId"
  ∧ opt_get (usageOf billingData context now res) "toolName"
    = VStr (toolName context).
Proof. split; reflexivity. Qed.

(** With billing data, the first outgoing call is [recordUsage]. *)
Lemma afterToolCall_records_first `{Backend} (this : StripeMonetizationPlugin)
    (tUsage : Z) (tMeta : string) (context : ToolCallContext)
    (res : ToolCallResult) (log : list call) :
  initialized this = true →
  truthy (opt_get (metadata context) "billing") = true →
  ∃ r rest,
    afterToolCall this tUsage tMeta context res log
    = (Returned r,
       (log ++ RecordUsage (usageOf (opt_get (metadata context) "billing")
                                    context tUsage res) :: rest)%list).
Proof.
  intros Hinit Hdata. hook. rewrite Hinit, Hdata. cbn [negb].
  destruct (recordUsage _) as [[] | e]; [| by eexists _, []].
  destruct (truthy (get "isError" (result res))); cbn [negb];
    [by eexists _, [] |].
  destruct (processPayment _) as [[] | e];
    eexists _, [_]; by rewrite <- app_assoc.
Qed.

(** X6.  What the pre-invocation hook decided is what the
    post-invocation hook records: for a call that passed the three
    checks, the first outgoing call of [afterToolCall] on the context
    that [beforeToolCall] left is [recordUsage] with the user id of the
    authentication, the amount of the billing check and the name of the
    tool. *)
Theorem before_then_after {B : Backend} (this : StripeMonetizationPlugin)
    (context : ToolCallContext) (auth : AuthResult) (limit : RateLimitResult)
    (bill : BillingResult) (tUsage : Z) (tMeta : string)
    (res : ToolCallResult) (log : list call) :
  initialized this = true →
  authenticateUser context = Returned auth →
  authenticated auth = true →
  checkRateLimit context (userId auth) = Returned limit →
  exceeded limit = false →
  checkBilling this context (userId auth) = Returned bill →
  canProceed bill = true →
  ∃ context' r usage rest,
    beforeToolCall this context log = (Returned (None, context'), log)
    ∧ afterToolCall this tUsage tMeta context' res log
      = (Returned r, (log ++ RecordUsage usage :: rest)%list)
    ∧ opt_get usage "userId" = of_str (userId auth)
    ∧ opt_get usage "amount" = of_num (amount bill)
    ∧ opt_get usage "toolName" = VStr (toolName context)
    ∧ opt_get usage "success"
      = VBool (negb (truthy (get "isError" (result res)))).
Proof.
  intros Hinit Ha Hauth Hl Hex Hb Hcp.
  pose proof (HookProps.beforeToolCall_passes this context auth limit bill log
                Hinit Ha Hauth Hl Hex Hb Hcp) as Hrun.
  destruct (HookProps.proceeding_fields this context auth bill)
    as (Htool & _ & Hentry & Htruthy & _).
  set (context' := HookData.proceeding this context auth bill) in *.
  destruct (afterToolCall_records_first this tUsage tMeta context' res log
              Hinit Htruthy) as (r & rest & Hafter).
  exists context', r,
    (usageOf (opt_get (metadata context') "billing") context' tUsage res), rest.
  split; [done |]. split; [done |].
  destruct (usageOf_fields (opt_get (metadata context') "billing")
              context' tUsage res) as (-> & ->).
  rewrite RecorderProps.usageOf_success, RecorderProps.usageOf_amount.
  destruct (HookProps.billingEntry_fields this auth bill) as (Hu & Hamt & _).
  by rewrite Hentry, Hamt, Hu, Htool.
Qed.

Lemma before_then_after_witness :
  ∃ context' r usage rest,
    beforeToolCall (H := mock "k3x9q0zt1") (Scenario.running Scenario.basic)
                   (Scenario.authorized "search") []
    = (Returned (None, context'), [])
    ∧ afterToolCall (H := mock "k3x9q0zt1") (Scenario.running Scenario.basic)
                    1700000000500 "2023-11-14T22:13:20.501Z" context'
                    Run.failed []
      = (Returned r, ([] ++ RecordUsage usage :: rest)%list)
    ∧ opt_get usage "userId"
      = of_str (userId {| authenticated := true;
                          userId := Some "user_k3x9q0zt1" |})
    ∧ opt_get usage "amount"
      = of_num (amount {| canProceed := true; amount := Some 100;
                          message := None |})
    ∧ opt_get usage "toolName" = VStr (toolName (Scenario.authorized "search"))
    ∧ opt_get usage "success"
      = VBool (negb (truthy (get "isError" (result Run.failed)))).
Proof.
  apply (before_then_after (B := mock "k3x9q0zt1")
           (Scenario.running Scenario.basic) (Scenario.authorized "search")
           {| authenticated := true; userId := Some "user_k3x9q0zt1" |}
           {| exceeded := false; retryAfter := None |}
           {| canProceed := true; amount := Some 100; message := None |}
           1700000000500 "2023-11-14T22:13:20.501Z" Run.failed []);
    reflexivity.
Defined.

End RecorderMore.

(** ** Construction, initialization and setup helpers *)

Module SetupProps.
Import Js Plugin.

Lemma constructor_stripe cfg : get "stripe" (config (constructor cfg)) = VUndef.
Proof. reflexivity. Qed.

Lemma validateConfig_constructor cfg :
  Lifecycle.validateConfig (constructor cfg)
  = Thrown (Error "Stripe secret key is required").
Proof. reflexivity. Qed.

(** X7.  A plugin built by the constructor cannot be initialized,
    whatever configuration it was given: [initialize] throws (the
    constructor has replaced the configuration by
    [{ enabled, priority, debug }], so the Stripe keys are gone) and
    [initialized] stays false; from then on [beforeToolCall] throws
    'not initialized' for every call and [afterToolCall] returns every
    result untouched. *)
Theorem constructed_plugin_never_initialized `{Backend}
    (cfg : gmap string value) (base : outcome unit)
    (context : ToolCallContext) (res : ToolCallResult)
    (tUsage : Z) (tMeta : string) (log : list call) :
  is_returned (Lifecycle.initialize base (constructor cfg)).1 = false
  ∧ (Lifecycle.initialize base (constructor cfg)).2 = constructor cfg
  ∧ initialized (Lifecycle.initialize base (constructor cfg)).2 = false
  ∧ (base = Returned tt →
     (Lifecycle.initialize base (constructor cfg)).1
     = Thrown (Error "Stripe secret key is required"))
  ∧ beforeToolCall (Lifecycle.initialize base (constructor cfg)).2 context log
    = (Thrown (Error "Stripe Monetization Plugin not initialized"), log)
  ∧ afterToolCall (Lifecycle.initialize base (constructor cfg)).2
                  tUsage tMeta context res log
    = (Returned res, log).
Proof.
  assert ((Lifecycle.initialize base (constructor cfg)).2 = constructor cfg)
    as Hstate.
  { unfold Lifecycle.initialize. rewrite validateConfig_constructor.
    by destruct base. }
  rewrite Hstate. repeat split.
  - unfold Lifecycle.initialize. rewrite validateConfig_constructor.
    by destruct base.
  - intros ->. unfold Lifecycle.initialize.
    by rewrite validateConfig_constructor.
Qed.

(** What [initialize] needs of a plugin in general. *)
Lemma initialize_succeeds base this :
  (Lifecycle.initialize base this).1 = Returned tt
  ↔ is_returned base = true
    ∧ truthy (opt_get (get "stripe" (config this)) "secretKey") = true
    ∧ truthy (opt_get (get "stripe" (config this)) "publishableKey") = true
    ∧ truthy (opt_get (get "stripe" (config this)) "webhookSecret") = true.
Proof.
  unfold Lifecycle.initialize, Lifecycle.validateConfig.
  destruct base as [[] | e]; simpl; [| by split; [| intros []]].
  destruct (truthy (opt_get _ "secretKey")); simpl; [| by split; [| intros (_&?&_)]].
  destruct (truthy (opt_get _ "publishableKey")); simpl;
    [| by split; [| intros (_&_&?&_)]].
  destruct (truthy (opt_get _ "webhookSecret")); simpl;
    [done | by split; [| intros (_&_&_&?)]].
Qed.

Lemma setup_lookups model jwt sk pk wh billing :
  get "stripe" (Setups.setup model jwt sk pk wh billing)
  = Setups.stripeBlock sk pk wh
  ∧ get "billingModel" (Setups.setup model jwt sk pk wh billing) = VStr model
  ∧ get "authentication" (Setups.setup model jwt sk pk wh billing)
    = Setups.authenticationBlock jwt
  ∧ get "database" (Setups.setup model jwt sk pk wh billing)
    = Setups.databaseBlock
  ∧ get "environment" (Setups.setup model jwt sk pk wh billing)
    = VStr "development".
Proof. repeat split; reflexivity. Qed.

Lemma stripeBlock_keys sk pk wh :
  opt_get (Setups.stripeBlock sk pk wh) "secretKey" = VStr sk
  ∧ opt_get (Setups.stripeBlock sk pk wh) "publishableKey" = VStr pk
  ∧ opt_get (Setups.stripeBlock sk pk wh) "webhookSecret" = VStr wh.
Proof. repeat split; reflexivity. Qed.

(** Every helper builds its configuration around the same blocks. *)
Lemma configuration_shape jwt c :
  ∃ sk pk wh billing,
    SetupCalls.keys c = [sk; pk; wh]
    ∧ SetupCalls.configuration jwt c
      = Setups.setup (SetupCalls.billingModel c) jwt sk pk wh billing.
Proof.
  destruct c as [o | o | o | o | o | sk pk wh]; simpl;
    try (do 4 eexists; split; reflexivity).
Qed.

Lemma billingModel_nonempty c : SetupCalls.billingModel c ≠ "".
Proof. by destruct c. Qed.

(** X8.  The configuration returned by any of the six setup helpers
    passes [validateConfig] of the helpers as soon as the three Stripe
    keys passed in are non-empty; its environment is 'development' and
    its billing model the one the helper is named after. *)
Theorem setup_passes_validateConfig (jwt : option string) (c : SetupCalls.call) :
  Forall (λ key, key ≠ "") (SetupCalls.keys c) →
  Setups.validateConfig (SetupCalls.configuration jwt c) = Returned true
  ∧ get "environment" (SetupCalls.configuration jwt c) = VStr "development"
  ∧ get "billingModel" (SetupCalls.configuration jwt c)
    = VStr (SetupCalls.billingModel c).
Proof.
  intros Hkeys.
  destruct (configuration_shape jwt c) as (sk & pk & wh & billing & Hk & ->).
  rewrite Hk in Hkeys.
  apply Forall_cons in Hkeys as [Hsk Hkeys].
  apply Forall_cons in Hkeys as [Hpk Hkeys].
  apply Forall_cons in Hkeys as [Hwh _].
  destruct (setup_lookups (SetupCalls.billingModel c) jwt sk pk wh billing)
    as (Hs & Hm & Ha & Hd & He).
  split; [| done].
  unfold Setups.validateConfig. rewrite Hs, Hm, Ha, Hd.
  pose proof (billingModel_nonempty c) as Hmodel.
  apply String.eqb_neq in Hsk, Hpk, Hwh, Hmodel.
  destruct (stripeBlock_keys sk pk wh) as (-> & -> & ->).
  cbn [truthy]. rewrite Hsk, Hpk, Hwh, Hmodel. reflexivity.
Qed.

Lemma setup_passes_validateConfig_witness :
  Setups.validateConfig
    (SetupCalls.configuration None (SetupCalls.Basic Scenario.priced))
  = Returned true
  ∧ get "environment"
      (SetupCalls.configuration None (SetupCalls.Basic Scenario.priced))
    = VStr "development"
  ∧ get "billingModel"
      (SetupCalls.configuration None (SetupCalls.Basic Scenario.priced))
    = VStr (SetupCalls.billingModel (SetupCalls.Basic Scenario.priced)).
Proof.
  apply (setup_passes_validateConfig None (SetupCalls.Basic Scenario.priced)).
  repeat constructor; discriminate.
Defined.

(** X9.  The billing-model validator of the configuration validators
    accepts the billing model of a setup helper's configuration only for
    the subscription and freemium helpers: the other helpers spell their
    model with a hyphen ('per-call', 'usage-based', 'credit-system')
    where the validator lists underscores. *)
Theorem validateBillingModel_of_setup (jwt : option string) (c : SetupCalls.call) :
  Setups.validateBillingModel (get "billingModel" (SetupCalls.configuration jwt c))
  = match c with
    | SetupCalls.Subscription _ | SetupCalls.Freemium _ => true
    | _ => false
    end.
Proof. by destruct c. Qed.

(** X10.  The factory returns a plugin exactly for the configurations its
    [validateConfig] accepts (truthy Stripe keys, billing model,
    authentication and database), and the plugin it returns is the
    constructor's: the plugin's own [validateConfig], run by
    [initialize], rejects it for a missing secret key. *)
Theorem factory_then_validateConfig (config : gmap string value) :
  (is_returned (Setups.createStripeMonetizationPlugin config)
   = truthy (opt_get (get "stripe" config) "secretKey")
     && truthy (opt_get (get "stripe" config) "publishableKey")
     && truthy (opt_get (get "stripe" config) "webhookSecret")
     && truthy (get "billingModel" config)
     && truthy (get "authentication" config)
     && truthy (get "database" config))
  ∧ ∀ p, Setups.createStripeMonetizationPlugin config = Returned p →
         p = constructor config
         ∧ stripeEndpoints p = config
         ∧ Lifecycle.validateConfig p
           = Thrown (Error "Stripe secret key is required").
Proof.
  unfold Setups.createStripeMonetizationPlugin, Setups.validateConfig. split.
  - repeat (match goal with
            | |- context [truthy ?v] => destruct (truthy v); simpl; [| done]
            end).
    done.
  - intros p Hp.
    destruct (if negb _ then _ else _) as [b | e] in Hp; [| done].
    by injection Hp as <-.
Qed.

End SetupProps.

(** ** The SQLite adapter on its two tables *)

Module StoreProps.
Import SqliteStore.

#[local] Arguments Sqlite.num_or_zero : simpl never.
#[local] Arguments Sqlite.num_or_null : simpl never.
#[local] Arguments Sqlite.str_or_null : simpl never.

Lemma customers_with db tbl : customers (with_customers db tbl) = tbl.
Proof. reflexivity. Qed.

Lemma usage_records_with db tbl :
  usage_records (with_customers db tbl) = usage_records db.
Proof. reflexivity. Qed.

Lemma consistent_ext db db' :
  customers db' = customers db →
  usage_records db' = usage_records db →
  consistent db → consistent db'.
Proof.
  intros Hc Hu [K E S UK UR].
  split; rewrite ?Hc, ?Hu; eauto.
Qed.

Lemma check_insert_None r (tbl : gmap string Sqlite.Row.t) :
  Sqlite.check_insert r tbl = None →
  tbl !! Sqlite.Row.customer_id r = None
  ∧ (∀ id r', tbl !! id = Some r' → Sqlite.Row.email r' ≠ Sqlite.Row.email r)
  ∧ (∀ id r' s, tbl !! id = Some r' →
                Sqlite.Row.stripe_customer_id r = Some s →
                Sqlite.Row.stripe_customer_id r' ≠ Some s).
Proof.
  unfold Sqlite.check_insert. intros H.
  destruct (bool_decide (is_Some _)) eqn:Hpk; [done |].
  destruct (bool_decide (map_Exists (λ _ r', Sqlite.Row.email r' = _) tbl))
    eqn:Hem; [done |].
  destruct (bool_decide _) eqn:Hst in H; [done |].
  apply bool_decide_eq_false in Hpk, Hem, Hst.
  split; [by apply eq_None_not_Some |]. split.
  - intros id r' Hr' Heq. apply Hem. by exists id, r'.
  - intros id r' s Hr' Hs Heq. apply Hst. exists id, r'.
    split; [done |]. split; [by rewrite Hs | by rewrite Hs].
Qed.

(** Writing one row keeps the constraints when the row carries its own
    id and collides with no other row. *)
Lemma consistent_insert db id r :
  consistent db →
  Sqlite.Row.customer_id r = id →
  (∀ id' r', id' ≠ id → customers db !! id' = Some r' →
             Sqlite.Row.email r' ≠ Sqlite.Row.email r) →
  (∀ id' r' s, id' ≠ id → customers db !! id' = Some r' →
               Sqlite.Row.stripe_customer_id r = Some s →
               Sqlite.Row.stripe_customer_id r' ≠ Some s) →
  consistent (with_customers db (<[id := r]> (customers db))).
Proof.
  intros [K E S UK UR] Hid Hem Hst.
  split; rewrite ?customers_with, ?usage_records_with.
  - intros id' r'. destruct (decide (id' = id)) as [-> | Hne].
    + rewrite lookup_insert_eq. by intros [= <-].
    + rewrite lookup_insert_ne by done. apply K.
  - intros id1 id2 r1 r2.
    destruct (decide (id1 = id)) as [-> | H1], (decide (id2 = id)) as [-> | H2];
      rewrite ?lookup_insert_eq, ?lookup_insert_ne by done; [done | | |].
    + intros [= <-] Hr2 Heq. by destruct (Hem id2 r2 H2 Hr2).
    + intros Hr1 [= <-] Heq. by destruct (Hem id1 r1 H1 Hr1).
    + apply E.
  - intros id1 id2 r1 r2 s.
    destruct (decide (id1 = id)) as [-> | H1], (decide (id2 = id)) as [-> | H2];
      rewrite ?lookup_insert_eq, ?lookup_insert_ne by done; [done | | |].
    + intros [= <-] Hr2 Hs1 Hs2. by destruct (Hst id2 r2 s H2 Hr2 Hs1).
    + intros Hr1 [= <-] Hs1 Hs2. by destruct (Hst id1 r1 s H1 Hr1 Hs2).
    + apply S.
  - apply UK.
  - intros k u Hu. destruct (decide (UsageRow.customer_id u = id)) as [-> | Hne].
    + by rewrite lookup_insert_eq.
    + rewrite lookup_insert_ne by done. by apply (UR k).
Qed.

(** An UPDATE that leaves id, e-mail address and Stripe customer id of
    the row alone keeps the constraints. *)
Lemma consistent_alter db id (f : Sqlite.Row.t → Sqlite.Row.t) :
  (∀ r, Sqlite.Row.customer_id (f r) = Sqlite.Row.customer_id r
        ∧ Sqlite.Row.email (f r) = Sqlite.Row.email r
        ∧ Sqlite.Row.stripe_customer_id (f r) = Sqlite.Row.stripe_customer_id r) →
  consistent db →
  consistent (with_customers db (alter f id (customers db))).
Proof.
  intros Hf Hdb. destruct (customers db !! id) as [r |] eqn:Hr.
  - destruct (Hf r) as (Hid & Hem & Hst).
    assert (alter f id (customers db) = <[id := f r]> (customers db)) as ->.
    { apply map_eq. intros k. destruct (decide (k = id)) as [-> | Hne].
      - by rewrite lookup_alter_eq, lookup_insert_eq, Hr.
      - by rewrite lookup_alter_ne, lookup_insert_ne. }
    destruct Hdb as [K E S UK UR].
    apply consistent_insert; [by split | by rewrite Hid; apply K in Hr | |].
    + intros id' r' Hne Hr' Heq. rewrite Hem in Heq.
      by destruct Hne; apply (E id' id r' r).
    + intros id' r' s Hne Hr' Hs Hs'. rewrite Hst in Hs.
      by destruct Hne; apply (S id' id r' r s).
  - eapply consistent_ext; [| | exact Hdb]; [| done].
    rewrite customers_with. apply map_eq. intros k. destruct (decide (k = id)) as [-> | Hne].
    + by rewrite lookup_alter_eq, Hr.
    + by rewrite lookup_alter_ne.
Qed.

Lemma createCustomer_cases env d db :
  (∃ v, Sqlite.check_insert
          (Sqlite.rowOf (Sqlite.uuidv4 env) (Sqlite.now env) d) (customers db)
        = Some v
        ∧ is_returned (createCustomer env d db).1 = false
        ∧ (createCustomer env d db).2 = db)
  ∨ (Sqlite.check_insert
       (Sqlite.rowOf (Sqlite.uuidv4 env) (Sqlite.now env) d) (customers db)
     = None
     ∧ (createCustomer env d db).1
       = Returned (Sqlite.mapRowToCustomer
                     (Sqlite.rowOf (Sqlite.uuidv4 env) (Sqlite.now env) d))
     ∧ (createCustomer env d db).2
       = with_customers db
           (<[Sqlite.uuidv4 env :=
                Sqlite.rowOf (Sqlite.uuidv4 env) (Sqlite.now env) d]>
              (customers db))).
Proof.
  unfold createCustomer, on_adapter, Sqlite.createCustomer, customers.
  destruct (Sqlite.check_insert _ _) as [v |] eqn:Hc.
  - left. exists v. by destruct db as [[]].
  - right. split; [done |].
    unfold Sqlite.getCustomer; cbn [Sqlite.customers].
    by rewrite lookup_insert_eq.
Qed.

Lemma updateCustomer_cases env id updates db :
  (is_returned (updateCustomer env id updates db).1 = false
   ∧ (updateCustomer env id updates db).2 = db)
  ∨ (∃ r, customers db !! id = Some r
          ∧ (∀ id' r', id' ≠ id → customers db !! id' = Some r' →
                       Sqlite.Row.email r'
                       ≠ Sqlite.Row.email (apply_updates updates (Sqlite.now env) r))
          ∧ (updateCustomer env id updates db).1
            = Returned (Sqlite.mapRowToCustomer
                          (apply_updates updates (Sqlite.now env) r))
          ∧ (updateCustomer env id updates db).2
            = with_customers db
                (<[id := apply_updates updates (Sqlite.now env) r]>
                   (customers db))).
Proof.
  unfold updateCustomer. destruct (customers db !! id) as [r |] eqn:Hr;
    [| by left].
  destruct (bool_decide _) eqn:Hcol; [by left |].
  right. exists r. split; [done |]. split; [| done].
  apply bool_decide_eq_false in Hcol.
  intros id' r' Hne Hr' Heq. apply Hcol. by exists id', r'.
Qed.

Lemma deleteCustomer_cases id db :
  (deleteCustomer id db).2 = db
  ∨ ((∀ k u, usage_records db !! k = Some u → UsageRow.customer_id u ≠ id)
     ∧ (deleteCustomer id db).1 = Returned tt
     ∧ (deleteCustomer id db).2
       = with_customers db (delete id (customers db))).
Proof.
  unfold deleteCustomer. destruct (customers db !! id) as [r |]; [| by left].
  destruct (bool_decide _) eqn:Href; [by left |].
  right. split; [| done].
  apply bool_decide_eq_false in Href.
  intros k u Hu Heq. apply Href. by exists k, u.
Qed.

Lemma createUsageRecord_cases env record db :
  (is_returned (createUsageRecord env record db).1 = false
   ∧ (createUsageRecord env record db).2 = db)
  ∨ (usage_records db !! Sqlite.uuidv4 env = None
     ∧ is_Some (customers db !! customerId record)
     ∧ (createUsageRecord env record db).1
       = Returned {| id := Sqlite.uuidv4 env; record := record |}
     ∧ (createUsageRecord env record db).2
       = {| adapter := adapter db;
            usage_records :=
              <[Sqlite.uuidv4 env := usageRowOf (Sqlite.uuidv4 env) record]>
                (usage_records db) |}).
Proof.
  unfold createUsageRecord.
  destruct (bool_decide (is_Some (usage_records db !! _))) eqn:Hpk;
    [by left |].
  destruct (bool_decide (is_Some (customers db !! _))) eqn:Hfk; [| by left].
  right. apply bool_decide_eq_false in Hpk. apply bool_decide_eq_true in Hfk.
  split; [by apply eq_None_not_Some |]. done.
Qed.

(** Every writing method keeps the constraints of the two tables. *)
Lemma perform_consistent op db : consistent db → consistent (perform op db).
Proof.
  intros Hdb.
  destruct op as [env d | env id updates | id | env id change | env id usage
                 | env record]; cbn [perform].
  - destruct (createCustomer_cases env d db)
      as [(v & _ & _ & ->) | (Hnone & _ & ->)]; [done |].
    + apply check_insert_None in Hnone as (Hfresh & Hem & Hst).
      apply consistent_insert; [done | done | |].
      * intros id' r' _. apply Hem.
      * intros id' r' s _. apply Hst.
  - destruct (updateCustomer_cases env id updates db)
      as [[_ ->] | (r & Hr & Hem & _ & ->)]; [done |].
    apply consistent_insert; [done | | done |].
    + destruct Hdb as [K _ _ _ _]. by apply K in Hr.
    + intros id' r' s Hne Hr' Hs Hs'. destruct Hne.
      destruct Hdb as [_ _ S _ _]. by apply (S id' id r' r s).
  - destruct (deleteCustomer_cases id db) as [-> | (Href & _ & ->)]; [done |].
    destruct Hdb as [K E S UK UR].
    split; rewrite ?customers_with, ?usage_records_with.
    + intros id' r' Hr'. apply lookup_delete_Some in Hr' as [_ Hr']. by apply K.
    + intros id1 id2 r1 r2 [_ H1]%lookup_delete_Some [_ H2]%lookup_delete_Some.
      by apply E.
    + intros id1 id2 r1 r2 s [_ H1]%lookup_delete_Some [_ H2]%lookup_delete_Some.
      by apply S.
    + apply UK.
    + intros k u Hu. rewrite lookup_delete_ne
        by (intros Heq; by apply (Href k u Hu)).
      by apply (UR k).
  - by apply (consistent_alter db id (Sqlite.add_credits change (Sqlite.now env))).
  - by apply (consistent_alter db id (add_usage usage (Sqlite.now env))).
  - destruct (createUsageRecord_cases env record db)
      as [[_ ->] | (Hfresh & Hcust & _ & ->)]; [done |].
    destruct Hdb as [K E S UK UR].
    split; unfold customers; cbn [adapter usage_records]; fold (customers db);
      [done | done | done | |].
    + intros k u. destruct (decide (k = Sqlite.uuidv4 env)) as [-> | Hne].
      * rewrite lookup_insert_eq. by intros [= <-].
      * rewrite lookup_insert_ne by done. apply UK.
    + intros k u. destruct (decide (k = Sqlite.uuidv4 env)) as [-> | Hne].
      * rewrite lookup_insert_eq. by intros [= <-].
      * rewrite lookup_insert_ne by done. apply UR.
Qed.

Lemma empty_consistent prefix : consistent (empty prefix).
Proof. by split. Qed.

Lemma run_snoc ops op db : run (ops ++ [op]) db = perform op (run ops db).
Proof. unfold run. by rewrite foldl_app. Qed.

(** X11.  Whatever sequence of the adapter's writing methods
    (createCustomer, updateCustomer, deleteCustomer,
    updateCustomerCredits, updateCustomerUsage, createUsageRecord) runs
    on an empty database, with whatever arguments, ids and clock, and
    whether or not the individual calls throw: every row stays filed
    under its own id, no two customers ever share an e-mail address or a
    Stripe customer id, and every usage record belongs to a customer
    that still exists. *)
Theorem run_consistent (prefix : option string) (ops : list operation) :
  consistent (run ops (empty prefix)).
Proof.
  induction ops as [| op ops IH] using rev_ind.
  - apply empty_consistent.
  - rewrite run_snoc. by apply perform_consistent.
Qed.

(** *** Reading by e-mail address *)

Lemma elem_of_rows (m : gmap string Sqlite.Row.t) r :
  r ∈ (map_to_list m).*2 ↔ ∃ id, m !! id = Some r.
Proof.
  rewrite list_elem_of_fmap. split.
  - intros ([id r'] & -> & Hin). exists id. by apply elem_of_map_to_list.
  - intros (id & Hr). exists (id, r). split; [done |].
    by apply elem_of_map_to_list.
Qed.

Lemma head_filter_unique {A} (P : A → Prop) `{!∀ x, Decision (P x)} l x :
  x ∈ l → P x → (∀ y, y ∈ l → P y → y = x) →
  head (filter P l) = Some x.
Proof.
  induction l as [| a l IH]; [by intros ?%elem_of_nil |].
  intros Hin Px Huniq. rewrite filter_cons.
  destruct (decide (P a)) as [Pa | Pa].
  - cbn [head]. f_equal. apply Huniq; [by left | done].
  - apply elem_of_cons in Hin as [-> | Hin]; [done |].
    apply IH; [done | done |]. intros y Hy. apply Huniq. by right.
Qed.

Lemma head_filter_none {A} (P : A → Prop) `{!∀ x, Decision (P x)} l :
  (∀ y, y ∈ l → ¬ P y) → head (filter P l) = None.
Proof.
  induction l as [| a l IH]; [done |].
  intros Hno. rewrite filter_cons.
  rewrite decide_False by (apply Hno; by left).
  apply IH. intros y Hy. apply Hno. by right.
Qed.

Lemma getCustomerByEmail_found db id r :
  customers db !! id = Some r →
  (∀ id' r', customers db !! id' = Some r' →
             Sqlite.Row.email r' = Sqlite.Row.email r → r' = r) →
  getCustomerByEmail (Sqlite.Row.email r) db
  = (Returned (Some (Sqlite.mapRowToCustomer r)), db).
Proof.
  intros Hr Huniq. unfold getCustomerByEmail.
  rewrite (head_filter_unique _ _ r); [done | | done |].
  - apply elem_of_rows. by exists id.
  - intros y [id' Hy]%elem_of_rows Heq. by apply (Huniq id').
Qed.

Lemma getCustomerByEmail_missing db email :
  (∀ id r, customers db !! id = Some r → Sqlite.Row.email r ≠ email) →
  getCustomerByEmail email db = (Returned None, db).
Proof.
  intros Hno. unfold getCustomerByEmail.
  rewrite head_filter_none; [done |].
  intros y [id Hy]%elem_of_rows. by apply (Hno id).
Qed.

(** X12.  In a database whose rows satisfy the table constraints,
    reading by e-mail address agrees with reading by id: for the address
    of a stored customer [getCustomerByEmail] returns what [getCustomer]
    returns for that customer's id, for an address that no customer has
    it returns null; it never throws and changes nothing. *)
Theorem getCustomerByEmail_getCustomer (db : Database) (email : string) :
  consistent db →
  (getCustomerByEmail email db).2 = db
  ∧ (∀ id r, customers db !! id = Some r → Sqlite.Row.email r = email →
             (getCustomerByEmail email db).1 = (getCustomer id db).1
             ∧ (getCustomer id db).1
               = Returned (Some (Sqlite.mapRowToCustomer r)))
  ∧ ((∀ id r, customers db !! id = Some r → Sqlite.Row.email r ≠ email) →
     (getCustomerByEmail email db).1 = Returned None).
Proof.
  intros Hdb. split; [done |]. split.
  - intros id r Hr <-.
    rewrite (getCustomerByEmail_found db id r Hr).
    + unfold getCustomer, on_adapter, Sqlite.getCustomer. cbn [fst].
      fold (customers db). by rewrite Hr.
    + intros id' r' Hr' Heq. destruct Hdb as [_ E _ _ _].
      assert (id' = id) as -> by by apply (E id' id r' r).
      congruence.
  - intros Hno. by rewrite getCustomerByEmail_missing.
Qed.

Lemma getCustomerByEmail_getCustomer_witness :
  (getCustomerByEmail "ada@example.com" StoreRun.with_both).2
  = StoreRun.with_both
  ∧ (∀ id r, customers StoreRun.with_both !! id = Some r →
             Sqlite.Row.email r = "ada@example.com" →
             (getCustomerByEmail "ada@example.com" StoreRun.with_both).1
             = (getCustomer id StoreRun.with_both).1
             ∧ (getCustomer id StoreRun.with_both).1
               = Returned (Some (Sqlite.mapRowToCustomer r)))
  ∧ ((∀ id r, customers StoreRun.with_both !! id = Some r →
              Sqlite.Row.email r ≠ "ada@example.com") →
     (getCustomerByEmail "ada@example.com" StoreRun.with_both).1
     = Returned None).
Proof.
  apply (getCustomerByEmail_getCustomer StoreRun.with_both "ada@example.com").
  apply (perform_consistent
           (CreateCustomer Run.later_call StoreRun.grace) StoreRun.with_ada).
  apply (perform_consistent
           (CreateCustomer Run.first_call Run.ada) (empty None)).
  apply empty_consistent.
Defined.

(** X13.  A customer that [createCustomer] has returned is found under
    the e-mail address given, and from then on that address is taken:
    every further [createCustomer] with it throws a [DatabaseError] and
    stores nothing. *)
Theorem getCustomerByEmail_after_createCustomer (env : Sqlite.Env)
    (d : Sqlite.CustomerData) (db : Database) (c : Sqlite.CustomerInfo) :
  (createCustomer env d db).1 = Returned c →
  (getCustomerByEmail (Sqlite.email d) (createCustomer env d db).2).1
  = Returned (Some c)
  ∧ ∀ env' d',
      Sqlite.email d' = Sqlite.email d →
      is_returned (createCustomer env' d' (createCustomer env d db).2).1 = false
      ∧ (createCustomer env' d' (createCustomer env d db).2).2
        = (createCustomer env d db).2.
Proof.
  intros Hc.
  destruct (createCustomer_cases env d db)
    as [(v & _ & Hthrown & _) | (Hnone & Hret & Hstate)].
  { rewrite Hc in Hthrown. discriminate. }
  rewrite Hret in Hc. injection Hc as <-. rewrite Hstate.
  apply check_insert_None in Hnone as (Hfresh & Hem & _).
  set (r := Sqlite.rowOf (Sqlite.uuidv4 env) (Sqlite.now env) d) in *.
  set (db' := with_customers db (<[Sqlite.uuidv4 env := r]> (customers db))).
  assert (customers db' !! Sqlite.uuidv4 env = Some r) as Hr.
  { unfold db'. rewrite customers_with. apply lookup_insert_eq. }
  split.
  - change (Sqlite.email d) with (Sqlite.Row.email r).
    rewrite (getCustomerByEmail_found db' (Sqlite.uuidv4 env) r Hr); [done |].
    intros id' r'. unfold db'. rewrite customers_with.
    destruct (decide (id' = Sqlite.uuidv4 env)) as [-> | Hne].
    + rewrite lookup_insert_eq. congruence.
    + rewrite lookup_insert_ne by done. intros Hr' Heq.
      by destruct (Hem id' r' Hr').
  - intros env' d' Heq.
    destruct (createCustomer_cases env' d' db')
      as [(v & _ & Hthrown & Hsame) | (Hnone & _)]; [done |].
    + apply check_insert_None in Hnone as (_ & Hem' & _).
      by destruct (Hem' _ _ Hr).
Qed.

Lemma getCustomerByEmail_after_createCustomer_witness :
  (getCustomerByEmail (Sqlite.email Run.ada)
     (createCustomer Run.first_call Run.ada (empty None)).2).1
  = Returned (Some (Sqlite.mapRowToCustomer
                      (Sqlite.rowOf Run.ada_id 1700000000000 Run.ada)))
  ∧ ∀ env' d',
      Sqlite.email d' = Sqlite.email Run.ada →
      is_returned
        (createCustomer env' d'
           (createCustomer Run.first_call Run.ada (empty None)).2).1 = false
      ∧ (createCustomer env' d'
           (createCustomer Run.first_call Run.ada (empty None)).2).2
        = (createCustomer Run.first_call Run.ada (empty None)).2.
Proof.
  apply (getCustomerByEmail_after_createCustomer Run.first_call Run.ada (empty None)).
  reflexivity.
Defined.

(** *** Updating a customer *)

Lemma getCustomer_lookup id db :
  getCustomer id db
  = (Returned (Sqlite.mapRowToCustomer <$> customers db !! id), db).
Proof. by destruct db as [[]]. Qed.


(** X14.  A successful [updateCustomer] returns the customer as it is
    stored afterwards.  Id and creation date are the old ones and the
    modification date is the time of the call; e-mail address, credits
    and status are the new values where given and the old ones
    otherwise; Stripe customer id, usage counters and payment method are
    the old ones whatever the update says about them (the UPDATE carries
    no such column); no other customer is touched and no usage record
    either. *)
Theorem updateCustomer_effect (env : Sqlite.Env) (id : string)
    (updates : Updates.t) (db : Database) (c : Sqlite.CustomerInfo) :
  (updateCustomer env id updates db).1 = Returned c →
  ∃ old,
    (getCustomer id db).1 = Returned (Some old)
    ∧ (getCustomer id (updateCustomer env id updates db).2).1
      = Returned (Some c)
    ∧ Sqlite.customerId c = Sqlite.customerId old
    ∧ Sqlite.createdAt c = Sqlite.createdAt old
    ∧ Sqlite.updatedAt c = Sqlite.now env
    ∧ Sqlite.email (Sqlite.fields c)
      = default (Sqlite.email (Sqlite.fields old)) (Updates.email updates)
    ∧ Sqlite.credits (Sqlite.fields c)
      = match Updates.credits updates with
        | Some n => Some n
        | None => Sqlite.credits (Sqlite.fields old)
        end
    ∧ Sqlite.status (Sqlite.fields c)
      = default (Sqlite.status (Sqlite.fields old)) (Updates.status updates)
    ∧ Sqlite.stripeCustomerId (Sqlite.fields c)
      = Sqlite.stripeCustomerId (Sqlite.fields old)
    ∧ Sqlite.usage (Sqlite.fields c) = Sqlite.usage (Sqlite.fields old)
    ∧ Sqlite.paymentMethod (Sqlite.fields c)
      = Sqlite.paymentMethod (Sqlite.fields old)
    ∧ (∀ id', id' ≠ id →
              (getCustomer id' (updateCustomer env id updates db).2).1
              = (getCustomer id' db).1)
    ∧ usage_records (updateCustomer env id updates db).2 = usage_records db.
Proof.
  intros Hc.
  destruct (updateCustomer_cases env id updates db)
    as [[Hthrown _] | (r & Hr & _ & Hret & ->)].
  { rewrite Hc in Hthrown. discriminate. }
  rewrite Hret in Hc. injection Hc as <-.
  exists (Sqlite.mapRowToCustomer r).
  rewrite !getCustomer_lookup. cbn [fst]. rewrite customers_with, Hr.
  rewrite lookup_insert_eq. cbn [fmap option_fmap option_map].
  split; [done |]. split; [done |].
  repeat split; try done.
  - cbn. by destruct (Updates.credits updates).
  - intros id' Hne. rewrite !getCustomer_lookup. cbn [fst].
    by rewrite customers_with, lookup_insert_ne.
Qed.

Lemma updateCustomer_effect_witness :
  ∃ old,
    (getCustomer Run.ada_id StoreRun.with_both).1 = Returned (Some old)
    ∧ (getCustomer Run.ada_id
         (updateCustomer StoreRun.third_call Run.ada_id StoreRun.new_address
            StoreRun.with_both).2).1
      = Returned (Some (Sqlite.mapRowToCustomer
                          (apply_updates StoreRun.new_address 1700000120000
                             (Sqlite.rowOf Run.ada_id 1700000000000 Run.ada))))
    ∧ Sqlite.customerId
        (Sqlite.mapRowToCustomer
           (apply_updates StoreRun.new_address 1700000120000
              (Sqlite.rowOf Run.ada_id 1700000000000 Run.ada)))
      = Sqlite.customerId old
    ∧ Sqlite.createdAt
        (Sqlite.mapRowToCustomer
           (apply_updates StoreRun.new_address 1700000120000
              (Sqlite.rowOf Run.ada_id 1700000000000 Run.ada)))
      = Sqlite.createdAt old
    ∧ Sqlite.updatedAt
        (Sqlite.mapRowToCustomer
           (apply_updates StoreRun.new_address 1700000120000
              (Sqlite.rowOf Run.ada_id 1700000000000 Run.ada)))
      = Sqlite.now StoreRun.third_call
    ∧ Sqlite.email
        (Sqlite.fields
           (Sqlite.mapRowToCustomer
              (apply_updates StoreRun.new_address 1700000120000
                 (Sqlite.rowOf Run.ada_id 1700000000000 Run.ada))))
      = default (Sqlite.email (Sqlite.fields old))
                (Updates.email StoreRun.new_address)
    ∧ Sqlite.credits
        (Sqlite.fields
           (Sqlite.mapRowToCustomer
              (apply_updates StoreRun.new_address 1700000120000
                 (Sqlite.rowOf Run.ada_id 1700000000000 Run.ada))))
      = match Updates.credits StoreRun.new_address with
        | Some n => Some n
        | None => Sqlite.credits (Sqlite.fields old)
        end
    ∧ Sqlite.status
        (Sqlite.fields
           (Sqlite.mapRowToCustomer
              (apply_updates StoreRun.new_address 1700000120000
                 (Sqlite.rowOf Run.ada_id 1700000000000 Run.ada))))
      = default (Sqlite.status (Sqlite.fields old))
                (Updates.status StoreRun.new_address)
    ∧ Sqlite.stripeCustomerId
        (Sqlite.fields
           (Sqlite.mapRowToCustomer
              (apply_updates StoreRun.new_address 1700000120000
                 (Sqlite.rowOf Run.ada_id 1700000000000 Run.ada))))
      = Sqlite.stripeCustomerId (Sqlite.fields old)
    ∧ Sqlite.usage
        (Sqlite.fields
           (Sqlite.mapRowToCustomer
              (apply_updates StoreRun.new_address 1700000120000
                 (Sqlite.rowOf Run.ada_id 1700000000000 Run.ada))))
      = Sqlite.usage (Sqlite.fields old)
    ∧ Sqlite.paymentMethod
        (Sqlite.fields
           (Sqlite.mapRowToCustomer
              (apply_updates StoreRun.new_address 1700000120000
                 (Sqlite.rowOf Run.ada_id 1700000000000 Run.ada))))
      = Sqlite.paymentMethod (Sqlite.fields old)
    ∧ (∀ id', id' ≠ Run.ada_id →
              (getCustomer id'
                 (updateCustomer StoreRun.third_call Run.ada_id
                    StoreRun.new_address StoreRun.with_both).2).1
              = (getCustomer id' StoreRun.with_both).1)
    ∧ usage_records
        (updateCustomer StoreRun.third_call Run.ada_id StoreRun.new_address
           StoreRun.with_both).2
      = usage_records StoreRun.with_both.
Proof.
  apply (updateCustomer_effect StoreRun.third_call Run.ada_id
           StoreRun.new_address StoreRun.with_both).
  reflexivity.
Defined.

(** X15.  [updateCustomer] returns exactly when the customer exists and
    no other customer has the e-mail address the row would get; in
    every other case it throws a [DatabaseError] of the operation
    'updateCustomer' and the database is as before. *)
Theorem updateCustomer_returns (env : Sqlite.Env) (id : string)
    (updates : Updates.t) (db : Database) :
  (is_returned (updateCustomer env id updates db).1 = true
   ↔ ∃ r, customers db !! id = Some r
          ∧ ∀ id' r', id' ≠ id → customers db !! id' = Some r' →
                      Sqlite.Row.email r'
                      ≠ default (Sqlite.Row.email r) (Updates.email updates))
  ∧ (is_returned (updateCustomer env id updates db).1 = false →
     (updateCustomer env id updates db).2 = db
     ∧ ∃ message,
         (updateCustomer env id updates db).1
         = Thrown (DatabaseError message "updateCustomer"
                     (Some (Sqlite.getTableName (adapter db) "customers")))).
Proof.
  unfold updateCustomer.
  destruct (customers db !! id) as [r |] eqn:Hr.
  - destruct (bool_decide _) eqn:Hcol.
    + apply bool_decide_eq_true in Hcol as (id' & r' & Hr' & Hne & Heq).
      split; [| by intros _; split; [| eexists]].
      split; [done |]. intros (r0 & [= <-] & Hfree).
      by destruct (Hfree id' r' Hne Hr').
    + apply bool_decide_eq_false in Hcol.
      split; [| done]. split; [| done]. intros _. exists r. split; [done |].
      intros id' r' Hne Hr' Heq. apply Hcol. by exists id', r'.
  - split; [| by intros _; split; [| eexists]].
    split; [done |]. by intros (r0 & [=] & _).
Qed.

(** *** Usage counters *)


(** *** Usage records and deletion *)

(** X17.  A usage record is stored only for an existing customer, under
    the generated id and with the fields given; from then on the
    customer cannot be deleted: [deleteCustomer] throws a
    [DatabaseError] and customer and record stay. *)
Theorem createUsageRecord_keeps_customer (env : Sqlite.Env)
    (record : UsageData) (db : Database) (stored : UsageRecord) :
  (createUsageRecord env record db).1 = Returned stored →
  stored = {| id := Sqlite.uuidv4 env; record := record |}
  ∧ is_Some (customers db !! customerId record)
  ∧ customers (createUsageRecord env record db).2 = customers db
  ∧ usage_records (createUsageRecord env record db).2 !! Sqlite.uuidv4 env
    = Some (usageRowOf (Sqlite.uuidv4 env) record)
  ∧ is_returned
      (deleteCustomer (customerId record) (createUsageRecord env record db).2).1
    = false
  ∧ (deleteCustomer (customerId record) (createUsageRecord env record db).2).2
    = (createUsageRecord env record db).2.
Proof.
  intros Hret.
  destruct (createUsageRecord_cases env record db)
    as [[Hthrown _] | (Hfresh & [r Hr] & Hret' & ->)].
  { rewrite Hret in Hthrown. discriminate. }
  rewrite Hret' in Hret. injection Hret as <-.
  split; [done |]. split; [by exists r |]. split; [done |].
  cbn [usage_records]. rewrite lookup_insert_eq. split; [done |].
  unfold deleteCustomer, customers. cbn [adapter usage_records].
  fold (customers db). rewrite Hr.
  rewrite bool_decide_eq_true_2; [done |].
  exists (Sqlite.uuidv4 env), (usageRowOf (Sqlite.uuidv4 env) record).
  split; [apply lookup_insert_eq | done].
Qed.

Lemma createUsageRecord_keeps_customer_witness :
  {| id := Sqlite.uuidv4 StoreRun.third_call; record := StoreRun.search_record |}
  = {| id := Sqlite.uuidv4 StoreRun.third_call;
       record := StoreRun.search_record |}
  ∧ is_Some (customers StoreRun.with_ada !! customerId StoreRun.search_record)
  ∧ customers
      (createUsageRecord StoreRun.third_call StoreRun.search_record
         StoreRun.with_ada).2
    = customers StoreRun.with_ada
  ∧ usage_records
      (createUsageRecord StoreRun.third_call StoreRun.search_record
         StoreRun.with_ada).2
    !! Sqlite.uuidv4 StoreRun.third_call
    = Some (usageRowOf (Sqlite.uuidv4 StoreRun.third_call)
              StoreRun.search_record)
  ∧ is_returned
      (deleteCustomer (customerId StoreRun.search_record)
         (createUsageRecord StoreRun.third_call StoreRun.search_record
            StoreRun.with_ada).2).1
    = false
  ∧ (deleteCustomer (customerId StoreRun.search_record)
       (createUsageRecord StoreRun.third_call StoreRun.search_record
          StoreRun.with_ada).2).2
    = (createUsageRecord StoreRun.third_call StoreRun.search_record
         StoreRun.with_ada).2.
Proof.
  apply (createUsageRecord_keeps_customer StoreRun.third_call
           StoreRun.search_record StoreRun.with_ada).
  reflexivity.
Defined.

(** X18.  [createUsageRecord] for a customer that is not in the table
    throws a [DatabaseError] of the operation 'createUsageRecord' and
    stores nothing, whatever the record says. *)
Theorem createUsageRecord_unknown_customer (env : Sqlite.Env)
    (record : UsageData) (db : Database) :
  (getCustomer (customerId record) db).1 = Returned None →
  (createUsageRecord env record db).2 = db
  ∧ ∃ message,
      (createUsageRecord env record db).1
      = Thrown (DatabaseError message "createUsageRecord"
                  (Some (Sqlite.getTableName (adapter db) "usage_records"))).
Proof.
  rewrite getCustomer_lookup. cbn [fst]. intros [= Hnone].
  destruct (customers db !! customerId record) as [r |] eqn:Hr; [done |].
  unfold createUsageRecord.
  destruct (bool_decide (is_Some (usage_records db !! _)));
    [by split; [| eexists] |].
  rewrite Hr. rewrite bool_decide_eq_false_2 by (by intros [? ?]).
  by split; [| eexists].
Qed.

Lemma createUsageRecord_unknown_customer_witness :
  (createUsageRecord StoreRun.third_call StoreRun.search_record (empty None)).2
  = empty None
  ∧ ∃ message,
      (createUsageRecord StoreRun.third_call StoreRun.search_record
         (empty None)).1
      = Thrown (DatabaseError message "createUsageRecord"
                  (Some (Sqlite.getTableName (adapter (empty None))
                           "usage_records"))).
Proof.
  apply (createUsageRecord_unknown_customer StoreRun.third_call
           StoreRun.search_record (empty None)).
  reflexivity.
Defined.

(** X19.  When [deleteCustomer] returns, the customer is gone: reading
    by the id gives null, and in a database whose rows satisfy the
    table constraints so does reading by the e-mail address the customer
    had; every other customer and every usage record is as before.
    Deleting an id that is not in the table returns normally and changes
    nothing. *)
Theorem deleteCustomer_effect (id : string) (db : Database) :
  (deleteCustomer id db).1 = Returned tt →
  (getCustomer id (deleteCustomer id db).2).1 = Returned None
  ∧ (∀ id', id' ≠ id →
       (getCustomer id' (deleteCustomer id db).2).1 = (getCustomer id' db).1)
  ∧ usage_records (deleteCustomer id db).2 = usage_records db
  ∧ (∀ old, consistent db →
       (getCustomer id db).1 = Returned (Some old) →
       (getCustomerByEmail (Sqlite.email (Sqlite.fields old))
          (deleteCustomer id db).2).1 = Returned None)
  ∧ ((getCustomer id db).1 = Returned None → (deleteCustomer id db).2 = db).
Proof.
  intros Hret. unfold deleteCustomer in *.
  rewrite !getCustomer_lookup. cbn [fst].
  destruct (customers db !! id) as [r |] eqn:Hr.
  - destruct (bool_decide _); [done |]. cbn [snd].
    rewrite customers_with, lookup_delete_eq.
    split; [done |]. split; [| split; [done |]; split; [| done]].
    + intros id' Hne. rewrite !getCustomer_lookup. cbn [fst].
      by rewrite customers_with, lookup_delete_ne.
    + intros old Hdb [= <-]. rewrite getCustomerByEmail_missing; [done |].
      intros id' r'. rewrite customers_with.
      intros [Hne Hr']%lookup_delete_Some Heq.
      destruct Hdb as [_ E _ _ _]. destruct Hne. by apply (E id id' r r').
  - cbn [snd]. rewrite Hr. split; [done |]. split; [| split; [done |]].
    + intros id' _. by rewrite !getCustomer_lookup.
    + split; [| done]. by intros old _ [=].
Qed.

Lemma deleteCustomer_effect_witness :
  (getCustomer Run.ada_id (deleteCustomer Run.ada_id StoreRun.with_both).2).1
  = Returned None
  ∧ (∀ id', id' ≠ Run.ada_id →
       (getCustomer id' (deleteCustomer Run.ada_id StoreRun.with_both).2).1
       = (getCustomer id' StoreRun.with_both).1)
  ∧ usage_records (deleteCustomer Run.ada_id StoreRun.with_both).2
    = usage_records StoreRun.with_both
  ∧ (∀ old, consistent StoreRun.with_both →
       (getCustomer Run.ada_id StoreRun.with_both).1 = Returned (Some old) →
       (getCustomerByEmail (Sqlite.email (Sqlite.fields old))
          (deleteCustomer Run.ada_id StoreRun.with_both).2).1 = Returned None)
  ∧ ((getCustomer Run.ada_id StoreRun.with_both).1 = Returned None →
     (deleteCustomer Run.ada_id StoreRun.with_both).2 = StoreRun.with_both).
Proof.
  apply (deleteCustomer_effect Run.ada_id StoreRun.with_both).
  reflexivity.
Defined.

(** *** Credits *)


End StoreProps.

(** ** The manager's validation *)

Module ManagerProps.
Import Js DatabaseManager.

Lemma throw_if_any_cases message errors :
  (errors = [] ∧ throw_if_any message errors = Returned tt)
  ∨ (errors ≠ [] ∧ throw_if_any message errors
                   = Thrown (ValidationError message errors)).
Proof. destruct errors; [by left | by right]. Qed.

Lemma push_first_nil a field message b message' :
  push_first a field message b message' = [] ↔ a = false ∧ b = false.
Proof. destruct a, b; simpl; split; try done; by intros []. Qed.

Lemma address_test s : Accepted.address s ↔ Regex.test Regex.email s = true.
Proof. symmetry. apply RegexFacts.email_pattern. Qed.

Lemma address_nonempty s : Accepted.address s → s ≠ "".
Proof. intros Hs ->. by apply address_test in Hs. Qed.

Lemma status_listed s :
  includes customerStatuses (VStr s) = true ↔ s ∈ customerStatuses.
Proof.
  rewrite JsFacts.includes_true. split.
  - by intros (s' & [= <-] & Hin).
  - intros Hin. by exists s.
Qed.

Lemma customerDataErrors_nil customer :
  customerDataErrors customer = [] ↔ Accepted.customer customer.
Proof.
  unfold customerDataErrors, Accepted.customer.
  rewrite app_nil, !push_first_nil, !negb_false_iff.
  rewrite address_test, status_listed. split.
  - tauto.
  - intros [He Hs]. split; (split; [| done]); apply String.eqb_neq.
    + by apply address_nonempty, address_test.
    + intros Heq. rewrite Heq in Hs. unfold customerStatuses in Hs.
      rewrite !elem_of_cons, elem_of_nil in Hs. intuition discriminate.
Qed.

(** X21.  [createCustomer] of the manager hands a customer to the
    storage adapter exactly when the e-mail address has the form
    local@domain.tail (three non-empty parts without whitespace and
    without '@') and the status is one of active, suspended, deleted;
    every other customer is answered with a ValidationError carrying a
    non-empty list of field errors, and the adapter is not called. *)
Theorem createCustomer_validation {S : Type} `{CustomerAdapter S}
    (env : Sqlite.Env) (customer : Sqlite.CustomerData) (s : S) :
  (Accepted.customer customer →
     createCustomer env customer s
     = Manager.adapter_createCustomer env customer s)
  ∧ (¬ Accepted.customer customer →
     ∃ errors,
       errors ≠ []
       ∧ createCustomer env customer s
         = (Thrown (ValidationError "Customer validation failed" errors), s)).
Proof.
  unfold createCustomer, validateCustomerData.
  rewrite <- customerDataErrors_nil.
  destruct (throw_if_any_cases "Customer validation failed"
              (customerDataErrors customer)) as [[Hnil ->] | [Hsome ->]].
  - split; [done |]. by intros [].
  - split; [by intros ? |]. intros _. by eexists.
Qed.

Lemma given_but_false o ok :
  given_but o ok = false ↔ ∀ s, o = Some s → s = "" ∨ ok s = true.
Proof.
  destruct o as [s |]; simpl; [| by split].
  rewrite andb_false_iff, !negb_false_iff, String.eqb_eq. split.
  - by intros Hs s' [= <-].
  - intros Hs. by apply Hs.
Qed.

Lemma customerUpdateErrors_nil updates :
  customerUpdateErrors updates = [] ↔ Accepted.update updates.
Proof.
  unfold customerUpdateErrors, Accepted.update.
  rewrite !app_nil, !ValidationProps.push_if_nil, !given_but_false.
  assert ((match SqliteStore.Updates.credits updates with
           | Some n => Z.ltb n 0
           | None => false
           end) = false
          ↔ ∀ n, SqliteStore.Updates.credits updates = Some n → 0 ≤ n) as ->.
  { destruct (SqliteStore.Updates.credits updates) as [n |]; [| by split].
    rewrite Z.ltb_ge. split; [by intros ? ? [= <-] | by intros Hn; apply Hn]. }
  split; intros (He & Hs & Hc); (split; [| split; [| done]]).
  - intros e Heq. destruct (He e Heq) as [-> | Ht]; [by left | right].
    by apply address_test.
  - intros st Heq. destruct (Hs st Heq) as [-> | Ht]; [by left | right].
    by apply status_listed.
  - intros e Heq. destruct (He e Heq) as [-> | Ht]; [by left | right].
    by apply address_test.
  - intros st Heq. destruct (Hs st Heq) as [-> | Ht]; [by left | right].
    by apply status_listed.
Qed.

(** X22.  [updateCustomer] of the manager hands an update to the storage
    adapter exactly when the customer id is non-empty, the e-mail
    address, if given and not empty, has the form local@domain.tail, the
    status, if given and not empty, is one of active, suspended,
    deleted, and the credits, if given, are not negative; every other
    call throws a ValidationError with a non-empty list of field errors
    and the adapter is not called.  An empty e-mail address or status
    passes unexamined. *)
Theorem updateCustomer_validation {S : Type} `{CustomerAdapter S}
    (env : Sqlite.Env) (customerId : string) (updates : SqliteStore.Updates.t)
    (s : S) :
  (customerId ≠ "" ∧ Accepted.update updates →
     updateCustomer env customerId updates s
     = adapter_updateCustomer env customerId updates s)
  ∧ (¬ (customerId ≠ "" ∧ Accepted.update updates) →
     ∃ message errors,
       errors ≠ []
       ∧ updateCustomer env customerId updates s
         = (Thrown (ValidationError message errors), s)).
Proof.
  unfold updateCustomer, validateCustomerUpdateData.
  rewrite <- customerUpdateErrors_nil.
  destruct (String.eqb_spec customerId "") as [-> | Hid].
  - split; [by intros [? _] |]. intros _. unfold required.
    eexists _, _. split; [| reflexivity]. done.
  - destruct (throw_if_any_cases "Customer update validation failed"
                (customerUpdateErrors updates)) as [[Hnil ->] | [Hsome ->]].
    + split; [done |]. by intros [].
    + split; [by intros [_ ?] |]. intros _.
      eexists _, _. split; [| reflexivity]. done.
Qed.

(** X23.  Credits set through [updateCustomer] of the manager over the
    SQLite adapter are never negative: when the call returns and the
    update carries credits, the balance returned and stored is that
    number, and it is at least 0. *)
Theorem updateCustomer_credits_nonnegative (env : Sqlite.Env)
    (customerId : string) (updates : SqliteStore.Updates.t)
    (db : SqliteStore.Database) (c : Sqlite.CustomerInfo) (n : Z) :
  (updateCustomer env customerId updates db).1 = Returned c →
  SqliteStore.Updates.credits updates = Some n →
  0 ≤ n
  ∧ Sqlite.credits (Sqlite.fields c) = Some n
  ∧ (SqliteStore.getCustomer customerId
       (updateCustomer env customerId updates db).2).1
    = Returned (Some c).
Proof.
  intros Hret Hn. unfold updateCustomer, validateCustomerUpdateData in *.
  destruct (String.eqb customerId ""); [done |].
  destruct (throw_if_any_cases "Customer update validation failed"
              (customerUpdateErrors updates)) as [[Hnil Hv] | [_ Hv]];
    rewrite Hv in *; [| done].
  apply customerUpdateErrors_nil in Hnil as (_ & _ & Hcredits).
  cbn [adapter_updateCustomer sqlite_store] in *.
  split; [by apply Hcredits |].
  destruct (StoreProps.updateCustomer_cases env customerId updates db)
    as [[Hthrown _] | (r & Hr & _ & Hc & Hstate)].
  { rewrite Hret in Hthrown. discriminate. }
  rewrite Hc in Hret. injection Hret as <-. rewrite Hstate.
  split; [cbn; by rewrite Hn |].
  rewrite StoreProps.getCustomer_lookup. cbn [fst].
  by rewrite StoreProps.customers_with, lookup_insert_eq.
Qed.

Lemma updateCustomer_credits_nonnegative_witness :
  0 ≤ 35
  ∧ Sqlite.credits
      (Sqlite.fields
         (Sqlite.mapRowToCustomer
            (SqliteStore.apply_updates StoreRun.new_address 1700000120000
               (Sqlite.rowOf Run.ada_id 1700000000000 Run.ada))))
    = Some 35
  ∧ (SqliteStore.getCustomer Run.ada_id
       (updateCustomer StoreRun.third_call Run.ada_id StoreRun.new_address
          StoreRun.with_both).2).1
    = Returned
        (Some (Sqlite.mapRowToCustomer
                 (SqliteStore.apply_updates StoreRun.new_address 1700000120000
                    (Sqlite.rowOf Run.ada_id 1700000000000 Run.ada)))).
Proof.
  apply (updateCustomer_credits_nonnegative StoreRun.third_call Run.ada_id
           StoreRun.new_address StoreRun.with_both).
  - reflexivity.
  - reflexivity.
Defined.



(** *** Records *)

Lemma amount_ok v :
  is_number v = true ∧ Manager.negative v = false ↔ Accepted.amount v.
Proof. apply ValidationProps.balance_ok. Qed.

Lemma positive_ok v :
  is_number v = true ∧ not_positive v = false ↔ Accepted.positive v.
Proof.
  unfold Accepted.positive.
  destruct v; simpl; split;
    try (intros [? _]; discriminate); try (intros (? & ? & _); discriminate).
  - intros [_ Hn]. eexists. split; [done |]. by apply Z.leb_gt.
  - intros (m & [= <-] & Hm). split; [done |]. by apply Z.leb_gt.
Qed.

Lemma date_ok v : truthy v = true ∧ is_date v = true ↔ Accepted.date v.
Proof. apply ValidationProps.timestamp_ok. Qed.

Lemma boolean_ok v : is_boolean v = true ↔ ∃ b, v = VBool b.
Proof.
  destruct v; simpl; split; try discriminate; try (intros [? ?]; discriminate).
  - by eexists.
  - done.
Qed.

Lemma optional_amount_ok v :
  is_defined v && (negb (is_number v) || Manager.negative v) = false
  ↔ v = VUndef ∨ Accepted.amount v.
Proof.
  rewrite <- amount_ok. destruct v; simpl; split; try tauto; try done;
    try (intros [? | [? _]]; discriminate).
  by intros [? | [_ ?]].
Qed.

Lemma one_of_ok lits v :
  Forall (λ s, s ≠ "") lits →
  truthy v = true ∧ includes lits v = true ↔ Accepted.one_of lits v.
Proof.
  intros Hlits. unfold Accepted.one_of. rewrite JsFacts.includes_true.
  split; [by intros [_ ?] |].
  intros (s & -> & Hin). split; [| by exists s].
  apply JsFacts.truthy_string. by apply (proj1 (Forall_forall _ _) Hlits).
Qed.

Lemma usageRecordErrors_nil record :
  usageRecordErrors record = [] ↔ Accepted.usageRecord record.
Proof.
  unfold usageRecordErrors, Accepted.usageRecord.
  rewrite !app_nil, !ValidationProps.push_if_nil, optional_amount_ok.
  rewrite !orb_false_iff, !negb_false_iff.
  rewrite <- (amount_ok (get "cost" record)), <- date_ok, boolean_ok. tauto.
Qed.

Lemma paymentIntentErrors_nil paymentIntent :
  paymentIntentErrors paymentIntent = [] ↔ Accepted.paymentIntent paymentIntent.
Proof.
  unfold paymentIntentErrors, Accepted.paymentIntent.
  rewrite !app_nil, !ValidationProps.push_if_nil.
  rewrite !orb_false_iff, !negb_false_iff.
  rewrite <- positive_ok. tauto.
Qed.

Lemma subscriptionErrors_nil subscription :
  subscriptionErrors subscription = [] ↔ Accepted.subscription subscription.
Proof.
  unfold subscriptionErrors, Accepted.subscription.
  rewrite !app_nil, !ValidationProps.push_if_nil.
  rewrite !orb_false_iff, !negb_false_iff.
  rewrite <- !date_ok, <- (one_of_ok subscriptionStatuses);
    [tauto | by repeat constructor].
Qed.

Lemma webhookEventErrors_nil event :
  webhookEventErrors event = [] ↔ Accepted.webhookEvent event.
Proof.
  unfold webhookEventErrors, Accepted.webhookEvent.
  rewrite !app_nil, !ValidationProps.push_if_nil.
  rewrite !orb_false_iff, !negb_false_iff.
  rewrite <- (amount_ok (get "retryCount" event)),
    <- (one_of_ok webhookStatuses);
    [tauto | by repeat constructor].
Qed.

Lemma validated_cases {S : Type} message errors
    (create : S → outcome (gmap string value) * S) (s : S) :
  (errors = [] → validated (throw_if_any message errors) create s = create s)
  ∧ (errors ≠ [] →
     validated (throw_if_any message errors) create s
     = (Thrown (ValidationError message errors), s)).
Proof. by destruct errors. Qed.

(** X25.  [createUsageRecord] of the manager hands a record to the
    storage adapter exactly when customer id and tool name are truthy,
    the cost is a number that is not negative, the credits are absent or
    such a number, the timestamp is a Date and [success] is a boolean;
    every other record is answered with a ValidationError carrying a
    non-empty list of field errors and the adapter is not called. *)
Theorem createUsageRecord_validation {S : Type} `{RecordAdapter S}
    (env : Sqlite.Env) (record : gmap string value) (s : S) :
  (Accepted.usageRecord record →
     createUsageRecord env record s = adapter_createUsageRecord env record s)
  ∧ (¬ Accepted.usageRecord record →
     ∃ errors,
       errors ≠ []
       ∧ createUsageRecord env record s
         = (Thrown (ValidationError "Usage record validation failed" errors),
            s)).
Proof.
  rewrite <- usageRecordErrors_nil. unfold createUsageRecord, validateUsageRecord.
  destruct (validated_cases "Usage record validation failed"
              (usageRecordErrors record)
              (adapter_createUsageRecord env record) s) as [Hok Hbad].
  split; [done |]. intros Herr. eexists. split; [exact Herr | by apply Hbad].
Qed.

(** X26.  Payment intents, subscriptions and webhook events are checked
    before the storage adapter sees them.  A payment intent passes
    exactly with truthy id, currency and customer id and a positive
    amount; a subscription exactly with truthy Stripe subscription id,
    customer id and plan id, a status among active, canceled, past_due,
    trialing, incomplete and two Dates for the current period; a webhook
    event exactly with truthy type and data, a status among pending,
    processed, failed, retrying and a retry count that is a number and
    not negative.  What does not pass is answered with a ValidationError
    and the adapter is not called. *)
Theorem create_validation {S : Type} `{RecordAdapter S}
    (env : Sqlite.Env) (x : gmap string value) (s : S) :
  ((Accepted.paymentIntent x →
      createPaymentIntent env x s = adapter_createPaymentIntent env x s)
   ∧ (¬ Accepted.paymentIntent x →
      ∃ errors,
        errors ≠ []
        ∧ createPaymentIntent env x s
          = (Thrown (ValidationError "Payment intent validation failed" errors),
             s)))
  ∧ ((Accepted.subscription x →
        createSubscription env x s = adapter_createSubscription env x s)
     ∧ (¬ Accepted.subscription x →
        ∃ errors,
          errors ≠ []
          ∧ createSubscription env x s
            = (Thrown (ValidationError "Subscription validation failed" errors),
               s)))
  ∧ ((Accepted.webhookEvent x →
        createWebhookEvent env x s = adapter_createWebhookEvent env x s)
     ∧ (¬ Accepted.webhookEvent x →
        ∃ errors,
          errors ≠ []
          ∧ createWebhookEvent env x s
            = (Thrown (ValidationError "Webhook event validation failed" errors),
               s))).
Proof.
  rewrite <- paymentIntentErrors_nil, <- subscriptionErrors_nil,
    <- webhookEventErrors_nil.
  unfold createPaymentIntent, validatePaymentIntent, createSubscription,
    validateSubscription, createWebhookEvent, validateWebhookEvent.
  split; [| split].
  - destruct (validated_cases "Payment intent validation failed"
                (paymentIntentErrors x)
                (adapter_createPaymentIntent env x) s) as [Hok Hbad].
    split; [done |]. intros Herr. eexists. split; [exact Herr | by apply Hbad].
  - destruct (validated_cases "Subscription validation failed"
                (subscriptionErrors x)
                (adapter_createSubscription env x) s) as [Hok Hbad].
    split; [done |]. intros Herr. eexists. split; [exact Herr | by apply Hbad].
  - destruct (validated_cases "Webhook event validation failed"
                (webhookEventErrors x)
                (adapter_createWebhookEvent env x) s) as [Hok Hbad].
    split; [done |]. intros Herr. eexists. split; [exact Herr | by apply Hbad].
Qed.

End ManagerProps.

(** ** Configuration validators and the payment endpoint *)

Module ValidatorProps.
Import Validators.

Lemma optional_check_false o ok :
  given_but o ok = false ↔ ∀ s, o = Some s → s = "" ∨ ok s = true.
Proof.
  destruct o as [s |]; simpl; [| by split].
  rewrite andb_false_iff, !negb_false_iff, String.eqb_eq. split.
  - by intros Hs s' [= <-].
  - intros Hs. by apply Hs.
Qed.



Lemma validate_None {errors : list (string * string)} {message} :
  (if Nat.ltb 0 (length errors)
   then Some (ValidationError message errors) else None) = None
  ↔ errors = [].
Proof. by destruct errors. Qed.


(** *** Table names *)

Lemma chars_append s1 s2 :
  String.list_ascii_of_string (s1 +:+ s2)
  = (String.list_ascii_of_string s1 ++ String.list_ascii_of_string s2)%list.
Proof. induction s1 as [| c s1 IH]; [done |]. cbn. by rewrite <- IH. Qed.

Lemma identifier_chars s :
  Regex.test Regex.identifier s = true →
  Forall (λ c, identifier_char c = true) (String.list_ascii_of_string s).
Proof.
  intros (c & rest & -> & Hc & Hrest)%RegexFacts.identifier_pattern.
  constructor; [| done].
  unfold identifier_char. apply orb_true_iff in Hc as [-> | ->]; [done |].
  by rewrite orb_true_r.
Qed.

Lemma poolErrors_nil p :
  poolErrors p = []
  ↔ (∀ lo, pool_min p = Some lo → 0 ≤ lo)
    ∧ (∀ hi, pool_max p = Some hi → 1 ≤ hi)
    ∧ (∀ lo hi, pool_min p = Some lo → pool_max p = Some hi → lo ≤ hi)
    ∧ (∀ t, acquire p = Some t → 1000 ≤ t)
    ∧ (∀ t, idle p = Some t → 1000 ≤ t).
Proof.
  unfold poolErrors. rewrite !app_nil, !ValidationProps.push_if_nil.
  destruct (pool_min p) as [lo |], (pool_max p) as [hi |],
    (acquire p) as [ta |], (idle p) as [ti |]; cbn [given_and];
    rewrite ?Z.ltb_ge; split;
    try (intros (? & ? & ? & ? & ?); repeat split;
         intros; simplify_eq; first [done | lia]);
    intros (H1 & H2 & H3 & H4 & H5); repeat split;
    first [done | by apply H1 | by apply H2 | by apply H3
          | by apply H4 | by apply H5].
Qed.

(** X28.  A database configuration that [validateDatabaseConfig] lets
    through names one of the three supported database types and a
    non-empty connection string, its pool bounds are ordered (0 <= min,
    1 <= max, min <= max, timeouts of at least 1000 ms), and every table
    name the SQLite adapter builds from it, the prefix followed by the
    name of the table, consists of letters, digits and underscores only,
    so that interpolating it into a statement cannot change the
    statement. *)
Theorem validated_database_config (config : DatabaseConfig) (table : string) :
  validateDatabaseConfig config = None →
  Forall (λ c, identifier_char c = true) (String.list_ascii_of_string table) →
  Forall (λ c, identifier_char c = true)
         (String.list_ascii_of_string
            (Sqlite.getTableName
               {| Sqlite.tablePrefix := tablePrefix config;
                  Sqlite.customers := ∅ |} table))
  ∧ type config ∈ supportedTypes
  ∧ (∃ cs, connectionString config = Some cs ∧ cs ≠ "")
  ∧ ∀ p, pool config = Some p →
         (∀ lo, pool_min p = Some lo → 0 ≤ lo)
         ∧ (∀ hi, pool_max p = Some hi → 1 ≤ hi)
         ∧ (∀ lo hi, pool_min p = Some lo → pool_max p = Some hi → lo ≤ hi)
         ∧ (∀ t, acquire p = Some t → 1000 ≤ t)
         ∧ (∀ t, idle p = Some t → 1000 ≤ t).
Proof.
  unfold validateDatabaseConfig. rewrite validate_None.
  unfold databaseConfigErrors. rewrite !app_nil.
  rewrite !ValidationProps.push_if_nil, negb_false_iff, optional_check_false.
  intros (Hty & Hcs & Hpool & Hprefix & _) Htable.
  split; [| split; [| split]].
  - unfold Sqlite.getTableName. cbn [Sqlite.tablePrefix].
    destruct (Sqlite.str_or_null (tablePrefix config)) as [prefix |] eqn:Hp.
    + apply CustomerProps.str_or_null_Some in Hp as [Hp Hne].
      destruct (Hprefix prefix Hp) as [-> | Hid]; [done |].
      rewrite chars_append. apply Forall_app. split; [| done].
      by apply identifier_chars.
    + rewrite chars_append. apply Forall_app. split; [| done].
      by repeat constructor.
  - apply JsFacts.includes_true in Hty as (s & [= <-] & Hin). done.
  - destruct (connectionString config) as [cs |]; [| done].
    exists cs. split; [done |]. intros ->. done.
  - intros p Hp. rewrite Hp in Hpool. by apply poolErrors_nil.
Qed.

Lemma validated_database_config_witness :
  Forall (λ c, identifier_char c = true)
         (String.list_ascii_of_string
            (Sqlite.getTableName
               {| Sqlite.tablePrefix :=
                    tablePrefix
                      {| type := "sqlite";
                         connectionString := Some "./billing.db";
                         pool := Some {| pool_min := Some 1; pool_max := Some 4;
                                         acquire := None; idle := Some 10000 |};
                         tablePrefix := Some "billing_";
                         backup := None |};
                  Sqlite.customers := ∅ |} "customers"))
  ∧ type {| type := "sqlite";
            connectionString := Some "./billing.db";
            pool := Some {| pool_min := Some 1; pool_max := Some 4;
                            acquire := None; idle := Some 10000 |};
            tablePrefix := Some "billing_";
            backup := None |} ∈ supportedTypes
  ∧ (∃ cs, connectionString
             {| type := "sqlite";
                connectionString := Some "./billing.db";
                pool := Some {| pool_min := Some 1; pool_max := Some 4;
                                acquire := None; idle := Some 10000 |};
                tablePrefix := Some "billing_";
                backup := None |} = Some cs ∧ cs ≠ "")
  ∧ ∀ p, pool {| type := "sqlite";
                 connectionString := Some "./billing.db";
                 pool := Some {| pool_min := Some 1; pool_max := Some 4;
                                 acquire := None; idle := Some 10000 |};
                 tablePrefix := Some "billing_";
                 backup := None |} = Some p →
         (∀ lo, pool_min p = Some lo → 0 ≤ lo)
         ∧ (∀ hi, pool_max p = Some hi → 1 ≤ hi)
         ∧ (∀ lo hi, pool_min p = Some lo → pool_max p = Some hi → lo ≤ hi)
         ∧ (∀ t, acquire p = Some t → 1000 ≤ t)
         ∧ (∀ t, idle p = Some t → 1000 ≤ t).
Proof.
  apply (validated_database_config
           {| type := "sqlite";
              connectionString := Some "./billing.db";
              pool := Some {| pool_min := Some 1; pool_max := Some 4;
                              acquire := None; idle := Some 10000 |};
              tablePrefix := Some "billing_";
              backup := None |} "customers").
  - reflexivity.
  - repeat constructor.
Defined.

(** *** The payment endpoint *)

(** X29.  [processPayment] of the endpoints never refuses: whatever the
    amount (zero and negative amounts included), the currency and the
    customer, it reports success with the amount and currency given and
    an id made of 'pi_' and the random text, and it changes no state.
    In the metadata it returns, an entry of the caller's metadata wins
    over the tool name and the customer id of the call, which appear
    only under keys the caller's metadata does not use. *)
Theorem processPayment_always_succeeds (rnd : string)
    (params : Payments.PaymentParams) (this : Endpoints.StripeAPIEndpoints) :
  ∃ r,
    Payments.processPayment rnd params this = (Returned r, this)
    ∧ Payments.success r = true
    ∧ Payments.result_amount r = Some (Payments.amount params)
    ∧ Payments.result_currency r = Some (Payments.currency params)
    ∧ Payments.paymentIntentId r = Some ("pi_" +:+ rnd)
    ∧ Payments.error r = None
    ∧ ∃ m,
        Payments.result_metadata r = Some m
        ∧ (∀ k v, default ∅ (Payments.metadata params) !! k = Some v →
                  m !! k = Some v)
        ∧ (default ∅ (Payments.metadata params) !! "customerId" = None →
           m !! "customerId" = Some (Payments.customerId params))
        ∧ (default ∅ (Payments.metadata params) !! "toolName" = None →
           m !! "toolName" = Some (Payments.toolName params)).
Proof.
  eexists. split; [reflexivity |]. repeat split.
  eexists. split; [reflexivity |]. split; [| split].
  - intros k v Hk. by apply lookup_union_Some_l.
  - intros Hnone. rewrite lookup_union_r by done.
    by rewrite lookup_insert_ne, lookup_singleton_eq.
  - intros Hnone. rewrite lookup_union_r by done.
    by rewrite lookup_insert_eq.
Qed.

End ValidatorProps.
